(** * mcp-arangodb-async: tool registry and dispatch engine

    A shallow embedding of the registry population, the tool listing, the
    dispatcher ([call_tool], [_invoke_handler]), the start-up connection loop
    ([server_lifespan]), the error decorator ([handle_errors]) and the handlers
    [handle_backup] and [handle_bulk_insert], with the properties of the
    specification stated over them. *)

From Stdlib Require Import List String Ascii ZArith Bool Lia QArith DecimalString.
Import ListNotations.
Local Open Scope string_scope.
Local Open Scope Z_scope.

Set Implicit Arguments.
Set Warnings "-register-all".

(** ** Python values *)

(** A Python [dict] keeps its keys in insertion order and holds each key once:
    an association list whose update replaces in place or appends. *)
Definition dict (A : Type) : Type := list (string * A).

Fixpoint dict_get {A : Type} (d : dict A) (k : string) : option A :=
  match d with
  | [] => None
  | (k', v) :: d' => if String.eqb k' k then Some v else dict_get d' k
  end.

(** [d[k] = v] *)
Fixpoint dict_set {A : Type} (d : dict A) (k : string) (v : A) : dict A :=
  match d with
  | [] => [(k, v)]
  | (k', v') :: d' =>
      if String.eqb k' k then (k', v) :: d' else (k', v') :: dict_set d' k v
  end.

Definition dict_keys {A : Type} (d : dict A) : list string := map fst d.
Definition dict_values {A : Type} (d : dict A) : list A := map snd d.

(** The JSON-shaped values that travel through the dispatcher.  [VFloat] holds
    the exact quotient of a true division; Python rounds it to a double. *)
Inductive value : Type :=
| VNone
| VBool (b : bool)
| VInt (z : Z)
| VFloat (q : Q)
| VStr (s : string)
| VList (l : list value)
| VDict (d : list (string * value)).

(** Truth value of an object, as [if x], [x or y] and [bool(x)] test it. *)
Definition truthy (v : value) : bool :=
  match v with
  | VNone => false
  | VBool b => b
  | VInt z => negb (z =? 0)
  | VFloat q => negb (Qnum q =? 0)
  | VStr s => negb (String.eqb s "")
  | VList l => match l with [] => false | _ => true end
  | VDict d => match d with [] => false | _ => true end
  end.

(** [d.get(k)] and [d.get(k, default)] on a dict of values. *)
Definition get_or (d : dict value) (k : string) (default : value) : value :=
  match dict_get d k with Some v => v | None => default end.
Definition get (d : dict value) (k : string) : value := get_or d k VNone.

(** [x or y] *)
Definition py_or (x y : value) : value := if truthy x then x else y.

(** ** Exceptions *)

(** Which of the classes named in the [except] clauses of this code an
    exception derives from.  [KeyError], [TypeError] and [ArangoError] sit in
    separate branches of the hierarchy below [Exception]. *)
Inductive exc_base : Type :=
| BaseKeyError
| BaseArangoError
| BaseTypeError
| BaseOther.

(** An instance of [Exception]: [type(e).__name__], the handled base class it
    derives from, and [str(e)]. *)
Record exn : Type := Exn {
  exn_class : string;
  exn_base : exc_base;
  exn_str : string
}.

Inductive outcome (A : Type) : Type :=
| Return (a : A)
| Raise (e : exn).
Arguments Return {A} a.
Arguments Raise {A} e.

Definition KeyError (k : string) : exn :=
  Exn "KeyError" BaseKeyError ("'" ++ k ++ "'").
Definition TypeError (msg : string) : exn := Exn "TypeError" BaseTypeError msg.
Definition ValueError (msg : string) : exn := Exn "ValueError" BaseOther msg.
Definition RuntimeError (msg : string) : exn := Exn "RuntimeError" BaseOther msg.

Definition is_TypeError (e : exn) : bool :=
  match exn_base e with BaseTypeError => true | _ => false end.

(** ** Input models (pydantic) *)

(** The annotations used in models.py. *)
Inductive FieldType : Type :=
| TAny
| TStr
| TInt (ge : option Z)
| TBool
| TLiteral (choices : list string)
| TDictStrAny
| TList (item : FieldType)
| TOptional (inner : FieldType).

(** One entry of a validation error: kind, location (field names and, inside
    a list, indexes), message, the input at fault and, for the kinds that have
    one, the context of the message. *)
Record LineError : Type := {
  err_type : string;
  err_loc : list value;
  err_msg : string;
  err_input : value;
  err_ctx : option (dict value)
}.

(** What validating one value against one annotation gives: the value to store,
    or at least one error. *)
Inductive checked : Type :=
| Valid (v : value)
| Invalid (first : LineError) (rest : list LineError).

(** A model field: [default = None] is a required field; [alias] is the wire
    name given with [alias=] or [validation_alias=]. *)
Record Field : Type := {
  f_name : string;
  f_alias : option string;
  f_type : FieldType;
  f_default : option value
}.

Record Model : Type := {
  populate_by_name : bool;
  fields : list Field
}.

(** The key under which a field is reported and first looked up. *)
Definition wire_name (f : Field) : string :=
  match f_alias f with Some a => a | None => f_name f end.

(** The value a field is read from: the alias when the field has one and the
    input holds it; the field's own name when there is no alias, or when the
    model sets [populate_by_name] and the alias is not in the input. *)
Definition field_source (m : Model) (f : Field) (raw : dict value) : option value :=
  match f_alias f with
  | None => dict_get raw (f_name f)
  | Some a =>
      match dict_get raw a with
      | Some v => Some v
      | None => if populate_by_name m then dict_get raw (f_name f) else None
      end
  end.

Definition missing_error (f : Field) (raw : dict value) : LineError :=
  {| err_type := "missing"; err_loc := [VStr (wire_name f)];
     err_msg := "Field required"; err_input := VDict raw; err_ctx := None |}.

Definition at_field (f : Field) (e : LineError) : LineError :=
  {| err_type := err_type e; err_loc := VStr (wire_name f) :: err_loc e;
     err_msg := err_msg e; err_input := err_input e; err_ctx := err_ctx e |}.

Section Validation.

(** The validator of a single annotation is pydantic's; the model-level rules
    below are stated over any such validator. *)
Variable check : FieldType -> value -> checked.

(** One field: its stored value, or its errors. *)
Definition validate_field (m : Model) (raw : dict value) (f : Field)
  : value + list LineError :=
  match field_source m f raw with
  | Some v =>
      match check (f_type f) v with
      | Valid v' => inl v'
      | Invalid e es => inr (map (at_field f) (e :: es))
      end
  | None =>
      match f_default f with
      | Some d => inl d
      | None => inr [missing_error f raw]
      end
  end.

(** All fields are validated, in declaration order, and every error is kept;
    keys of the input that no field reads are ignored. *)
Fixpoint validate_fields (m : Model) (raw : dict value) (fs : list Field)
  : dict value * list LineError :=
  match fs with
  | [] => ([], [])
  | f :: fs' =>
      let '(vals, errs) := validate_fields m raw fs' in
      match validate_field m raw f with
      | inl v => ((f_name f, v) :: vals, errs)
      | inr es => (vals, (es ++ errs)%list)
      end
  end.

(** [parsed.model_dump(exclude_none=True)]: field names, without the fields
    whose value is [None]. *)
Definition exclude_none (d : dict value) : dict value :=
  filter (fun kv => match snd kv with VNone => false | _ => true end) d.

(** [model( **raw).model_dump(exclude_none=True)], or the errors of the
    [ValidationError] it raises. *)
Definition validate_model (m : Model) (raw : dict value)
  : dict value + list LineError :=
  match validate_fields m raw (fields m) with
  | (vals, []) => inl (exclude_none vals)
  | (_, e :: es) => inr (e :: es)
  end.

End Validation.

(** The documentation link pydantic adds to each entry; [version] is the
    major.minor version of the installed pydantic. *)
Definition error_url (version : string) (e : LineError) : string :=
  "https://errors.pydantic.dev/" ++ version ++ "/v/" ++ err_type e.

(** One entry of [json.loads(ve.json())]. *)
Definition line_error_json (version : string) (e : LineError) : value :=
  VDict ([("type", VStr (err_type e)); ("loc", VList (err_loc e));
          ("msg", VStr (err_msg e)); ("input", err_input e)]
         ++ match err_ctx e with
            | Some ctx => [("ctx", VDict ctx)]
            | None => []
            end
         ++ [("url", VStr (error_url version e))])%list.

(** [json.loads(ve.json())]: the structured list of violations. *)
Definition ve_json (version : string) (errs : list LineError) : value :=
  VList (map (line_error_json version) errs).

(** ** The engine: registry, connection, dispatch *)

(** [types.TextContent(type="text", text=json.dumps(data))]; [c_text] holds the
    JSON document that [json.dumps] prints. *)
Record TextContent : Type := {
  c_type : string;
  c_text : value
}.

Definition _json_content (data : value) : list TextContent :=
  [{| c_type := "text"; c_text := data |}].

Inductive call_shape : Type :=
| Kwargs
| Bundle.

Section Engine.

(** The outside of the process (database server, file system), the loaded
    configuration, the client object and the database handle. *)
Variables World Config Client Db : Type.

(** What the run leaves behind for the properties to count. *)
Inductive event : Type :=
| EvValidate (tool : string)
| EvLoadConfig
| EvConnect
| EvSleep
| EvCall (shape : call_shape) (db : Db) (args : dict value).

Definition is_connect (e : event) : bool :=
  match e with EvConnect => true | _ => false end.
Definition count_connects (tr : list event) : nat := List.length (filter is_connect tr).

(** The collaborators that are not part of the engine: config loading, the
    database client and pydantic (its validator of one annotation, its schema
    generator and its major.minor version, which the error links carry). *)
Record Collaborators : Type := {
  load_config : World -> outcome Config;
  get_client_and_db : Config -> World -> outcome (Client * Db) * World;
  check : FieldType -> value -> checked;
  model_json_schema : Model -> value;
  pydantic_version : string
}.

(** A Python callable used as a handler.  A call first binds its arguments to
    the parameters, which raises [TypeError] when they do not fit, and only
    then runs the body. *)
Record Callable : Type := {
  binds_kwargs : dict value -> bool;
  binds_bundle : bool;
  run_kwargs : Db -> dict value -> World -> outcome value * World;
  run_bundle : Db -> dict value -> World -> outcome value * World
}.

(** [handler(db, **args)] *)
Definition call_kwargs (h : Callable) (db : Db) (args : dict value) (w : World)
  : outcome value * World :=
  if binds_kwargs h args then run_kwargs h db args w
  else (Raise (TypeError "got an unexpected keyword argument"), w).

(** [handler(db, args)] *)
Definition call_bundle (h : Callable) (db : Db) (args : dict value) (w : World)
  : outcome value * World :=
  if binds_bundle h then run_bundle h db args w
  else (Raise (TypeError "takes 1 positional argument but 2 were given"), w).

Record ToolRegistration : Type := {
  reg_name : string;
  reg_description : string;
  reg_model : Model;
  reg_handler : Callable
}.

(** *** Registry population *)

(** Modelled from the spec: the declaration of [TOOL_REGISTRY] is in
    tool_registry.py, which is not among the sources.  The spec calls it a
    mapping from tool name to registration, and entry.py uses it as a [dict]
    (subscript assignment, [get], [values], [len], truth value) that holds
    nothing before the first assignment. *)
Definition empty_registry : dict ToolRegistration := [].

(** [TOOL_REGISTRY[key] = registration], one statement after the other. *)
Definition populate (regs : list (string * ToolRegistration)) : dict ToolRegistration :=
  fold_left (fun d kr => dict_set d (fst kr) (snd kr)) regs empty_registry.

(** The check at the head of [server_lifespan]. *)
Definition validate_registry (registry : dict ToolRegistration) : outcome nat :=
  match registry with
  | [] => Raise (RuntimeError
            "Tool registry is empty. No tools have been registered. This indicates a critical initialization error.")
  | _ => Return (List.length registry)
  end.

(** The last and the first registration written under a key. *)
Fixpoint last_assigned (regs : list (string * ToolRegistration)) (k : string)
  : option ToolRegistration :=
  match regs with
  | [] => None
  | (k', r) :: rest =>
      match last_assigned rest k with
      | Some r' => Some r'
      | None => if String.eqb k' k then Some r else None
      end
  end.

Definition first_assigned (regs : list (string * ToolRegistration)) (k : string)
  : option ToolRegistration := dict_get regs k.

(** *** Start-up connection *)

(** The lifespan context [{"db": db, "client": client}].  A missing entry and
    an entry holding [None] read the same through [.get]. *)
Record Lifespan : Type := {
  ls_db : option Db;
  ls_client : option Client
}.

(** [range(start, stop)] *)
Definition py_range (start stop : Z) : list Z :=
  map (fun i => start + Z.of_nat i) (seq 0 (Z.to_nat (stop - start))).

(** The attempts [k+1 .. k+n]. *)
Definition attempts_from (k n : nat) : list Z :=
  map (fun i => 1 + Z.of_nat i) (seq k n).

(** The [n] connections tried one after the other from the outside [w] all
    fail. *)
Fixpoint attempts_fail (ext : Collaborators) (cfg : Config) (n : nat) (w : World)
  : Prop :=
  match n with
  | O => True
  | S n' =>
      exists e w1,
        get_client_and_db ext cfg w = (Raise e, w1) /\ attempts_fail ext cfg n' w1
  end.

(** The body of [for attempt in ...]: connect; on failure sleep and go on while
    [attempt < retries], otherwise give up. *)
Fixpoint connect_loop (ext : Collaborators) (cfg : Config) (retries : Z)
  (attempts : list Z) (w : World) : option (Client * Db) * World * list event :=
  match attempts with
  | [] => (None, w, [])
  | attempt :: rest =>
      match get_client_and_db ext cfg w with
      | (Return conn, w') => (Some conn, w', [EvConnect])
      | (Raise _, w') =>
          if attempt <? retries then
            let '(r, w'', tr) := connect_loop ext cfg retries rest w' in
            (r, w'', EvConnect :: EvSleep :: tr)
          else (None, w', [EvConnect])
      end
  end.

Definition connect_with_retry (ext : Collaborators) (cfg : Config) (retries : Z)
  (w : World) : option (Client * Db) * World * list event :=
  connect_loop ext cfg retries (py_range 1 (Z.max 1 retries + 1)) w.

(** [server_lifespan] up to its [yield]; [retries] is
    [int(os.getenv("ARANGO_CONNECT_RETRIES", "3"))]. *)
Definition server_lifespan (ext : Collaborators) (registry : dict ToolRegistration)
  (retries : Z) (w : World) : outcome Lifespan * World * list event :=
  match validate_registry registry with
  | Raise e => (Raise e, w, [])
  | Return _ =>
      match load_config ext w with
      | Raise e => (Raise e, w, [EvLoadConfig])
      | Return cfg =>
          let '(r, w', tr) := connect_with_retry ext cfg retries w in
          (Return {| ls_db := option_map snd r; ls_client := option_map fst r |},
           w', EvLoadConfig :: tr)
      end
  end.

(** *** Tool listing *)

Record Tool : Type := {
  tool_name : string;
  tool_description : string;
  inputSchema : value
}.

Definition env_truthy (v : option string) : bool :=
  match v with Some s => negb (String.eqb s "") | None => false end.

Definition compat_baseline (getenv : string -> option string) : bool :=
  let compat := getenv "MCP_COMPAT_TOOLSET" in
  match compat with
  | Some c => String.eqb c "baseline"
  | None => env_truthy (getenv "PYTEST_CURRENT_TEST")
  end.

Definition handle_list_tools (ext : Collaborators) (registry : dict ToolRegistration)
  (getenv : string -> option string) : list Tool :=
  let tools :=
    map (fun reg => {| tool_name := reg_name reg;
                       tool_description := reg_description reg;
                       inputSchema := model_json_schema ext (reg_model reg) |})
        (dict_values registry) in
  if compat_baseline getenv then firstn 7 tools else tools.

End Engine.

Section Dispatcher.

Variables World Config Client Db : Type.

(** *** Request context *)

(** [ctx.lifespan_context] is a mapping or [None]. *)
Record RequestContext : Type := {
  lifespan_context : option (Lifespan Client Db)
}.

(** The server object: the attribute [_safe_request_context] behind the
    [request_context] property, unset until the setter stores a context (or
    [None]) in it. *)
Record Server : Type := {
  _safe_request_context : option (option RequestContext)
}.

(** [_safe_get_request_context]: the stored context or, when none was stored, a
    new [SimpleNamespace(lifespan_context={})] made for this access. *)
Definition request_context (srv : Server) : option RequestContext :=
  match _safe_request_context srv with
  | Some ctx => ctx
  | None => Some {| lifespan_context := Some {| ls_db := None; ls_client := None |} |}
  end.

(** [ctx.lifespan_context.get("db") if ctx and ctx.lifespan_context else None] *)
Definition cached_db (ctx : option RequestContext) : option Db :=
  match ctx with
  | Some c =>
      match lifespan_context c with
      | Some ls => ls_db ls
      | None => None
      end
  | None => None
  end.

(** The two assignments under [if ctx and ctx.lifespan_context is not None].
    They write into the object the getter returned: the stored context when
    there is one, and otherwise an object nothing else refers to. *)
Definition cache_connection (srv : Server) (client : Client) (db_conn : Db) : Server :=
  match _safe_request_context srv with
  | Some (Some c) =>
      match lifespan_context c with
      | Some _ =>
          {| _safe_request_context :=
               Some (Some {| lifespan_context :=
                               Some {| ls_db := Some db_conn; ls_client := Some client |} |}) |}
      | None => srv
      end
  | Some None => srv
  | None => srv
  end.

(** *** Handler invocation *)

(** [_invoke_handler]: keyword-expanded call first; a [TypeError] coming out of
    it leads to the call with the single dictionary. *)
Definition _invoke_handler (h : Callable World Db) (db : Db) (args : dict value)
  (w : World) : outcome value * World * list (event Db) :=
  match call_kwargs h db args w with
  | (Return r, w') => (Return r, w', [EvCall Kwargs db args])
  | (Raise e, w') =>
      if is_TypeError e then
        let '(r, w'') := call_bundle h db args w' in
        (r, w'', [EvCall Kwargs db args; EvCall Bundle db args])
      else (Raise e, w', [EvCall Kwargs db args])
  end.

(** *** The error decorator of handlers.py *)

(** A handler function before decoration, called as [func(db)] ([None]) or as
    [func(db, args)]. *)
Definition HandlerFn : Type := Db -> option value -> World -> outcome value * World.

Definition error_result (msg : string) (kind : string) : value :=
  VDict [("error", VStr msg); ("type", VStr kind)].

(** The [except] clauses of [wrapper], first match first. *)
Definition map_exception (e : exn) : value :=
  match exn_base e with
  | BaseKeyError =>
      error_result ("Missing required parameter: " ++ exn_str e) "KeyError"
  | BaseArangoError =>
      error_result ("Database operation failed: " ++ exn_str e) "ArangoError"
  | _ => error_result ("Operation failed: " ++ exn_str e) (exn_class e)
  end.

(** [wrapper(db, args=None)] *)
Definition wrapper (func : HandlerFn) (db : Db) (args : value) (w : World)
  : outcome value * World :=
  let '(r, w') :=
    match args with
    | VNone => func db None w
    | _ => func db (Some args) w
    end in
  match r with
  | Return v => (Return v, w')
  | Raise e => (Return (map_exception e), w')
  end.

(** [handle_errors(func)]: a callable with the parameters [(db, args=None)]. *)
Definition handle_errors (func : HandlerFn) : Callable World Db :=
  {| binds_kwargs := fun kw => forallb (String.eqb "args") (dict_keys kw);
     binds_bundle := true;
     run_kwargs := fun db kw w => wrapper func db (get kw "args") w;
     run_bundle := fun db args w => wrapper func db (VDict args) w |}.

(** *** Dispatch *)

Definition unavailable (name : string) : value :=
  VDict [("error", VStr "Database unavailable"); ("tool", VStr name);
         ("hint", VStr "Ensure ArangoDB is reachable or check ARANGO_* environment variables.")].

(** The last [try] of [call_tool]. *)
Definition run_handler (tool_reg : ToolRegistration World Db) (name : string)
  (db : Db) (validated_args : dict value) (w : World)
  : list TextContent * World * list (event Db) :=
  match _invoke_handler (reg_handler tool_reg) db validated_args w with
  | (Return result, w', tr) => (_json_content result, w', tr)
  | (Raise e, w', tr) =>
      (_json_content (VDict [("error", VStr (exn_str e)); ("tool", VStr name)]), w', tr)
  end.

(** [arguments or {}] *)
Definition arguments_or_empty (arguments : option (dict value)) : dict value :=
  match arguments with Some a => a | None => [] end.

(** [call_tool(name, arguments)] on the server [srv]: the response, the server
    afterwards, the outside afterwards and what happened on the way. *)
Definition call_tool (ext : Collaborators World Config Client Db)
  (registry : dict (ToolRegistration World Db)) (srv : Server)
  (name : string) (arguments : option (dict value)) (w : World)
  : list TextContent * Server * World * list (event Db) :=
  let ctx := request_context srv in
  let db := cached_db ctx in
  match dict_get registry name with
  | None => (_json_content (VDict [("error", VStr ("Unknown tool: " ++ name))]), srv, w, [])
  | Some tool_reg =>
      match validate_model (check ext) (reg_model tool_reg) (arguments_or_empty arguments) with
      | inr errs =>
          (_json_content (VDict [("error", VStr "ValidationError"); ("tool", VStr name);
                                 ("details", ve_json (pydantic_version ext) errs)]),
           srv, w, [EvValidate Db name])
      | inl validated_args =>
          match db with
          | Some db =>
              let '(resp, w', tr) := run_handler tool_reg name db validated_args w in
              (resp, srv, w', EvValidate Db name :: tr)
          | None =>
              match load_config ext w with
              | Raise _ =>
                  (_json_content (unavailable name), srv, w,
                   [EvValidate Db name; EvLoadConfig Db])
              | Return cfg =>
                  match get_client_and_db ext cfg w with
                  | (Raise _, w') =>
                      (_json_content (unavailable name), srv, w',
                       [EvValidate Db name; EvLoadConfig Db; EvConnect Db])
                  | (Return (client, db_conn), w') =>
                      let srv' := cache_connection srv client db_conn in
                      let '(resp, w'', tr) :=
                        run_handler tool_reg name db_conn validated_args w' in
                      (resp, srv', w'',
                       EvValidate Db name :: EvLoadConfig Db :: EvConnect Db :: tr)
                  end
              end
          end
      end
  end.

End Dispatcher.

(** ** Python built-ins used by the handlers *)

Definition is_space (c : ascii) : bool :=
  let n := nat_of_ascii c in
  (Nat.eqb n 32 || (Nat.leb 9 n && Nat.leb n 13))%bool.

Definition digit_of (c : ascii) : option Z :=
  let n := nat_of_ascii c in
  if (Nat.leb 48 n && Nat.leb n 57)%bool then Some (Z.of_nat (n - 48)) else None.

Fixpoint drop_spaces (cs : list ascii) : list ascii :=
  match cs with
  | c :: cs' => if is_space c then drop_spaces cs' else cs
  | [] => []
  end.

(** Digits with single underscores between them. *)
Fixpoint digits_value (cs : list ascii) (acc : Z) (after_digit : bool) : option Z :=
  match cs with
  | [] => if after_digit then Some acc else None
  | c :: cs' =>
      match digit_of c with
      | Some d => digits_value cs' (10 * acc + d) true
      | None =>
          if (Ascii.eqb c "_" && after_digit)%bool
          then match cs' with
               | [] => None
               | _ => digits_value cs' acc false
               end
          else None
      end
  end.

(** [int(s)] for a string in base ten. *)
Definition parse_int (s : string) : option Z :=
  let cs := rev (drop_spaces (rev (drop_spaces (list_ascii_of_string s)))) in
  match cs with
  | "-"%char :: ds => option_map Z.opp (digits_value ds 0 false)
  | "+"%char :: ds => digits_value ds 0 false
  | _ => digits_value cs 0 false
  end.

(** [int(x)] *)
Definition py_int (v : value) : outcome Z :=
  match v with
  | VInt z => Return z
  | VBool b => Return (if b then 1 else 0)
  | VFloat q => Return (Z.quot (Qnum q) (Zpos (Qden q)))
  | VStr s =>
      match parse_int s with
      | Some z => Return z
      | None => Raise (ValueError "invalid literal for int() with base 10")
      end
  | _ => Raise (TypeError "int() argument must be a string, a bytes-like object or a real number")
  end.

(** [len(x)] *)
Definition py_len (v : value) : outcome Z :=
  match v with
  | VList l => Return (Z.of_nat (List.length l))
  | VStr s => Return (Z.of_nat (String.length s))
  | VDict d => Return (Z.of_nat (List.length d))
  | _ => Raise (TypeError "object has no len()")
  end.

Definition clamp_index (k len : Z) : Z :=
  if k <? 0 then Z.max 0 (k + len) else Z.min k len.

Definition slice_list {A : Type} (l : list A) (i j : Z) : list A :=
  let len := Z.of_nat (List.length l) in
  let i' := clamp_index i len in
  let j' := clamp_index j len in
  firstn (Z.to_nat (j' - i')) (skipn (Z.to_nat i') l).

(** [x[i:j]]; a dict cannot be sliced. *)
Definition py_slice (v : value) (i j : Z) : outcome value :=
  match v with
  | VList l => Return (VList (slice_list l i j))
  | VStr s => Return (VStr (string_of_list_ascii (slice_list (list_ascii_of_string s) i j)))
  | _ => Raise (TypeError "object is not subscriptable")
  end.

(** The values [range(0, stop, step)] runs through, at most [fuel] of them. *)
Fixpoint range_from (i stop step : Z) (fuel : nat) : list Z :=
  match fuel with
  | O => []
  | S fuel' => if i <? stop then i :: range_from (i + step) stop step fuel' else []
  end.

(** [range(0, stop, step)]: empty for a negative step, an error for step 0. *)
Definition py_range_step (stop step : Z) : outcome (list Z) :=
  if step =? 0 then Raise (ValueError "range() arg 3 must not be zero")
  else if step <? 0 then Return []
  else Return (range_from 0 stop step (Z.to_nat stop)).

(** ** Handlers *)

Section Handlers.

Variables World Db Coll : Type.

(** The driver and the backup routine, as far as the two handlers call them:
    [db.collection(name)], [collection.insert_many(batch, ...)] and
    [backup_collections_to_dir(db, output_dir=, collections=, doc_limit=)]. *)
Record Driver : Type := {
  db_collection : Db -> value -> World -> outcome Coll * World;
  insert_many : Coll -> value -> World -> outcome value * World;
  backup_collections_to_dir :
    Db -> value -> value -> value -> World -> outcome value * World
}.

(** The driver answers a batch with at most one result per document. *)
Definition one_result_per_document (drv : Driver) : Prop :=
  forall (c : Coll) (batch : list value) (w0 w1 : World) (res : value) (n : Z),
    insert_many drv c (VList batch) w0 = (Return res, w1) ->
    py_len res = Return n ->
    n <= Z.of_nat (List.length batch).

Definition missing_args (fn : string) : exn :=
  TypeError (fn ++ "() missing 1 required positional argument: 'args'").
Definition not_a_mapping : exn :=
  Exn "AttributeError" BaseOther "object has no attribute 'get'".

(** [handle_backup] before decoration. *)
Definition handle_backup (drv : Driver) (db : Db) (args : option value) (w : World)
  : outcome value * World :=
  match args with
  | None => (Raise (missing_args "handle_backup"), w)
  | Some (VDict args) =>
      let output_dir := py_or (get args "output_dir") (get args "outputDir") in
      let collections := get args "collections" in
      let single_collection := get args "collection" in
      let collections :=
        if (truthy single_collection && negb (truthy collections))%bool
        then VList [single_collection] else collections in
      let doc_limit := py_or (get args "doc_limit") (get args "docLimit") in
      backup_collections_to_dir drv db output_dir collections doc_limit w
  | Some _ => (Raise not_a_mapping, w)
  end.

(** The counters of [results] that the loop of [handle_bulk_insert] updates. *)
Record BulkCounts : Type := {
  inserted_count : Z;
  error_count : Z;
  errors : list value;
  inserted_ids : list value
}.

(** [[r.get("_id") for r in batch_result if isinstance(r, dict)]] *)
Definition ids_of (batch_result : value) : list value :=
  match batch_result with
  | VList rs =>
      flat_map (fun r => match r with VDict d => [get d "_id"] | _ => [] end) rs
  | _ => []
  end.

Definition batch_error (i : Z) (batch_len : Z) (e : exn) : value :=
  VDict [("batch_start", VInt i); ("batch_size", VInt batch_len);
         ("error", VStr (exn_str e))].

(** The [except] branch of the loop body; the flag tells whether to [break]. *)
Definition batch_failed (st : BulkCounts) (i batch_len : Z) (e : exn) : BulkCounts :=
  {| inserted_count := inserted_count st;
     error_count := error_count st + batch_len;
     errors := (errors st ++ [batch_error i batch_len e])%list;
     inserted_ids := inserted_ids st |}.

Definition value_eqb_str (v : value) (s : string) : bool :=
  match v with VStr s' => String.eqb s' s | _ => false end.

(** [for i in range(0, len(documents), batch_size)], over the values of [i]. *)
Fixpoint bulk_loop (drv : Driver) (collection : Coll) (documents : value)
  (batch_size : Z) (on_error : value) (starts : list Z) (st : BulkCounts)
  (w : World) : outcome BulkCounts * World :=
  match starts with
  | [] => (Return st, w)
  | i :: rest =>
      match py_slice documents i (i + batch_size) with
      | Raise e => (Raise e, w)
      | Return batch =>
          let batch_len := match py_len batch with Return n => n | Raise _ => 0 end in
          let '(r, w') := insert_many drv collection batch w in
          let attempt :=
            match r with
            | Raise e => inr e
            | Return batch_result =>
                match py_len batch_result with
                | Raise e => inr e
                | Return n =>
                    inl {| inserted_count := inserted_count st + n;
                           error_count := error_count st;
                           errors := errors st;
                           inserted_ids :=
                             (inserted_ids st ++ ids_of batch_result)%list |}
                end
            end in
          match attempt with
          | inl st' => bulk_loop drv collection documents batch_size on_error rest st' w'
          | inr e =>
              let st' := batch_failed st i batch_len e in
              if value_eqb_str on_error "stop" then (Return st', w')
              else bulk_loop drv collection documents batch_size on_error rest st' w'
          end
      end
  end.

(** [a / b] on integers. *)
Definition py_truediv (a b : Z) : outcome value :=
  if b =? 0 then Raise (Exn "ZeroDivisionError" BaseOther "division by zero")
  else Return (VFloat (Qmake a 1 / Qmake b 1)%Q).

(** [inserted_count / total_documents if total_documents else 0] *)
Definition success_rate (inserted total : Z) : outcome value :=
  if total =? 0 then Return (VInt 0) else py_truediv inserted total.

Definition bulk_results (total : Z) (st : BulkCounts) (rate : value) : value :=
  VDict [("total_documents", VInt total);
         ("inserted_count", VInt (inserted_count st));
         ("error_count", VInt (error_count st));
         ("errors", VList (errors st));
         ("inserted_ids", VList (inserted_ids st));
         ("success_rate", rate)].

Definition no_counts : BulkCounts :=
  {| inserted_count := 0; error_count := 0; errors := []; inserted_ids := [] |}.

(** [handle_bulk_insert] before decoration. *)
Definition handle_bulk_insert (drv : Driver) (db : Db) (args : option value) (w : World)
  : outcome value * World :=
  match args with
  | None => (Raise (missing_args "handle_bulk_insert"), w)
  | Some (VDict args) =>
      match dict_get args "collection" with
      | None => (Raise (KeyError "collection"), w)
      | Some name =>
          match db_collection drv db name w with
          | (Raise e, w') => (Raise e, w')
          | (Return collection, w') =>
              let documents := py_or (get args "documents") (VList []) in
              match py_int (get_or args "batch_size" (VInt 1000)) with
              | Raise e => (Raise e, w')
              | Return batch_size =>
                  let on_error := get_or args "on_error" (VStr "stop") in
                  match py_len documents with
                  | Raise e => (Raise e, w')
                  | Return total =>
                      match py_range_step total batch_size with
                      | Raise e => (Raise e, w')
                      | Return starts =>
                          match bulk_loop drv collection documents batch_size
                                          on_error starts no_counts w' with
                          | (Raise e, w'') => (Raise e, w'')
                          | (Return st, w'') =>
                              match success_rate (inserted_count st) total with
                              | Raise e => (Raise e, w'')
                              | Return rate => (Return (bulk_results total st rate), w'')
                              end
                          end
                      end
                  end
              end
          end
      end
  | Some _ => (Raise (TypeError "object is not subscriptable"), w)
  end.

End Handlers.

(** ** models.py *)

Definition required (name : string) (t : FieldType) : Field :=
  {| f_name := name; f_alias := None; f_type := t; f_default := None |}.
Definition optional (name : string) (t : FieldType) (default : value) : Field :=
  {| f_name := name; f_alias := None; f_type := t; f_default := Some default |}.
Definition aliased (name alias : string) (t : FieldType) (default : option value) : Field :=
  {| f_name := name; f_alias := Some alias; f_type := t; f_default := default |}.
Definition BaseModel (fs : list Field) : Model :=
  {| populate_by_name := false; fields := fs |}.

Definition QueryArgs : Model :=
  BaseModel [required "query" TStr;
             optional "bind_vars" (TOptional TDictStrAny) VNone].

Definition ListCollectionsArgs : Model := BaseModel [].

Definition InsertArgs : Model :=
  BaseModel [required "collection" TStr; required "document" TDictStrAny].

Definition UpdateArgs : Model :=
  BaseModel [required "collection" TStr; required "key" TStr;
             required "update" TDictStrAny].

Definition RemoveArgs : Model :=
  BaseModel [required "collection" TStr; required "key" TStr].

Definition CreateCollectionArgs : Model :=
  BaseModel [required "name" TStr;
             optional "type" (TLiteral ["document"; "edge"]) (VStr "document");
             optional "waitForSync" (TOptional TBool) VNone].

Definition BackupArgs : Model :=
  {| populate_by_name := true;
     fields := [aliased "output_dir" "outputDir" (TOptional TStr) (Some VNone);
                optional "collection" (TOptional TStr) VNone;
                optional "collections" (TOptional (TList TStr)) VNone;
                aliased "doc_limit" "docLimit" (TOptional (TInt (Some 1))) (Some VNone)] |}.


Definition CreateSchemaArgs : Model :=
  BaseModel [required "name" TStr; required "collection" TStr;
             aliased "schema_def" "schema" TDictStrAny None].

(** ** entry.py: the registrations, in the order of the assignments *)

(** Constant of tools.py used as key and name, description, model class and
    handler of each [TOOL_REGISTRY[...] = ToolRegistration(...)]. *)
Definition registrations : list (string * string * string * string) :=
  [("ARANGO_QUERY", "Execute an AQL query with optional bind vars and return rows.",
    "QueryArgs", "handle_arango_query");
   ("ARANGO_LIST_COLLECTIONS", "List non-system collection names.",
    "ListCollectionsArgs", "handle_list_collections");
   ("ARANGO_INSERT", "Insert a document into a collection.",
    "InsertArgs", "handle_insert");
   ("ARANGO_UPDATE", "Update a document by key in a collection.",
    "UpdateArgs", "handle_update");
   ("ARANGO_REMOVE", "Remove a document by key in a collection.",
    "RemoveArgs", "handle_remove");
   ("ARANGO_CREATE_COLLECTION", "Create a collection (document or edge).",
    "CreateCollectionArgs", "handle_create_collection");
   ("ARANGO_BACKUP", "Backup collections to JSON files.",
    "BackupArgs", "handle_backup");
   ("ARANGO_LIST_INDEXES", "List indexes for a collection.",
    "ListIndexesArgs", "handle_list_indexes");
   ("ARANGO_CREATE_INDEX",
    "Create an index on a collection (persistent, hash, skiplist, ttl, fulltext, geo).",
    "CreateIndexArgs", "handle_create_index");
   ("ARANGO_DELETE_INDEX", "Delete an index by id or name from a collection.",
    "DeleteIndexArgs", "handle_delete_index");
   ("ARANGO_EXPLAIN_QUERY",
    "Explain an AQL query and return execution plans and optional index suggestions.",
    "ExplainQueryArgs", "handle_explain_query");
   ("ARANGO_VALIDATE_REFERENCES",
    "Validate that documents in a collection have valid references in specified fields.",
    "ValidateReferencesArgs", "handle_validate_references");
   ("ARANGO_INSERT_WITH_VALIDATION",
    "Insert a document after validating its reference fields.",
    "InsertWithValidationArgs", "handle_insert_with_validation");
   ("ARANGO_BULK_INSERT",
    "Bulk insert documents with batching and basic error handling.",
    "BulkInsertArgs", "handle_bulk_insert");
   ("ARANGO_BULK_UPDATE", "Bulk update documents by key with batching.",
    "BulkUpdateArgs", "handle_bulk_update");
   ("ARANGO_CREATE_GRAPH",
    "Create a named graph with edge definitions (optionally creating collections).",
    "CreateGraphArgs", "handle_create_graph");
   ("ARANGO_ADD_EDGE",
    "Add an edge document between two vertices with optional attributes.",
    "AddEdgeArgs", "handle_add_edge");
   ("ARANGO_TRAVERSE",
    "Traverse graph from a start vertex with depth bounds (by graph or edge collections).",
    "TraverseArgs", "handle_traverse");
   ("ARANGO_SHORTEST_PATH",
    "Compute the shortest path between two vertices (by graph or edge collections).",
    "ShortestPathArgs", "handle_shortest_path");
   ("ARANGO_LIST_GRAPHS", "List available graphs in the database.",
    "ListGraphsArgs", "handle_list_graphs");
   ("ARANGO_ADD_VERTEX_COLLECTION", "Add a vertex collection to a named graph.",
    "AddVertexCollectionArgs", "handle_add_vertex_collection");
   ("ARANGO_ADD_EDGE_DEFINITION", "Create an edge definition in a named graph.",
    "AddEdgeDefinitionArgs", "handle_add_edge_definition");
   ("ARANGO_GRAPH_TRAVERSAL",
    "Alias for arango_traverse (graph traversal by graph or edge collections).",
    "TraverseArgs", "handle_traverse");
   ("ARANGO_ADD_VERTEX",
    "Alias for arango_insert (insert a vertex document into a collection).",
    "InsertArgs", "handle_insert");
   ("ARANGO_CREATE_SCHEMA", "Create or update a named JSON Schema for a collection.",
    "CreateSchemaArgs", "handle_create_schema");
   ("ARANGO_VALIDATE_DOCUMENT",
    "Validate a document against a stored or inline JSON Schema.",
    "ValidateDocumentArgs", "handle_validate_document");
   ("ARANGO_QUERY_BUILDER",
    "Build and execute a simple AQL query from filters, sort, and limit.",
    "QueryBuilderArgs", "handle_query_builder");
   ("ARANGO_QUERY_PROFILE", "Explain a query and return plans/stats for profiling.",
    "QueryProfileArgs", "handle_query_profile");
   ("ARANGO_BACKUP_GRAPH",
    "Export complete graph structure including vertices, edges, and metadata.",
    "BackupGraphArgs", "handle_backup_graph");
   ("ARANGO_RESTORE_GRAPH",
    "Import graph data with referential integrity validation and conflict resolution.",
    "RestoreGraphArgs", "handle_restore_graph");
   ("ARANGO_BACKUP_NAMED_GRAPHS",
    "Backup graph definitions from _graphs system collection.",
    "BackupNamedGraphsArgs", "handle_backup_named_graphs");
   ("ARANGO_VALIDATE_GRAPH_INTEGRITY",
    "Verify graph consistency, orphaned edges, and constraint violations.",
    "ValidateGraphIntegrityArgs", "handle_validate_graph_integrity");
   ("ARANGO_GRAPH_STATISTICS",
    "Generate comprehensive graph analytics (vertex/edge counts, degree distribution, connectivity metrics).",
    "GraphStatisticsArgs", "handle_graph_statistics")].

Section Population.

Variables World Db : Type.

(** The imported modules: the value of each constant of tools.py, the class
    behind each model name and the function behind each handler name. *)
Variable tools_py : string -> string.
Variable models_py : string -> Model.
Variable handlers_py : string -> Callable World Db.

Definition registration (entry : string * string * string * string)
  : string * ToolRegistration World Db :=
  let '(const, descr, model, handler) := entry in
  (tools_py const,
   {| reg_name := tools_py const; reg_description := descr;
      reg_model := models_py model; reg_handler := handlers_py handler |}).

(** The registry once entry.py has been imported. *)
Definition TOOL_REGISTRY : dict (ToolRegistration World Db) :=
  populate (map registration registrations).

End Population.

(** ** pydantic's validator and small instances *)

Definition line_error (kind msg : string) (v : value) (ctx : option (dict value))
  : checked :=
  Invalid {| err_type := kind; err_loc := []; err_msg := msg; err_input := v;
             err_ctx := ctx |} [].

Definition type_error (kind msg : string) (v : value) : checked :=
  line_error kind msg v None.

Definition index_key (i : nat) : string :=
  DecimalString.NilEmpty.string_of_uint (Nat.to_uint i).

Definition at_index (i : nat) (e : LineError) : LineError :=
  {| err_type := err_type e; err_loc := VInt (Z.of_nat i) :: err_loc e;
     err_msg := err_msg e; err_input := err_input e; err_ctx := err_ctx e |}.

Fixpoint check_items (chk : value -> checked) (l : list value) (i : nat)
  : list value * list LineError :=
  match l with
  | [] => ([], [])
  | v :: l' =>
      let '(vs, es) := check_items chk l' (S i) in
      match chk v with
      | Valid v' => (v' :: vs, es)
      | Invalid e es' => (vs, (map (at_index i) (e :: es') ++ es)%list)
      end
  end.

(** [str(z)] for an int. *)
Definition str_of_int (z : Z) : string :=
  DecimalString.NilZero.string_of_int (Z.to_int z).

Definition ascii_lower (c : ascii) : ascii :=
  let n := nat_of_ascii c in
  if (Nat.leb 65 n && Nat.leb n 90)%bool then ascii_of_nat (n + 32) else c.

(** [s.lower()] for ASCII letters. *)
Definition lower_ascii (s : string) : string :=
  string_of_list_ascii (map ascii_lower (list_ascii_of_string s)).

(** The choices of a [Literal] as the error message lists them:
    ['a', 'b' or 'c']. *)
Fixpoint expected_choices (choices : list string) : string :=
  match choices with
  | [] => ""
  | a :: rest =>
      match rest with
      | [] => "'" ++ a ++ "'"
      | [b] => "'" ++ a ++ "' or '" ++ b ++ "'"
      | _ => "'" ++ a ++ "', " ++ expected_choices rest
      end
  end.

(** The part of a string before a point that only zeros follow. *)
Fixpoint before_decimal_zeros (cs : list ascii) : option (list ascii) :=
  match cs with
  | [] => None
  | c :: rest =>
      if Ascii.eqb c "."
      then if forallb (Ascii.eqb "0") rest then Some [] else None
      else option_map (cons c) (before_decimal_zeros rest)
  end.

(** A string where an integer is declared, in the default mode: blanks around
    it are dropped; what is left is an integer literal, or a sign and digits
    before a point that only zeros follow. *)
Definition str_as_int (s : string) : option Z :=
  match parse_int s with
  | Some z => Some z
  | None =>
      let cs := rev (drop_spaces (rev (drop_spaces (list_ascii_of_string s)))) in
      match before_decimal_zeros cs with
      | Some pre =>
          if existsb (Ascii.eqb "_") pre then None
          else parse_int (string_of_list_ascii pre)
      | None => None
      end
  end.

(** A float where an integer is declared: accepted when it has no fractional
    part. *)
Definition float_as_int (q : Q) : option Z :=
  if Z.rem (Qnum q) (Zpos (Qden q)) =? 0
  then Some (Z.quot (Qnum q) (Zpos (Qden q)))
  else None.

(** A string where a boolean is declared. *)
Definition str_as_bool (s : string) : option bool :=
  let l := lower_ascii s in
  if existsb (String.eqb l) ["0"; "off"; "f"; "false"; "n"; "no"] then Some false
  else if existsb (String.eqb l) ["1"; "on"; "t"; "true"; "y"; "yes"] then Some true
  else None.

Definition int_as_bool (z : Z) : option bool :=
  if z =? 0 then Some false else if z =? 1 then Some true else None.

Definition bool_parsing (v : value) : checked :=
  type_error "bool_parsing" "Input should be a valid boolean, unable to interpret input" v.

(** The bound of [Field(ge=...)], applied to the integer once it is read. *)
Definition check_ge (ge : option Z) (v : value) (z : Z) : checked :=
  match ge with
  | Some bound =>
      if bound <=? z then Valid (VInt z)
      else line_error "greater_than_equal"
             ("Input should be greater than or equal to " ++ str_of_int bound) v
             (Some [("ge", VInt bound)])
  | None => Valid (VInt z)
  end.

(** pydantic's validation of a value decoded from JSON against one annotation
    of models.py, in the default mode, no model of models.py asking for the
    strict one: a value of the declared type is kept, and some values of
    another type are converted (an integer is read from a boolean, from a float
    without fractional part and from a numeric string; a boolean from 0, 1 and
    the strings that spell one); a string is never made from a number. *)
Fixpoint json_check (t : FieldType) (v : value) {struct t} : checked :=
  match t with
  | TAny => Valid v
  | TStr =>
      match v with
      | VStr _ => Valid v
      | _ => type_error "string_type" "Input should be a valid string" v
      end
  | TInt ge =>
      match v with
      | VInt z => check_ge ge v z
      | VBool b => check_ge ge v (if b then 1 else 0)
      | VFloat q =>
          match float_as_int q with
          | Some z => check_ge ge v z
          | None =>
              type_error "int_from_float"
                "Input should be a valid integer, got a number with a fractional part" v
          end
      | VStr s =>
          match str_as_int s with
          | Some z => check_ge ge v z
          | None =>
              type_error "int_parsing"
                "Input should be a valid integer, unable to parse string as an integer" v
          end
      | _ => type_error "int_type" "Input should be a valid integer" v
      end
  | TBool =>
      match v with
      | VBool _ => Valid v
      | VInt z =>
          match int_as_bool z with
          | Some b => Valid (VBool b)
          | None => bool_parsing v
          end
      | VFloat q =>
          match float_as_int q with
          | Some z =>
              match int_as_bool z with
              | Some b => Valid (VBool b)
              | None => bool_parsing v
              end
          | None => bool_parsing v
          end
      | VStr s =>
          match str_as_bool s with
          | Some b => Valid (VBool b)
          | None => bool_parsing v
          end
      | _ => type_error "bool_type" "Input should be a valid boolean" v
      end
  | TLiteral choices =>
      match v with
      | VStr s =>
          if existsb (String.eqb s) choices then Valid v
          else line_error "literal_error"
                 ("Input should be " ++ expected_choices choices) v
                 (Some [("expected", VStr (expected_choices choices))])
      | _ => line_error "literal_error"
               ("Input should be " ++ expected_choices choices) v
               (Some [("expected", VStr (expected_choices choices))])
      end
  | TDictStrAny =>
      match v with
      | VDict _ => Valid v
      | _ => type_error "dict_type" "Input should be a valid dictionary" v
      end
  | TList item =>
      match v with
      | VList l =>
          match check_items (json_check item) l 0 with
          | (vs, []) => Valid (VList vs)
          | (_, e :: es) => Invalid e es
          end
      | _ => type_error "list_type" "Input should be a valid list" v
      end
  | TOptional inner =>
      match v with
      | VNone => Valid VNone
      | _ => json_check inner v
      end
  end.

(** A database that refuses the first [refusals] connections: the outside is
    the number of connections tried so far, and the handle given out is that
    number. *)
Definition flaky_db (refusals : nat) : Collaborators nat unit nat nat :=
  {| load_config := fun _ => Return tt;
     get_client_and_db := fun _ w =>
       (if Nat.ltb w refusals
        then Raise (Exn "ServerConnectionError" BaseArangoError "connection refused")
        else Return (w, w), S w);
     check := json_check;
     model_json_schema := fun _ => VDict [];
     pydantic_version := "2.11" |}.

(** [def ping(db, args=None): return {"pong": True}], decorated. *)
Definition ping : Callable nat nat :=
  handle_errors (fun _ _ w => (Return (VDict [("pong", VBool true)]), w)).

(** A handler whose body reads a key that is not there. *)
Definition needs_key : Callable nat nat :=
  handle_errors (fun _ _ w => (Raise (KeyError "collection"), w)).

(** [def strict(db, **kwargs): raise TypeError("unsupported operand")], not
    decorated: any keywords bind, two positional arguments do not. *)
Definition raises_type_error : Callable nat nat :=
  {| binds_kwargs := fun _ => true;
     binds_bundle := false;
     run_kwargs := fun _ _ w => (Raise (TypeError "unsupported operand"), S w);
     run_bundle := fun _ _ w => (Raise (TypeError "unreachable"), w) |}.

Definition ping_tool : ToolRegistration nat nat :=
  {| reg_name := "ping"; reg_description := "Answer pong.";
     reg_model := ListCollectionsArgs; reg_handler := ping |}.

Definition insert_doc_tool : ToolRegistration nat nat :=
  {| reg_name := "insert_doc"; reg_description := "Insert a document into a collection.";
     reg_model := InsertArgs; reg_handler := needs_key |}.

Definition small_registry : dict (ToolRegistration nat nat) :=
  populate [("ping", ping_tool); ("insert_doc", insert_doc_tool)].

(** [def read_key(db, **kwargs): return kwargs["collection"]], not decorated. *)
Definition read_key : Callable nat nat :=
  {| binds_kwargs := fun _ => true;
     binds_bundle := false;
     run_kwargs := fun _ kw w =>
       (match dict_get kw "collection" with
        | Some v => Return v
        | None => Raise (KeyError "collection")
        end, w);
     run_bundle := fun _ _ w => (Raise (TypeError "unreachable"), w) |}.

Definition read_key_tool : ToolRegistration nat nat :=
  {| reg_name := "read_key"; reg_description := "Read the collection argument.";
     reg_model := ListCollectionsArgs; reg_handler := read_key |}.

(** A lifespan mapping that holds the handle 7. *)
Definition connected : Lifespan nat nat := {| ls_db := Some 7%nat; ls_client := Some 7%nat |}.

(** A server whose request context holds the lifespan mapping [ls]. *)
Definition server_with (ls : Lifespan nat nat) : Server nat nat :=
  {| _safe_request_context := Some (Some {| lifespan_context := Some ls |}) |}.

Definition no_connection : Lifespan nat nat := {| ls_db := None; ls_client := None |}.

(** Ten tools [t0 .. t9] registered in that order. *)
Definition ten_tools : list (string * ToolRegistration nat nat) :=
  map (fun i => let n := ("t" ++ index_key i)%string in
                (n, {| reg_name := n; reg_description := "Answer pong.";
                       reg_model := ListCollectionsArgs; reg_handler := ping |}))
      (seq 0 10).

Definition env_of (vars : dict string) : string -> option string := dict_get vars.

(** A driver in the manner of the unit tests' mocks: every collection exists,
    [insert_many] answers with the fixed list [reply] whatever the batch, and
    the backup routine reports the directory it was given. *)
Definition mock_driver (reply : list value) : Driver nat nat string :=
  {| db_collection := fun _ name w =>
       (match name with
        | VStr s => Return s
        | _ => Raise (TypeError "collection name must be a string")
        end, w);
     insert_many := fun _ _ w => (Return (VList reply), S w);
     backup_collections_to_dir := fun _ output_dir _ _ w =>
       (Return (VDict [("output_dir", output_dir)]), w) |}.

Definition backup_tool : ToolRegistration nat nat :=
  {| reg_name := "arango_backup"; reg_description := "Backup collections to JSON files.";
     reg_model := BackupArgs;
     reg_handler := handle_errors (handle_backup (mock_driver [])) |}.

(** A driver that stores what it is given: one result per document. *)
Definition storing_driver : Driver nat nat string :=
  {| db_collection := fun _ name w =>
       (match name with
        | VStr s => Return s
        | _ => Raise (TypeError "collection name must be a string")
        end, w);
     insert_many := fun c batch w =>
       (match batch with
        | VList docs =>
            Return (VList (map (fun _ => VDict [("_id", VStr (c ++ "/1"))]) docs))
        | _ => Raise (TypeError "documents must be a list")
        end, S w);
     backup_collections_to_dir := fun _ output_dir _ _ w =>
       (Return (VDict [("output_dir", output_dir)]), w) |}.



(** ** More of Python *)

(** [hay.find(needle) >= 0], the test behind [needle in hay] on strings. *)
Fixpoint contains (hay needle : string) : bool :=
  if String.prefix needle hay then true
  else match hay with
       | EmptyString => false
       | String _ hay' => contains hay' needle
       end.

Definition number_of (v : value) : option Q :=
  match v with
  | VBool b => Some (if b then 1 else 0)%Q
  | VInt z => Some (Qmake z 1)
  | VFloat q => Some q
  | _ => None
  end.

(** [a == b]: numbers (booleans among them) by value, strings and [None] by
    identity of content, lists item by item, dicts key by key whatever the
    order. *)
Fixpoint py_eq (a b : value) {struct a} : bool :=
  match a, b with
  | VNone, VNone => true
  | VStr s, VStr t => String.eqb s t
  | VList l, VList m =>
      (fix items (l m : list value) : bool :=
         match l, m with
         | [], [] => true
         | x :: l', y :: m' => (py_eq x y && items l' m')%bool
         | _, _ => false
         end) l m
  | VDict d, VDict e =>
      (Nat.eqb (List.length d) (List.length e)
       && (fix entries (d : list (string * value)) : bool :=
             match d with
             | [] => true
             | (k, v) :: d' =>
                 (match dict_get e k with
                  | Some v' => py_eq v v'
                  | None => false
                  end && entries d')%bool
             end) d)%bool
  | (VBool _ | VInt _ | VFloat _), (VBool _ | VInt _ | VFloat _) =>
      match number_of a, number_of b with
      | Some x, Some y => Qeq_bool x y
      | _, _ => false
      end
  | _, _ => false
  end.

(** The items of [for x in v] and [list(v)]. *)
Definition py_iter (v : value) : outcome (list value) :=
  match v with
  | VList l => Return l
  | VStr s => Return (map (fun c => VStr (String c EmptyString)) (list_ascii_of_string s))
  | VDict d => Return (map (fun kv => VStr (fst kv)) d)
  | _ => Raise (TypeError "object is not iterable")
  end.

Definition AttributeError (attr : string) : exn :=
  Exn "AttributeError" BaseOther ("object has no attribute '" ++ attr ++ "'").

(** [v.get(k, default)] and [v.get(k)] on an object that may not be a dict. *)
Definition py_get_or (v : value) (k : string) (default : value) : outcome value :=
  match v with
  | VDict d => Return (get_or d k default)
  | _ => Raise (AttributeError "get")
  end.
Definition py_get (v : value) (k : string) : outcome value := py_get_or v k VNone.

(** [v[k]] with a string key. *)
Definition py_item (v : value) (k : string) : outcome value :=
  match v with
  | VDict d =>
      match dict_get d k with
      | Some x => Return x
      | None => Raise (KeyError k)
      end
  | _ => Raise (TypeError "object is not subscriptable with a string key")
  end.

(** [needle in hay] for a string [needle]. *)
Definition py_in (needle : string) (hay : value) : outcome bool :=
  match hay with
  | VStr s => Return (contains s needle)
  | VList l => Return (existsb (py_eq (VStr needle)) l)
  | VDict d => Return (match dict_get d needle with Some _ => true | None => false end)
  | _ => Raise (TypeError "argument is not iterable")
  end.

(** [d.update(e)]: the keys of [e] in their order, each replacing or
    appending. *)
Definition dict_update {A : Type} (d e : dict A) : dict A :=
  fold_left (fun acc kv => dict_set acc (fst kv) (snd kv)) e d.

(** [{**head, **mapping}] *)
Definition py_merge (head : dict value) (mapping : value) : outcome value :=
  match mapping with
  | VDict e => Return (VDict (dict_update head e))
  | _ => Raise (TypeError "argument after ** must be a mapping")
  end.

(** Computations on the database: a result or an exception, and the outside
    afterwards. *)
Definition action (World A : Type) : Type := World -> outcome A * World.

Definition done {World A : Type} (o : outcome A) : action World A := fun w => (o, w).

Definition and_then {World A B : Type} (c : action World A) (k : A -> action World B)
  : action World B :=
  fun w =>
    match c w with
    | (Return a, w') => k a w'
    | (Raise e, w') => (Raise e, w')
    end.

Notation "x <- c ;; k" := (and_then c (fun x => k))
  (at level 61, c at next level, right associativity).

(** ** The rest of handlers.py *)

Section MoreHandlers.

Variables World Db Coll : Type.

(** [str(x)] of an object that is not a string is left to Python. *)
Variable py_repr : value -> string.

Definition py_str (v : value) : string :=
  match v with VStr s => s | _ => py_repr v end.

(** The calls the handlers make on the driver. *)
Record Database : Type := {
  api_collections : Db -> action World value;
  api_has_collection : Db -> value -> action World value;
  api_collection : Db -> value -> action World Coll;
  api_create_collection : Db -> value -> bool -> option value -> action World Coll;
  api_delete_index : Db -> value -> action World value;
  api_graphs : Db -> action World value;
  api_execute : Db -> string -> option value -> action World value;
  api_explain : Db -> value -> value -> Z -> action World value;
  api_insert : Coll -> value -> action World value;
  api_update : Coll -> value -> action World value;
  api_delete : Coll -> value -> action World value;
  api_properties : Coll -> action World value;
  api_indexes : Coll -> action World value;
  api_update_many : Coll -> value -> action World value
}.


Variable api : Database.

(** [{"_id": result.get("_id"), "_key": result.get("_key"), "_rev": result.get("_rev")}] *)
Definition document_meta (result : value) : outcome value :=
  match result with
  | VDict r => Return (VDict [("_id", get r "_id"); ("_key", get r "_key"); ("_rev", get r "_rev")])
  | _ => Raise (AttributeError "get")
  end.

Definition collection_not_found (collection_name : value) : value :=
  VDict [("error", VStr ("Collection '" ++ py_str collection_name ++ "' does not exist"));
         ("type", VStr "CollectionNotFound")].

(** [[c["name"] for c in cols if not c.get("isSystem")]] *)
Fixpoint non_system_names (cols : list value) : outcome (list value) :=
  match cols with
  | [] => Return []
  | c :: rest =>
      match c with
      | VDict d =>
          if truthy (get d "isSystem") then non_system_names rest
          else match dict_get d "name" with
               | None => Raise (KeyError "name")
               | Some n =>
                   match non_system_names rest with
                   | Return ns => Return (n :: ns)
                   | Raise e => Raise e
                   end
               end
      | _ => Raise (AttributeError "get")
      end
  end.

(** The names of the entries that are not flagged as system collections, for
    entries that are dicts. *)
Definition listed_names (cols : list value) : list value :=
  flat_map (fun c => match c with
                     | VDict d => if truthy (get d "isSystem") then [] else [get d "name"]
                     | _ => []
                     end) cols.

(** [handle_list_collections] before decoration; its [args] are optional. *)
Definition handle_list_collections (db : Db) (args : option value) : action World value :=
  cols <- api_collections api db ;;
  cols <- done (py_iter cols) ;;
  names <- done (non_system_names cols) ;;
  done (Return (VList names)).

(** [handle_insert] before decoration. *)
Definition handle_insert (db : Db) (args : option value) : action World value :=
  match args with
  | None => done (Raise (missing_args "handle_insert"))
  | Some args =>
      collection_name <- done (py_item args "collection") ;;
      document <- done (py_item args "document") ;;
      known <- api_has_collection api db collection_name ;;
      if negb (truthy known) then done (Return (collection_not_found collection_name))
      else
        col <- api_collection api db collection_name ;;
        result <- api_insert api col document ;;
        done (document_meta result)
  end.

(** [handle_update] before decoration. *)
Definition handle_update (db : Db) (args : option value) : action World value :=
  match args with
  | None => done (Raise (missing_args "handle_update"))
  | Some args =>
      collection_name <- done (py_item args "collection") ;;
      key <- done (py_item args "key") ;;
      update_data <- done (py_item args "update") ;;
      known <- api_has_collection api db collection_name ;;
      if negb (truthy known) then done (Return (collection_not_found collection_name))
      else
        col <- api_collection api db collection_name ;;
        payload <- done (py_merge [("_key", key)] update_data) ;;
        result <- api_update api col payload ;;
        done (document_meta result)
  end.

(** [handle_remove] before decoration. *)
Definition handle_remove (db : Db) (args : option value) : action World value :=
  match args with
  | None => done (Raise (missing_args "handle_remove"))
  | Some args =>
      collection_name <- done (py_item args "collection") ;;
      key <- done (py_item args "key") ;;
      known <- api_has_collection api db collection_name ;;
      if negb (truthy known) then done (Return (collection_not_found collection_name))
      else
        col <- api_collection api db collection_name ;;
        result <- api_delete api col key ;;
        done (document_meta result)
  end.

(** [handle_create_collection] before decoration. *)
Definition handle_create_collection (db : Db) (args : option value) : action World value :=
  match args with
  | None => done (Raise (missing_args "handle_create_collection"))
  | Some args =>
      name <- done (py_item args "name") ;;
      typ <- done (py_get_or args "type" (VStr "document")) ;;
      let edge := py_eq typ (VStr "edge") in
      wait_for_sync <- done (py_get args "waitForSync") ;;
      known <- api_has_collection api db name ;;
      col <- (if negb (truthy known)
              then match wait_for_sync with
                   | VNone => api_create_collection api db name edge None
                   | _ => api_create_collection api db name edge (Some wait_for_sync)
                   end
              else api_collection api db name) ;;
      props <- api_properties api col ;;
      arango_type <- done (py_get props "type") ;;
      let mapped_type := if py_eq arango_type (VInt 3) then "edge" else "document" in
      props_name <- done (py_get_or props "name" name) ;;
      props_sync <- done (py_get props "waitForSync") ;;
      done (Return (VDict [("name", props_name); ("type", VStr mapped_type);
                           ("waitForSync", props_sync)]))
  end.

(** The [for ... else] of [handle_delete_index]: the id of the first index
    whose name is the one asked for. *)
Fixpoint find_index_id (indexes : list value) (id_or_name : value) : outcome (option value) :=
  match indexes with
  | [] => Return None
  | ix :: rest =>
      match py_get ix "name" with
      | Raise e => Raise e
      | Return n =>
          if py_eq n id_or_name
          then match py_get ix "id" with
               | Raise e => Raise e
               | Return i => Return (Some i)
               end
          else find_index_id rest id_or_name
      end
  end.

(** [handle_delete_index] before decoration. *)
Definition handle_delete_index (db : Db) (args : option value) : action World value :=
  match args with
  | None => done (Raise (missing_args "handle_delete_index"))
  | Some args =>
      collection <- done (py_item args "collection") ;;
      id_or_name <- done (py_item args "id_or_name") ;;
      has_slash <- done (py_in "/" id_or_name) ;;
      index_id <-
        (if negb has_slash then
           col <- api_collection api db collection ;;
           indexes <- api_indexes api col ;;
           indexes <- done (py_iter indexes) ;;
           found <- done (find_index_id indexes id_or_name) ;;
           match found with
           | Some i => done (Return i)
           | None =>
               done (Raise (ValueError
                 ("Index with name '" ++ py_str id_or_name
                  ++ "' not found in collection '" ++ py_str collection ++ "'")))
           end
         else done (Return id_or_name)) ;;
      has_slash <- done (py_in "/" index_id) ;;
      let index_id :=
        if negb has_slash
        then VStr (py_str collection ++ "/" ++ py_str index_id)
        else index_id in
      result <- api_delete_index api db index_id ;;
      done (Return (VDict [("deleted", VBool true); ("id", index_id); ("result", result)]))
  end.

Definition index_hint : string :=
  "Consider adding a persistent/hash index for filtered fields".

(** The suggestions for the nodes of one plan. *)
Fixpoint node_suggestions (nodes : list value) : outcome (list value) :=
  match nodes with
  | [] => Return []
  | node :: rest =>
      match py_get node "type", py_get node "id" with
      | Return node_type, Return node_id =>
          match node_suggestions rest with
          | Raise e => Raise e
          | Return more =>
              if (py_eq node_type (VStr "Filter")
                  || py_eq node_type (VStr "EnumerateCollection"))%bool
              then Return (VDict [("hint", VStr index_hint); ("nodeId", node_id)] :: more)
              else Return more
          end
      | Raise e, _ => Raise e
      | _, Raise e => Raise e
      end
  end.

Fixpoint plan_suggestions (plans : list value) : outcome (list value) :=
  match plans with
  | [] => Return []
  | plan :: rest =>
      match py_get_or plan "nodes" (VList []) with
      | Raise e => Raise e
      | Return nodes =>
          match py_iter nodes with
          | Raise e => Raise e
          | Return nodes =>
              match node_suggestions nodes with
              | Raise e => Raise e
              | Return here =>
                  match plan_suggestions rest with
                  | Raise e => Raise e
                  | Return more => Return (here ++ more)%list
                  end
              end
          end
      end
  end.

(** An object that can be a member of a [set]. *)
Definition hashable (v : value) : bool :=
  match v with
  | VList _ | VDict _ => false
  | _ => true
  end.

Definition node_id_of (suggestion : value) : value :=
  match suggestion with
  | VDict d => get d "nodeId"
  | _ => VNone
  end.

(** The second loop of [_analyze_query_for_indexes]: a suggestion is kept when
    its (hint, nodeId) pair was not seen before; the hint being the same for
    all, [seen] holds the node ids. *)
Fixpoint deduplicate (suggestions : list value) (seen : list value) : outcome (list value) :=
  match suggestions with
  | [] => Return []
  | s :: rest =>
      let node_id := node_id_of s in
      if negb (hashable node_id) then Raise (TypeError "unhashable type")
      else if existsb (py_eq node_id) seen then deduplicate rest seen
      else match deduplicate rest (node_id :: seen) with
           | Raise e => Raise e
           | Return unique => Return (s :: unique)
           end
  end.

(** [_analyze_query_for_indexes(query, plans)] *)
Definition _analyze_query_for_indexes (query : value) (plans : value) : outcome value :=
  match py_iter (py_or plans (VList [])) with
  | Raise e => Raise e
  | Return plans =>
      match plan_suggestions plans with
      | Raise e => Raise e
      | Return suggestions =>
          match deduplicate suggestions [] with
          | Raise e => Raise e
          | Return unique => Return (VList unique)
          end
      end
  end.

(** The part [handle_explain_query] and [handle_query_profile] share: the call
    of [db.aql.explain] and the three entries read from its answer. *)
Definition explain_summary (db : Db) (args : value) : action World (dict value) :=
  query <- done (py_item args "query") ;;
  bind_vars <- done (py_get args "bind_vars") ;;
  max_plans <- done (py_get_or args "max_plans" (VInt 1)) ;;
  max_plans <- done (py_int max_plans) ;;
  explain <- api_explain api db query (py_or bind_vars (VDict [])) max_plans ;;
  plans <- done (py_get explain "plans") ;;
  warnings <- done (py_get explain "warnings") ;;
  stats <- done (py_get explain "stats") ;;
  done (Return [("plans", py_or plans (VList []));
                ("warnings", py_or warnings (VList []));
                ("stats", py_or stats (VDict []))]).

(** [handle_explain_query] before decoration. *)
Definition handle_explain_query (db : Db) (args : option value) : action World value :=
  match args with
  | None => done (Raise (missing_args "handle_explain_query"))
  | Some args =>
      result <- explain_summary db args ;;
      suggest <- done (py_get_or args "suggest_indexes" (VBool true)) ;;
      if truthy suggest then
        query <- done (py_item args "query") ;;
        suggestions <- done (_analyze_query_for_indexes query (get result "plans")) ;;
        done (Return (VDict (dict_set result "index_suggestions" suggestions)))
      else done (Return (VDict result))
  end.

(** [handle_query_profile] before decoration. *)
Definition handle_query_profile (db : Db) (args : option value) : action World value :=
  match args with
  | None => done (Raise (missing_args "handle_query_profile"))
  | Some args =>
      result <- explain_summary db args ;;
      done (Return (VDict result))
  end.


Definition newline : string := String (ascii_of_nat 10) EmptyString.

(** The query text of [handle_insert_with_validation], line by line. *)
Definition validation_query : string :=
  concat newline
    [""; "        LET d = @doc";
     "        LET invalid_refs = (";
     "          FOR field IN @fields";
     "            LET ref = DOCUMENT(d[field])";
     "            FILTER ref == null AND d[field] != null";
     "            RETURN {field: field, value: d[field]}";
     "        )";
     "        RETURN invalid_refs";
     "        "].

(** [x[0]] on a list *)
Definition first_item (l : list value) : outcome value :=
  match l with
  | x :: _ => Return x
  | [] => Raise (Exn "IndexError" BaseOther "list index out of range")
  end.

(** [handle_insert_with_validation] before decoration. *)
Definition handle_insert_with_validation (db : Db) (args : option value)
  : action World value :=
  match args with
  | None => done (Raise (missing_args "handle_insert_with_validation"))
  | Some args =>
      ref_fields <- done (py_get args "reference_fields") ;;
      let ref_fields := py_or ref_fields (VList []) in
      let insert :=
        name <- done (py_item args "collection") ;;
        col <- api_collection api db name ;;
        document <- done (py_item args "document") ;;
        result <- api_insert api col document ;;
        done (document_meta result) in
      if truthy ref_fields then
        document <- done (py_item args "document") ;;
        let bind_vars := VDict [("doc", document); ("fields", ref_fields)] in
        cursor <- api_execute api db validation_query (Some bind_vars) ;;
        rows <- done (py_iter cursor) ;;
        invalid <- done (first_item rows) ;;
        if truthy invalid
        then done (Return (VDict [("error", VStr "Invalid references");
                                  ("invalid_references", invalid)]))
        else insert
      else insert
  end.

(** [handle_add_edge] before decoration. *)
Definition handle_add_edge (db : Db) (args : option value) : action World value :=
  match args with
  | None => done (Raise (missing_args "handle_add_edge"))
  | Some args =>
      name <- done (py_item args "collection") ;;
      col <- api_collection api db name ;;
      from_id <- done (py_item args "from_id") ;;
      to_id <- done (py_item args "to_id") ;;
      attributes <- done (py_get args "attributes") ;;
      payload <- done (py_merge [("_from", from_id); ("_to", to_id)]
                                (py_or attributes (VDict []))) ;;
      result <- api_insert api col payload ;;
      done (document_meta result)
  end.

(** One entry of [handle_list_graphs]; an object that is not a dict and has no
    attribute [name] is listed with the name [None]. *)
Definition graph_entry (g : value) : value :=
  match g with
  | VDict d => VDict [("name", get d "name"); ("_raw", g)]
  | _ => VDict [("name", VNone)]
  end.

(** [handle_list_graphs] before decoration; its [args] are optional. *)
Definition handle_list_graphs (db : Db) (args : option value) : action World value :=
  fun w =>
    let '(graphs, w') :=
      match api_graphs api db w with
      | (Return graphs, w') => (graphs, w')
      | (Raise _, w') => (VList [], w')
      end in
    match py_iter (py_or graphs (VList [])) with
    | Raise e => (Raise e, w')
    | Return gs => (Return (VList (map graph_entry gs)), w')
    end.

(** The payload [handle_bulk_update] builds for one item of a batch. *)
Definition normalize_update (item : value) : outcome value :=
  match item with
  | VDict d =>
      let key := py_or (get d "key") (get d "_key") in
      let rest :=
        filter (fun kv => negb (String.eqb (fst kv) "key" || String.eqb (fst kv) "_key")%bool) d in
      let update := py_or (get d "update") (VDict rest) in
      py_merge [("_key", key)] update
  | _ => Raise (AttributeError "get")
  end.

Fixpoint normalize_updates (batch : list value) : outcome (list value) :=
  match batch with
  | [] => Return []
  | item :: rest =>
      match normalize_update item with
      | Raise e => Raise e
      | Return payload =>
          match normalize_updates rest with
          | Raise e => Raise e
          | Return payloads => Return (payload :: payloads)
          end
      end
  end.

(** The counters of [results] that the loop of [handle_bulk_update] updates. *)
Record UpdateCounts : Type := {
  updated_count : Z;
  update_error_count : Z;
  update_errors : list value
}.

(** The [try] of the loop body: the payloads, the call, the length of its result. *)
Definition update_batch (collection : Coll) (batch : value) : action World Z :=
  items <- done (py_iter batch) ;;
  normalized <- done (normalize_updates items) ;;
  result <- api_update_many api collection (VList normalized) ;;
  done (py_len result).

(** [for i in range(0, len(updates), batch_size)], over the values of [i]. *)
Fixpoint bulk_update_loop (collection : Coll) (updates : value) (batch_size : Z)
  (on_error : value) (starts : list Z) (st : UpdateCounts) : action World UpdateCounts :=
  match starts with
  | [] => done (Return st)
  | i :: rest =>
      batch <- done (py_slice updates i (i + batch_size)) ;;
      fun w =>
        let batch_len := match py_len batch with Return n => n | Raise _ => 0 end in
        match update_batch collection batch w with
        | (Return n, w') =>
            bulk_update_loop collection updates batch_size on_error rest
              {| updated_count := updated_count st + n;
                 update_error_count := update_error_count st;
                 update_errors := update_errors st |} w'
        | (Raise e, w') =>
            let st' := {| updated_count := updated_count st;
                          update_error_count := update_error_count st + batch_len;
                          update_errors :=
                            (update_errors st ++ [batch_error i batch_len e])%list |} in
            if value_eqb_str on_error "stop" then (Return st', w')
            else bulk_update_loop collection updates batch_size on_error rest st' w'
        end
  end.

(** [handle_bulk_update] before decoration. *)
Definition handle_bulk_update (db : Db) (args : option value) : action World value :=
  match args with
  | None => done (Raise (missing_args "handle_bulk_update"))
  | Some args =>
      name <- done (py_item args "collection") ;;
      collection <- api_collection api db name ;;
      updates <- done (py_get args "updates") ;;
      let updates := py_or updates (VList []) in
      batch_size <- done (py_get_or args "batch_size" (VInt 1000)) ;;
      batch_size <- done (py_int batch_size) ;;
      on_error <- done (py_get_or args "on_error" (VStr "stop")) ;;
      total <- done (py_len updates) ;;
      starts <- done (py_range_step total batch_size) ;;
      st <- bulk_update_loop collection updates batch_size on_error starts
              {| updated_count := 0; update_error_count := 0; update_errors := [] |} ;;
      done (Return (VDict [("total_updates", VInt total);
                           ("updated_count", VInt (updated_count st));
                           ("error_count", VInt (update_error_count st));
                           ("errors", VList (update_errors st))]))
  end.

End MoreHandlers.

(** ** Dispatches one after the other *)

Section Serving.

Variables World Config Client Db : Type.

Definition is_sleep (e : event Db) : bool :=
  match e with EvSleep _ => true | _ => false end.
Definition count_sleeps (tr : list (event Db)) : nat := List.length (filter is_sleep tr).

(** The requests of a session, each answered by [call_tool] on the server and
    the outside the previous one left. *)
Fixpoint serve (ext : Collaborators World Config Client Db)
  (registry : dict (ToolRegistration World Db)) (srv : Server Client Db)
  (requests : list (string * option (dict value))) (w : World)
  : list (list TextContent) * Server Client Db * World * list (event Db) :=
  match requests with
  | [] => ([], srv, w, [])
  | (name, arguments) :: rest =>
      let '(resp, srv', w', tr) := call_tool ext registry srv name arguments w in
      let '(resps, srv'', w'', tr') := serve ext registry srv' rest w' in
      (resp :: resps, srv'', w'', (tr ++ tr')%list)
  end.

End Serving.

(** ** Instances for the handlers *)

(** A database in memory: the outside counts the writes made; collections are
    known by name, every collection has the indexes [indexes], [graphs] is the
    answer of [db.graphs()] and [rows] the answer of every query. *)
Definition memory_database (known : list string) (indexes : value)
  (graphs : outcome value) (rows : value) : Database nat nat string :=
  let name_of (v : value) := match v with VStr s => s | _ => "" end in
  let stored (c : string) :=
    VDict [("_id", VStr (c ++ "/1")); ("_key", VStr "1"); ("_rev", VStr "_r1")] in
  {| api_collections := fun _ w =>
       (Return (VList (map (fun c => VDict [("name", VStr c);
                                            ("isSystem", VBool (String.prefix "_" c))])
                           known)), w);
     api_has_collection := fun _ name w =>
       (Return (VBool (existsb (String.eqb (name_of name)) known)), w);
     api_collection := fun _ name w => (Return (name_of name), w);
     api_create_collection := fun _ name _ _ w => (Return (name_of name), S w);
     api_delete_index := fun _ _ w => (Return (VBool true), S w);
     api_graphs := fun _ w => (graphs, w);
     api_execute := fun _ _ _ w => (Return rows, w);
     api_explain := fun _ _ _ _ w =>
       (Return (VDict [("plans", rows); ("warnings", VList [])]), w);
     api_insert := fun c _ w => (Return (stored c), S w);
     api_update := fun c _ w => (Return (stored c), S w);
     api_delete := fun c _ w => (Return (stored c), S w);
     api_properties := fun c w =>
       (Return (VDict [("name", VStr c); ("type", VInt 2); ("waitForSync", VBool false)]), w);
     api_indexes := fun _ w => (Return indexes, w);
     api_update_many := fun _ batch w => (Return batch, S w) |}.

Definition plain_repr (v : value) : string := "<object>".

Definition users_db : Database nat nat string :=
  memory_database ["users"; "_graphs"; "orders"]
    (VList [VDict [("id", VStr "users/101"); ("name", VStr "by_email")]])
    (Raise (Exn "GraphListError" BaseArangoError "forbidden"))
    (VList [VList []]).

(** A database whose query plans hold a filter node listed twice. *)
Definition filtering_db : Database nat nat string :=
  memory_database ["orders"] (VList []) (Return (VList []))
    (VList [VDict [("nodes", VList [VDict [("type", VStr "Filter"); ("id", VInt 4)];
                                    VDict [("type", VStr "Filter"); ("id", VInt 4)]])]]).

(** A database whose reference check reports one dangling reference. *)
Definition dangling_db : Database nat nat string :=
  memory_database ["orders"] (VList []) (Return (VList []))
    (VList [VList [VDict [("field", VStr "owner"); ("value", VStr "users/9")]]]).

(** ** backup.py *)

Module backup.

(** [except ValueError]: the exceptions of [os.path] and of this module that
    are caught there are instances of the class itself. *)
Definition is_ValueError (e : exn) : bool := String.eqb (exn_class e) "ValueError".

(** [c.isspace()] for the characters below 256. *)
Definition is_whitespace (c : ascii) : bool :=
  let n := nat_of_ascii c in
  ((Nat.leb 9 n && Nat.leb n 13) || (Nat.leb 28 n && Nat.leb n 32)
   || Nat.eqb n 133 || Nat.eqb n 160)%bool.

(** [not s.strip()] *)
Definition blank (s : string) : bool := forallb is_whitespace (list_ascii_of_string s).

(** [i >= v] for an int [i]. *)
Definition py_ge_int (i : Z) (v : value) : outcome bool :=
  match number_of v with
  | Some q => Return (Qle_bool q (inject_Z i))
  | None => Raise (TypeError "'>=' not supported between instances of 'int' and another type")
  end.

(** What [validate_output_directory] asks of [os], [os.path] and [tempfile].
    The answers depend on the process, not on what the backup does. *)
Record Os : Type := {
  os_name : string;
  abspath : string -> outcome string;
  gettempdir : outcome string;
  getcwd : outcome string;
  relpath : string -> string -> outcome string;
  lower : string -> string;
  path_join : string -> string -> string
}.

Definition traversal_detected : exn :=
  ValueError "Path traversal detected: '..' not allowed in path".

Definition backslash : string := String (ascii_of_nat 92) EmptyString.

Definition suspicious_patterns : list string :=
  ["../"; ".." ++ backslash; "/../"; backslash ++ ".." ++ backslash].

Definition not_allowed (output_dir : string) : exn :=
  ValueError ("Output directory '" ++ output_dir
              ++ "' is not allowed. Must be within current working directory or temp directory.").

(** The [except ValueError as e] clause of [validate_output_directory]. *)
Definition outside_cwd (os : Os) (output_dir abs_path temp_dir : string) (e : exn)
  : outcome string :=
  if (String.eqb (os_name os) "nt"
      && contains (lower os (exn_str e)) "different drives")%bool
  then if (contains (lower os abs_path) "temp" || String.prefix temp_dir abs_path)%bool
       then Return abs_path
       else Raise (not_allowed output_dir)
  else Raise (not_allowed output_dir).

(** [validate_output_directory(output_dir)] for a [str]. *)
Definition validate_output_directory (os : Os) (output_dir : string) : outcome string :=
  match abspath os output_dir with
  | Raise e => Raise e
  | Return abs_path =>
      if contains output_dir ".." then Raise traversal_detected
      else
        match find (contains output_dir) suspicious_patterns with
        | Some pattern => Raise (ValueError ("Suspicious path pattern detected: " ++ pattern))
        | None =>
            match gettempdir os with
            | Raise e => Raise e
            | Return temp_dir =>
                if String.prefix temp_dir abs_path then Return abs_path
                else
                  match getcwd os with
                  | Raise e => Raise e
                  | Return cwd =>
                      match relpath os abs_path cwd with
                      | Return rel_path =>
                          if String.prefix ".." rel_path
                          then outside_cwd os output_dir abs_path temp_dir
                                 (ValueError "Path outside current working directory")
                          else Return abs_path
                      | Raise e =>
                          if is_ValueError e
                          then outside_cwd os output_dir abs_path temp_dir e
                          else Raise e
                      end
                  end
            end
        end
  end.

(** What a report says of an entry of [written]: it names one of the
    collections [all_cols]; its count is not negative and, with an integer
    limit [n], at most [max(0, n)]: at most the limit when the limit is not
    negative, and 0 when it is. *)
Definition entry_within (all_cols : list value) (doc_limit : value) (entry : value) : Prop :=
  exists name path count tail,
    entry = VDict (("collection", name) :: ("path", VStr path)
                   :: ("count", VInt count) :: tail)
    /\ existsb (py_eq name) all_cols = true
    /\ 0 <= count
    /\ forall n, doc_limit = VInt n -> count <= Z.max 0 n.

Section Routine.

Variables World Db Coll Cursor File : Type.

(** [str(x)] of an object that is not a string is left to Python. *)
Variable py_repr : value -> string.

(** The clock, the file system and the cursors of the driver.  A cursor gives
    its rows one by one, a row that fails to arrive being an exception;
    closing a cursor cannot fail for the caller, who ignores its errors. *)
Record Files : Type := {
  now_stamp : action World string;
  makedirs : string -> action World unit;
  col_all : Coll -> action World Cursor;
  cursor_rows : Cursor -> list (outcome value);
  cursor_close : Cursor -> World -> World;
  file_open : string -> action World File;
  file_write : File -> string -> action World unit;
  json_dump : value -> File -> action World unit;
  file_close : File -> action World unit
}.

Variable os : Os.
Variable fs : Files.
Variable api : Database World Db Coll.

(** [with open(path, "w", encoding="utf-8") as f: body]: the file is closed on
    the way out, also when the body raises. *)
Definition with_file {A : Type} (path : string) (body : File -> action World A)
  : action World A :=
  fun w =>
    match file_open fs path w with
    | (Raise e, w1) => (Raise e, w1)
    | (Return f, w1) =>
        match body f w1 with
        | (Return a, w2) =>
            match file_close fs f w2 with
            | (Return _, w3) => (Return a, w3)
            | (Raise e, w3) => (Raise e, w3)
            end
        | (Raise e, w2) =>
            match file_close fs f w2 with
            | (Return _, w3) => (Raise e, w3)
            | (Raise e', w3) => (Raise e', w3)
            end
        end
    end.

(** [for i, doc in enumerate(cursor)], from row [i] on; the value is [count]
    when the loop is left. *)
Fixpoint dump_rows (f : File) (doc_limit : value) (rows : list (outcome value))
  (i : Z) (first_doc : bool) (count : Z) : action World Z :=
  match rows with
  | [] => done (Return count)
  | Raise e :: _ => done (Raise e)
  | Return doc :: rest =>
      stop <- done (match doc_limit with
                    | VNone => Return false
                    | _ => py_ge_int i doc_limit
                    end) ;;
      if (stop : bool) then done (Return count)
      else
        _ <- (if first_doc then done (Return tt) else file_write fs f ",") ;;
        _ <- file_write fs f (newline ++ "  ") ;;
        _ <- json_dump fs doc f ;;
        dump_rows f doc_limit rest (i + 1) false (count + 1)
  end.

(** The body of the [try] once the cursor is there. *)
Definition write_collection (path : string) (doc_limit : value) (cursor : Cursor)
  : action World Z :=
  with_file path (fun f =>
    _ <- file_write fs f "[" ;;
    count <- dump_rows f doc_limit (cursor_rows fs cursor) 0 true 0 ;;
    _ <- file_write fs f (newline ++ "]") ;;
    done (Return count)).

Definition written_entry (name : value) (path : string) (result : outcome Z) : value :=
  match result with
  | Return count =>
      VDict [("collection", name); ("path", VStr path); ("count", VInt count)]
  | Raise e =>
      VDict [("collection", name); ("path", VStr path); ("count", VInt 0);
             ("error", VStr (exn_str e))]
  end.

(** [for name in target_cols].  [cursor] is the local variable of that name:
    it keeps the cursor of an earlier collection when [col.all()] fails, and
    the [finally] clause closes whatever it holds. *)
Fixpoint export_loop (db : Db) (output_dir : string) (all_cols : list value)
  (doc_limit : value) (names : list value) (written : list value)
  (cursor : option Cursor) : action World (list value) :=
  match names with
  | [] => done (Return written)
  | name :: rest =>
      if negb (existsb (py_eq name) all_cols)
      then export_loop db output_dir all_cols doc_limit rest written cursor
      else
        col <- api_collection api db name ;;
        let path := path_join os output_dir (py_str py_repr name ++ ".json") in
        fun w =>
          let '(result, cursor', w1) :=
            match col_all fs col w with
            | (Raise e, w1) => (Raise e, cursor, w1)
            | (Return c, w1) =>
                let '(r, w2) := write_collection path doc_limit c w1 in
                (r, Some c, w2)
            end in
          let w2 := match cursor' with
                    | Some c => cursor_close fs c w1
                    | None => w1
                    end in
          export_loop db output_dir all_cols doc_limit rest
            (written ++ [written_entry name path result])%list cursor' w2
  end.

(** [sum(int(x["count"]) for x in written)] *)
Fixpoint total_documents (written : list value) : outcome Z :=
  match written with
  | [] => Return 0
  | x :: rest =>
      match py_item x "count" with
      | Raise e => Raise e
      | Return c =>
          match py_int c with
          | Raise e => Raise e
          | Return n =>
              match total_documents rest with
              | Raise e => Raise e
              | Return m => Return (n + m)
              end
          end
      end
  end.

(** The directory the backup goes to when none is asked for. *)
Definition default_directory : action World string :=
  ts <- now_stamp fs ;;
  done (Return (path_join os "backups" ts)).

(** [backup_collections_to_dir(db, output_dir, collections, doc_limit)] *)
Definition backup_collections_to_dir (db : Db) (output_dir collections doc_limit : value)
  : action World value :=
  output_dir <- (match output_dir with
                 | VNone => default_directory
                 | VStr s => if blank s then default_directory else done (Return s)
                 | _ => done (Raise (AttributeError "strip"))
                 end) ;;
  output_dir <- done (match validate_output_directory os output_dir with
                      | Return p => Return p
                      | Raise e =>
                          if is_ValueError e
                          then Raise (ValueError ("Invalid output directory: " ++ exn_str e))
                          else Raise e
                      end) ;;
  _ <- makedirs fs output_dir ;;
  cols <- api_collections api db ;;
  cols <- done (py_iter cols) ;;
  all_cols <- done (non_system_names cols) ;;
  let target_cols := if truthy collections then collections else VList all_cols in
  names <- done (py_iter target_cols) ;;
  written <- export_loop db output_dir all_cols doc_limit names [] None ;;
  total <- done (total_documents written) ;;
  done (Return (VDict [("output_dir", VStr output_dir);
                       ("written", VList written);
                       ("total_collections", VInt (Z.of_nat (List.length written)));
                       ("total_documents", VInt total)])).

End Routine.

End backup.

(** ** Instances for the backup *)

(** [s.split("/")] *)
Fixpoint split_slash (s : string) : list string :=
  match s with
  | EmptyString => [EmptyString]
  | String c rest =>
      if Ascii.eqb c "/" then EmptyString :: split_slash rest
      else match split_slash rest with
           | [] => [String c EmptyString]
           | comp :: comps => String c comp :: comps
           end
  end.

Definition ends_with_slash (s : string) : bool :=
  match rev (list_ascii_of_string s) with
  | c :: _ => Ascii.eqb c "/"
  | [] => false
  end.

(** [posixpath.join(a, b)] *)
Definition posix_join (a b : string) : string :=
  if String.prefix "/" b then b
  else if (String.eqb a "" || ends_with_slash a)%bool then a ++ b
  else a ++ "/" ++ b.

(** One component in the loop of [posixpath.normpath]; the components kept so
    far are held last first. *)
Definition norm_step (rooted : bool) (kept : list string) (comp : string) : list string :=
  if (String.eqb comp "" || String.eqb comp ".")%bool then kept
  else if negb (String.eqb comp "..") then comp :: kept
  else match kept with
       | [] => if rooted then [] else [comp]
       | top :: below => if String.eqb top ".." then comp :: kept else below
       end.

(** [posixpath.normpath(path)] *)
Definition posix_normpath (path : string) : string :=
  if String.eqb path "" then "."
  else
    let initial_slashes :=
      if String.prefix "/" path
      then if (String.prefix "//" path && negb (String.prefix "///" path))%bool
           then "//" else "/"
      else "" in
    let comps :=
      rev (fold_left (norm_step (negb (String.eqb initial_slashes "")))
             (split_slash path) []) in
    let normal := initial_slashes ++ concat "/" comps in
    if String.eqb normal "" then "." else normal.

(** [posixpath.abspath(path)] in the working directory [cwd]. *)
Definition posix_abspath (cwd path : string) : string :=
  posix_normpath (if String.prefix "/" path then path else posix_join cwd path).

Fixpoint common_length (a b : list string) : nat :=
  match a, b with
  | x :: a', y :: b' => if String.eqb x y then S (common_length a' b') else O
  | _, _ => O
  end.

(** [posixpath.relpath(path, start)] in the working directory [cwd]. *)
Definition posix_relpath (cwd path start : string) : outcome string :=
  if String.eqb path "" then Raise (ValueError "no path specified")
  else
    let parts (p : string) :=
      filter (fun x => negb (String.eqb x "")) (split_slash (posix_abspath cwd p)) in
    let start_list := parts start in
    let path_list := parts path in
    let i := common_length start_list path_list in
    let rel_list :=
      (repeat ".." (List.length start_list - i) ++ skipn i path_list)%list in
    match rel_list with
    | [] => Return "."
    | _ => Return (concat "/" rel_list)
    end.

(** A process on a POSIX system that works in /srv/app and has /tmp for its
    temporary files. *)
Definition posix_os : backup.Os :=
  {| backup.os_name := "posix";
     backup.abspath := fun p => Return (posix_abspath "/srv/app" p);
     backup.gettempdir := Return "/tmp";
     backup.getcwd := Return "/srv/app";
     backup.relpath := posix_relpath "/srv/app";
     backup.lower := lower_ascii;
     backup.path_join := posix_join |}.

(** Files in memory: the outside counts what is made and written.  Every
    collection has the rows [rows]. *)
Definition memory_files (rows : list (outcome value))
  : backup.Files nat string (list (outcome value)) string :=
  {| backup.now_stamp := fun w => (Return "20240101_120000", w);
     backup.makedirs := fun _ w => (Return tt, S w);
     backup.col_all := fun _ w => (Return rows, w);
     backup.cursor_rows := fun c => c;
     backup.cursor_close := fun _ w => w;
     backup.file_open := fun path w => (Return path, S w);
     backup.file_write := fun _ _ w => (Return tt, S w);
     backup.json_dump := fun _ _ w => (Return tt, S w);
     backup.file_close := fun _ w => (Return tt, w) |}.

Definition three_rows : list (outcome value) :=
  [Return (VDict [("_key", VStr "1")]); Return (VDict [("_key", VStr "2")]);
   Return (VDict [("_key", VStr "3")])].

(** The driver of the backup tool: the backup routine of backup.py on the
    files in memory. *)
Definition backup_driver : Driver nat nat string :=
  {| db_collection := api_collection users_db;
     insert_many := api_update_many users_db;
     backup_collections_to_dir :=
       backup.backup_collections_to_dir plain_repr posix_os (memory_files three_rows)
         users_db |}.

(** ** Index creation and reference checks *)

(** [IndexType] of models.py. *)
Definition IndexType : list string :=
  ["persistent"; "hash"; "skiplist"; "ttl"; "fulltext"; "geo"].

(** [v[0]] *)
Definition py_first (v : value) : outcome value :=
  match v with
  | VList (x :: _) => Return x
  | VList [] => Raise (Exn "IndexError" BaseOther "list index out of range")
  | VStr (String c _) => Return (VStr (String c EmptyString))
  | VStr EmptyString => Raise (Exn "IndexError" BaseOther "string index out of range")
  | VDict _ => Raise (Exn "KeyError" BaseKeyError "0")
  | _ => Raise (TypeError "object is not subscriptable")
  end.

Section IndexAndReferenceHandlers.

Variables World Db Coll : Type.
Variable py_repr : value -> string.

(** The index calls of a collection: the fields, then [unique], [sparse]
    and [deduplicate] where the call has them, then what the index type adds,
    then [name] and [in_background]. *)
Record IndexApi : Type := {
  add_persistent_index :
    Coll -> value -> bool -> bool -> bool -> value -> value -> action World value;
  add_hash_index :
    Coll -> value -> bool -> bool -> bool -> value -> value -> action World value;
  add_skiplist_index :
    Coll -> value -> bool -> bool -> bool -> value -> value -> action World value;
  add_ttl_index : Coll -> value -> value -> value -> value -> action World value;
  add_fulltext_index : Coll -> value -> value -> value -> value -> action World value;
  add_geo_index : Coll -> value -> value -> value -> value -> action World value
}.

(** What [handle_validate_references] asks of a cursor and of a collection.
    Closing a cursor cannot fail for the caller: [safe_cursor] ignores its
    errors.  [col_has_count] is [hasattr(collection, "count")]. *)
Record CollectionApi : Type := {
  close_cursor : value -> World -> World;
  col_has_count : Coll -> bool;
  col_count : Coll -> action World value;
  col_delete_many : Coll -> value -> action World value
}.

Variable api : Database World Db Coll.
Variable ix : IndexApi.
Variable cx : CollectionApi.

(** The dict [handle_create_index] answers with. *)
Definition index_summary (created : value) : outcome value :=
  match created with
  | VDict c =>
      Return (VDict [("id", get c "id"); ("type", get c "type");
                     ("fields", get c "fields"); ("unique", get c "unique");
                     ("sparse", get c "sparse"); ("name", get c "name")])
  | _ => Raise (AttributeError "get")
  end.

(** [not fields or len(fields) != 1] *)
Definition not_one_field (fields : value) : outcome bool :=
  if negb (truthy fields) then Return true
  else match py_len fields with
       | Return n => Return (negb (n =? 1))
       | Raise e => Raise e
       end.

(** [handle_create_index] before decoration. *)
Definition handle_create_index (db : Db) (args : option value) : action World value :=
  match args with
  | None => done (Raise (missing_args "handle_create_index"))
  | Some args =>
      collection <- done (py_item args "collection") ;;
      col <- api_collection api db collection ;;
      ix_type <- done (py_get_or args "type" (VStr "persistent")) ;;
      fields <- done (py_item args "fields") ;;
      unique <- done (py_get_or args "unique" (VBool false)) ;;
      sparse <- done (py_get_or args "sparse" (VBool false)) ;;
      deduplicate <- done (py_get_or args "deduplicate" (VBool true)) ;;
      name <- done (py_get args "name") ;;
      in_background <- done (py_get args "inBackground") ;;
      created <-
        (if py_eq ix_type (VStr "persistent") then
           add_persistent_index ix col fields (truthy unique) (truthy sparse)
             (truthy deduplicate) name in_background
         else if py_eq ix_type (VStr "hash") then
           add_hash_index ix col fields (truthy unique) (truthy sparse)
             (truthy deduplicate) name in_background
         else if py_eq ix_type (VStr "skiplist") then
           add_skiplist_index ix col fields (truthy unique) (truthy sparse)
             (truthy deduplicate) name in_background
         else if py_eq ix_type (VStr "ttl") then
           refused <- done (not_one_field fields) ;;
           if (refused : bool) then
             done (Raise (ValueError "TTL index requires exactly one field in 'fields'"))
           else
             ttl <- done (py_get args "ttl") ;;
             expireAfter <- done (py_get args "expireAfter") ;;
             match py_or ttl expireAfter with
             | VNone =>
                 done (Raise (ValueError "TTL index requires 'ttl' (expireAfter seconds)"))
             | expire_after =>
                 field <- done (py_first fields) ;;
                 add_ttl_index ix col field expire_after name in_background
             end
         else if py_eq ix_type (VStr "fulltext") then
           min_length <- done (py_get args "minLength") ;;
           add_fulltext_index ix col fields min_length name in_background
         else if py_eq ix_type (VStr "geo") then
           geo_json <- done (py_get args "geoJson") ;;
           add_geo_index ix col fields geo_json name in_background
         else
           done (Raise (ValueError ("Unknown index type: " ++ py_str py_repr ix_type)))) ;;
      done (index_summary created)
  end.

(** [", ".join([f"'{f}'" for f in ref_fields])] *)
Definition quoted_fields (ref_fields : list value) : string :=
  concat ", " (map (fun f => "'" ++ py_str py_repr f ++ "'") ref_fields).

(** The query text of [handle_validate_references], line by line. *)
Definition references_query (collection : value) (fields_list : string) : string :=
  concat newline
    [""; "    FOR doc IN " ++ py_str py_repr collection;
     "      LET invalid_refs = (";
     "        FOR field IN [" ++ fields_list ++ "]";
     "          LET ref = DOCUMENT(doc[field])";
     "          FILTER ref == null AND doc[field] != null";
     "          RETURN {field: field, value: doc[field]}";
     "      )";
     "      FILTER LENGTH(invalid_refs) > 0";
     "      RETURN { _id: doc._id, _key: doc._key, invalid_references: invalid_refs }";
     "    "].

(** [with safe_cursor(cursor): ... list(cursor)] *)
Definition list_and_close (cursor : value) : action World (list value) :=
  fun w => (py_iter cursor, close_cursor cx cursor w).

(** [[doc["_key"] for doc in invalid_docs]] *)
Fixpoint keys_of (docs : list value) : outcome (list value) :=
  match docs with
  | [] => Return []
  | doc :: rest =>
      match py_item doc "_key" with
      | Raise e => Raise e
      | Return k =>
          match keys_of rest with
          | Raise e => Raise e
          | Return ks => Return (k :: ks)
          end
      end
  end.

(** The four entries every report of [handle_validate_references] has. *)
Definition references_report (total_checked : value) (invalid_docs : list value)
  : dict value :=
  [("total_checked", total_checked);
   ("invalid_count", VInt (Z.of_nat (List.length invalid_docs)));
   ("invalid_documents", VList (slice_list invalid_docs 0 100));
   ("validation_passed", VBool (Z.of_nat (List.length invalid_docs) =? 0))].

(** [handle_validate_references] before decoration. *)
Definition handle_validate_references (db : Db) (args : option value)
  : action World value :=
  match args with
  | None => done (Raise (missing_args "handle_validate_references"))
  | Some args =>
      name <- done (py_item args "collection") ;;
      collection <- api_collection api db name ;;
      ref_fields <- done (py_get args "reference_fields") ;;
      ref_fields <- done (py_iter (py_or ref_fields (VList []))) ;;
      let fields_list := quoted_fields ref_fields in
      name <- done (py_item args "collection") ;;
      cursor <- api_execute api db (references_query name fields_list) None ;;
      invalid_docs <- list_and_close cursor ;;
      total_checked <- (if col_has_count cx collection then col_count cx collection
                        else done (Return VNone)) ;;
      let result := references_report total_checked invalid_docs in
      fix_invalid <- done (py_get args "fix_invalid") ;;
      if (truthy fix_invalid && truthy (VList invalid_docs))%bool then
        keys_to_remove <- done (keys_of invalid_docs) ;;
        fun w =>
          match col_delete_many cx collection (VList keys_to_remove) w with
          | (Return _, w') =>
              (Return (VDict (dict_set result "removed_count"
                                (VInt (Z.of_nat (List.length keys_to_remove))))), w')
          | (Raise _, w') =>
              (Return (VDict (dict_set result "removed_count" (VInt 0))), w')
          end
      else done (Return (VDict result))
  end.

End IndexAndReferenceHandlers.

(** Index calls in memory: the outside counts the indexes made. *)
Definition memory_indexes : IndexApi nat string :=
  let made (kind : string) (fields : value) :=
    VDict [("id", VStr "users/205"); ("type", VStr kind); ("fields", fields)] in
  {| add_persistent_index := fun _ f _ _ _ _ _ w => (Return (made "persistent" f), S w);
     add_hash_index := fun _ f _ _ _ _ _ w => (Return (made "hash" f), S w);
     add_skiplist_index := fun _ f _ _ _ _ _ w => (Return (made "skiplist" f), S w);
     add_ttl_index := fun _ f _ _ _ w => (Return (made "ttl" (VList [f])), S w);
     add_fulltext_index := fun _ f _ _ _ w => (Return (made "fulltext" f), S w);
     add_geo_index := fun _ f _ _ _ w => (Return (made "geo" f), S w) |}.

(** Collections in memory: a count of 250, and removals that the outside
    counts or that fail. *)
Definition memory_collections (removal_fails : bool) : CollectionApi nat string :=
  {| close_cursor := fun _ w => w;
     col_has_count := fun _ => true;
     col_count := fun _ w => (Return (VInt 250), w);
     col_delete_many := fun _ _ w =>
       if removal_fails
       then (Raise (Exn "DocumentDeleteError" BaseArangoError "write conflict"), w)
       else (Return (VList []), S w) |}.

(** A database whose reference check reports two documents. *)
Definition referencing_db : Database nat nat string :=
  memory_database ["orders"] (VList []) (Return (VList []))
    (VList [VDict [("_id", VStr "orders/1"); ("_key", VStr "1")];
            VDict [("_id", VStr "orders/2"); ("_key", VStr "2")]]).

(** * Properties *)

(** ** Dictionaries *)

Lemma dict_get_set_same (A : Type) (d : dict A) (k : string) (v : A) :
  dict_get (dict_set d k v) k = Some v.
Proof.
  induction d as [|[k' v'] d IH]; simpl.
  - now rewrite String.eqb_refl.
  - destruct (String.eqb k' k) eqn:E; simpl; rewrite E; auto.
Qed.

Lemma dict_get_set_other (A : Type) (d : dict A) (k k' : string) (v : A) :
  k <> k' -> dict_get (dict_set d k v) k' = dict_get d k'.
Proof.
  intros Hne. induction d as [|[k0 v0] d IH]; simpl.
  - destruct (String.eqb k k') eqn:E; auto.
    apply String.eqb_eq in E. contradiction.
  - destruct (String.eqb k0 k) eqn:E; simpl.
    + apply String.eqb_eq in E. subst k0.
      destruct (String.eqb k k') eqn:E'; auto.
      apply String.eqb_eq in E'. contradiction.
    + now rewrite IH.
Qed.


Lemma dict_set_fresh (A : Type) (d : dict A) (k : string) (v : A) :
  ~ In k (dict_keys d) -> dict_set d k v = (d ++ [(k, v)])%list.
Proof.
  induction d as [|[k' v'] d IH]; simpl; intros Hn; auto.
  destruct (String.eqb k' k) eqn:E.
  - apply String.eqb_eq in E. tauto.
  - rewrite IH; tauto.
Qed.

Lemma dict_set_not_empty (A : Type) (d : dict A) (k : string) (v : A) :
  dict_set d k v <> [].
Proof.
  destruct d as [|[k' v'] d]; simpl; [discriminate|].
  destruct (String.eqb k' k); discriminate.
Qed.

(** ** Registry population *)

Section RegistryFacts.

Variables World Db : Type.
Local Abbreviation Reg := (ToolRegistration World Db).
Local Abbreviation assign := (fun (d : dict Reg) (kr : string * Reg) => dict_set d (fst kr) (snd kr)).

Lemma assignments_get (regs : list (string * Reg)) :
  forall (d0 : dict Reg) (k : string),
    dict_get (fold_left assign regs d0) k =
    match last_assigned regs k with
    | Some r => Some r
    | None => dict_get d0 k
    end.
Proof.
  induction regs as [|[k' r] rest IH]; intros d0 k; simpl; auto.
  rewrite IH. destruct (last_assigned rest k); auto.
  destruct (String.eqb k' k) eqn:E.
  - apply String.eqb_eq in E. subst. apply dict_get_set_same.
  - apply dict_get_set_other. intros ->. now rewrite String.eqb_refl in E.
Qed.

Lemma assignments_not_empty (regs : list (string * Reg)) :
  forall d0 : dict Reg, d0 <> [] \/ regs <> [] -> fold_left assign regs d0 <> [].
Proof.
  induction regs as [|[k' r] rest IH]; intros d0 H; simpl.
  - destruct H; [assumption | congruence].
  - apply IH. left. apply dict_set_not_empty.
Qed.

Lemma assignments_distinct (regs : list (string * Reg)) :
  forall d0 : dict Reg,
    NoDup (dict_keys d0 ++ map fst regs) ->
    fold_left assign regs d0 = (d0 ++ regs)%list.
Proof.
  induction regs as [|[k' r] rest IH]; intros d0 Hnd; simpl.
  - now rewrite app_nil_r.
  -     assert (Hfresh : ~ In k' (dict_keys d0)).
    { intros Hin. simpl in Hnd. apply NoDup_remove_2 in Hnd.
      apply Hnd. apply in_or_app. now left. }
    rewrite dict_set_fresh; [|exact Hfresh].
    rewrite IH.
    + now rewrite <- app_assoc.
    + unfold dict_keys. rewrite map_app. simpl. rewrite <- app_assoc. exact Hnd.
Qed.

Lemma populate_distinct (regs : list (string * Reg)) :
  NoDup (map fst regs) -> populate regs = regs.
Proof.
  intros Hnd. unfold populate. now apply (assignments_distinct regs []).
Qed.

Lemma last_assigned_in (regs : list (string * Reg)) (k : string) (r : Reg) :
  last_assigned regs k = Some r -> In k (map fst regs).
Proof.
  induction regs as [|[k' r'] rest IH]; simpl; [discriminate|].
  destruct (last_assigned rest k) eqn:E.
  - intros H. right. apply IH. exact H.
  - destruct (String.eqb k' k) eqn:E'; [|discriminate].
    apply String.eqb_eq in E'. now left.
Qed.

Lemma last_is_first_when_distinct (regs : list (string * Reg)) (k : string) :
  NoDup (map fst regs) -> last_assigned regs k = first_assigned regs k.
Proof.
  unfold first_assigned.
  induction regs as [|[k' r] rest IH]; simpl; intros Hnd; auto.
  inversion Hnd as [|? ? Hnotin Hnd']; subst.
  destruct (String.eqb k' k) eqn:E.
  - apply String.eqb_eq in E. subst k'.
    destruct (last_assigned rest k) eqn:El; auto.
    apply last_assigned_in in El. contradiction.
  - rewrite IH by assumption. now destruct (dict_get rest k).
Qed.

Lemma populate_get (regs : list (string * Reg)) (k : string) :
  dict_get (populate regs) k = last_assigned regs k.
Proof.
  unfold populate. rewrite assignments_get. simpl.
  now destruct (last_assigned regs k).
Qed.

Lemma populate_passes_check (regs : list (string * Reg)) :
  regs <> [] -> exists n, validate_registry (populate regs) = Return n.
Proof.
  intros Hne. unfold validate_registry.
  destruct (populate regs) eqn:E.
  - exfalso. revert E. unfold populate.
    apply assignments_not_empty. now right.
  - eauto.
Qed.

(** C1 (as the code has it): population is plain mapping assignment.  It has
    no failing case; a name registered again keeps only its last registration;
    the start-up check accepts every population that is not empty; and when the
    registered names are pairwise distinct each name maps to the registration
    it was first given. *)
Theorem registry_population_last_wins
  (regs : list (string * Reg)) (k : string) :
  dict_get (populate regs) k = last_assigned regs k
  /\ (regs <> [] -> exists n, validate_registry (populate regs) = Return n)
  /\ (NoDup (map fst regs) ->
      dict_get (populate regs) k = first_assigned regs k).
Proof.
  split; [apply populate_get|]. split.
  - apply populate_passes_check.
  - intros Hnd. rewrite populate_get. now apply last_is_first_when_distinct.
Qed.

End RegistryFacts.

(** C1, witness: two distinct names, each keeping its own registration. *)
Lemma registry_population_last_wins_witness :
  dict_get small_registry "ping" = Some ping_tool
  /\ (exists n, validate_registry small_registry = Return n).
Proof.
  pose proof (@registry_population_last_wins nat nat
                [("ping", ping_tool); ("insert_doc", insert_doc_tool)] "ping")
    as [_ [Hstart Hfirst]].
  split.
  - apply Hfirst. repeat constructor; simpl; intuition discriminate.
  - apply Hstart. discriminate.
Defined.

(** C1, as stated, fails: a second registration under a name already present
    is accepted, start-up goes through, and the name no longer maps to the
    registration it was first given. *)
Lemma duplicate_registration_overwrites :
  let regs := [("ping", ping_tool); ("ping", insert_doc_tool)] in
  fst (fst (server_lifespan (flaky_db 0) (populate regs) 3 0%nat))
    = Return {| ls_db := Some 0%nat; ls_client := Some 0%nat |}
  /\ first_assigned regs "ping" = Some ping_tool
  /\ dict_get (populate regs) "ping" = Some insert_doc_tool
  /\ dict_get (populate regs) "ping" <> first_assigned regs "ping".
Proof.
  cbv zeta. repeat split; try reflexivity.
  vm_compute. discriminate.
Qed.

(** The registry of entry.py is never empty, whatever the constants of
    tools.py are, so the start-up check passes. *)
Lemma TOOL_REGISTRY_not_empty (World Db : Type) (tools_py : string -> string)
  (models_py : string -> Model) (handlers_py : string -> Callable World Db) :
  exists n, validate_registry (TOOL_REGISTRY tools_py models_py handlers_py) = Return n.
Proof.
  unfold TOOL_REGISTRY. apply populate_passes_check. discriminate.
Qed.

(** With pairwise distinct constants the registry holds the 33 registrations
    in the order of the assignments. *)
Lemma TOOL_REGISTRY_distinct (World Db : Type) (tools_py : string -> string)
  (models_py : string -> Model) (handlers_py : string -> Callable World Db) :
  NoDup (map (fun e => tools_py (fst (fst (fst e)))) registrations) ->
  TOOL_REGISTRY tools_py models_py handlers_py
  = map (registration tools_py models_py handlers_py) registrations
  /\ List.length (TOOL_REGISTRY tools_py models_py handlers_py) = 33%nat.
Proof.
  intros Hnd.
  assert (E : TOOL_REGISTRY tools_py models_py handlers_py
              = map (registration tools_py models_py handlers_py) registrations).
  { unfold TOOL_REGISTRY. apply populate_distinct.
    rewrite map_map.
    erewrite map_ext; [exact Hnd|].
    intros [[[c d] m] h]. reflexivity. }
  split; [exact E|]. rewrite E. rewrite length_map. reflexivity.
Qed.

(** ** Tool listing *)

Section ListingFacts.

Variables World Config Client Db : Type.
Variable ext : Collaborators World Config Client Db.

Lemma compat_baseline_spec (getenv : string -> option string) :
  compat_baseline getenv = true <->
  (getenv "MCP_COMPAT_TOOLSET" = Some "baseline"
   \/ (getenv "MCP_COMPAT_TOOLSET" = None
       /\ exists s, getenv "PYTEST_CURRENT_TEST" = Some s /\ s <> "")).
Proof.
  unfold compat_baseline, env_truthy.
  destruct (getenv "MCP_COMPAT_TOOLSET") as [c|].
  - rewrite String.eqb_eq. split.
    + intros ->. now left.
    + intros [H|[H _]]; [now inversion H | discriminate].
  - destruct (getenv "PYTEST_CURRENT_TEST") as [s|].
    + rewrite negb_true_iff. split.
      * intros H. right. split; auto. exists s. split; auto.
        intros ->. discriminate.
      * intros [H|[_ [s' [H Hne]]]]; [discriminate|].
        inversion H; subst. now apply String.eqb_neq.
    + split; [discriminate|].
      intros [H|[_ [s' [H _]]]]; discriminate.
Qed.

(** C7 (as the code has it): with pairwise distinct registered names the
    listing names the registered tools in registration order; it is cut to the
    first 7 exactly when MCP_COMPAT_TOOLSET is "baseline", or is unset while
    PYTEST_CURRENT_TEST is set and not empty; in every other case, among them
    both variables unset, all tools are listed. *)
Theorem tool_listing_modes
  (regs : list (string * ToolRegistration World Db))
  (getenv : string -> option string) :
  NoDup (map fst regs) ->
  let listed := map (@tool_name) (handle_list_tools ext (populate regs) getenv) in
  let registered := map (fun kr => reg_name (snd kr)) regs in
  let restricted :=
    getenv "MCP_COMPAT_TOOLSET" = Some "baseline"
    \/ (getenv "MCP_COMPAT_TOOLSET" = None
        /\ exists s, getenv "PYTEST_CURRENT_TEST" = Some s /\ s <> "") in
  (restricted -> listed = firstn 7 registered)
  /\ (~ restricted -> listed = registered).
Proof.
  intros Hnd listed registered restricted.
  assert (Hall : map (@tool_name)
                   (map (fun reg => {| tool_name := reg_name reg;
                                       tool_description := reg_description reg;
                                       inputSchema := model_json_schema ext (reg_model reg) |})
                        (dict_values (populate regs))) = registered).
  { rewrite populate_distinct by assumption.
    unfold dict_values, registered. rewrite !map_map. reflexivity. }
  subst listed. unfold handle_list_tools. split; intros Hr.
  - apply compat_baseline_spec in Hr. rewrite Hr.
    rewrite <- firstn_map. now rewrite Hall.
  - destruct (compat_baseline getenv) eqn:E.
    + apply compat_baseline_spec in E. contradiction.
    + exact Hall.
Qed.

End ListingFacts.

(** C7, witness: ten tools; the toggle set to "baseline" gives the first
    seven, the toggle set to "full" gives all ten. *)
Lemma tool_listing_modes_witness :
  map (@tool_name)
      (handle_list_tools (flaky_db 0) (populate ten_tools)
         (env_of [("MCP_COMPAT_TOOLSET", "baseline")]))
  = ["t0"; "t1"; "t2"; "t3"; "t4"; "t5"; "t6"]
  /\ map (@tool_name)
       (handle_list_tools (flaky_db 0) (populate ten_tools)
          (env_of [("MCP_COMPAT_TOOLSET", "full"); ("PYTEST_CURRENT_TEST", "t (call)")]))
     = ["t0"; "t1"; "t2"; "t3"; "t4"; "t5"; "t6"; "t7"; "t8"; "t9"].
Proof.
  assert (Hnd : NoDup (map fst ten_tools)).
  { vm_compute. repeat constructor; simpl; intuition discriminate. }
  split.
  - apply (tool_listing_modes (flaky_db 0) ten_tools
             (env_of [("MCP_COMPAT_TOOLSET", "baseline")]) Hnd).
    left. reflexivity.
  - apply (tool_listing_modes (flaky_db 0) ten_tools
             (env_of [("MCP_COMPAT_TOOLSET", "full"); ("PYTEST_CURRENT_TEST", "t (call)")]) Hnd).
    intros [H|[H _]]; vm_compute in H; discriminate.
Defined.

(** C7, as stated, fails: with the toggle unset the listing is still cut to
    seven of the ten tools when PYTEST_CURRENT_TEST is set. *)
Lemma listing_truncated_with_toggle_unset :
  let getenv := env_of [("PYTEST_CURRENT_TEST", "tests/test_server.py::test_list (call)")] in
  getenv "MCP_COMPAT_TOOLSET" = None
  /\ List.length (populate ten_tools) = 10%nat
  /\ map (@tool_name) (handle_list_tools (flaky_db 0) (populate ten_tools) getenv)
     = ["t0"; "t1"; "t2"; "t3"; "t4"; "t5"; "t6"].
Proof.
  cbv zeta. repeat split; reflexivity.
Qed.

(** ** Validation *)

Section ValidationFacts.

Variable check : FieldType -> value -> checked.

Lemma validate_fields_keeps_errors (m : Model) (raw : dict value) (fs : list Field) :
  forall (f : Field) (es : list LineError),
    In f fs -> validate_field check m raw f = inr es ->
    incl es (snd (validate_fields check m raw fs)).
Proof.
  induction fs as [|f0 fs IH]; intros f es Hin Hf; [contradiction|].
  simpl. destruct (validate_fields check m raw fs) as [vals errs] eqn:E.
  destruct Hin as [->|Hin].
  - rewrite Hf. simpl. intros e He. apply in_or_app. now left.
  - specialize (IH f es Hin Hf). simpl in IH.
    destruct (validate_field check m raw f0) as [v|es0]; simpl.
    + exact IH.
    + intros e He. apply in_or_app. right. now apply IH.
Qed.

Lemma validate_model_rejects (m : Model) (raw : dict value) (f : Field)
  (e : LineError) (es : list LineError) :
  In f (fields m) -> validate_field check m raw f = inr (e :: es) ->
  exists errs, validate_model check m raw = inr errs /\ incl (e :: es) errs.
Proof.
  intros Hin Hf. unfold validate_model.
  pose proof (validate_fields_keeps_errors m raw (fields m) f Hin Hf) as Hincl.
  destruct (validate_fields check m raw (fields m)) as [vals [|e0 errs]]; simpl in Hincl.
  - exfalso. apply (Hincl e). now left.
  - eauto.
Qed.





Lemma validate_fields_keys (m : Model) (raw : dict value) (fs : list Field) :
  (forall k, In k (dict_keys (fst (validate_fields check m raw fs))) ->
             In k (map f_name fs))
  /\ (NoDup (map f_name fs) ->
      NoDup (dict_keys (fst (validate_fields check m raw fs)))).
Proof.
  induction fs as [|f0 fs [IHin IHnd]]; simpl.
  - split; [tauto | constructor].
  - destruct (validate_fields check m raw fs) as [vals errs]. simpl in *.
    destruct (validate_field check m raw f0) as [v|es]; simpl.
    + split.
      * intros k [->|Hk]; auto.
      * intros Hnd. inversion Hnd; subst. constructor; auto.
    + split.
      * intros k Hk. auto.
      * intros Hnd. inversion Hnd; subst. auto.
Qed.




End ValidationFacts.


(** ** Dispatch *)

Section DispatchFacts.

Variables World Config Client Db : Type.
Variable ext : Collaborators World Config Client Db.
Local Abbreviation Registry := (dict (ToolRegistration World Db)).

Lemma invoke_handler_trace (h : Callable World Db) (db : Db) (args : dict value) (w : World) :
  snd (_invoke_handler h db args w) = [EvCall Kwargs db args]
  \/ snd (_invoke_handler h db args w) = [EvCall Kwargs db args; EvCall Bundle db args].
Proof.
  unfold _invoke_handler.
  destruct (call_kwargs h db args w) as [[r|e] w']; simpl; auto.
  destruct (is_TypeError e); simpl; auto.
  destruct (call_bundle h db args w') as [r w'']; simpl; auto.
Qed.

Lemma run_handler_trace (tool_reg : ToolRegistration World Db) (name : string)
  (db : Db) (args : dict value) (w : World) :
  snd (run_handler tool_reg name db args w) = snd (_invoke_handler (reg_handler tool_reg) db args w).
Proof.
  unfold run_handler.
  destruct (_invoke_handler (reg_handler tool_reg) db args w) as [[[r|e] w'] tr];
    reflexivity.
Qed.

Lemma run_handler_calls (tool_reg : ToolRegistration World Db) (name : string)
  (db : Db) (args : dict value) (w : World) :
  count_connects (snd (run_handler tool_reg name db args w)) = 0%nat
  /\ (exists tl, snd (run_handler tool_reg name db args w) = EvCall Kwargs db args :: tl)
  /\ forall shape d a, In (EvCall shape d a) (snd (run_handler tool_reg name db args w)) ->
                       d = db /\ a = args.
Proof.
  rewrite run_handler_trace.
  destruct (invoke_handler_trace (reg_handler tool_reg) db args w) as [-> | ->];
    (split; [reflexivity|]); (split; [eauto|]);
    intros shape d a Hin; simpl in Hin;
    repeat destruct Hin as [Hin|Hin]; try contradiction; inversion Hin; auto.
Qed.

(** A dispatch that finds a cached handle leaves the server as it is, makes no
    connection and calls the handler with that handle only. *)
Lemma call_tool_cached (registry : Registry) (srv : Server Client Db) (db : Db)
  (name : string) (arguments : option (dict value)) (w : World) :
  cached_db (request_context srv) = Some db ->
  snd (fst (fst (call_tool ext registry srv name arguments w))) = srv
  /\ count_connects (snd (call_tool ext registry srv name arguments w)) = 0%nat
  /\ forall shape d a,
       In (EvCall shape d a) (snd (call_tool ext registry srv name arguments w)) -> d = db.
Proof.
  intros Hdb. unfold call_tool. rewrite Hdb.
  destruct (dict_get registry name) as [tool_reg|]; simpl.
  2:{ repeat split; auto. intros ? ? ? []. }
  destruct (validate_model (check ext) (reg_model tool_reg) (arguments_or_empty arguments))
    as [validated|errs]; simpl.
  2:{ repeat split; auto. intros ? ? ? [H|[]]. discriminate. }
  pose proof (run_handler_calls tool_reg name db validated w) as [Hc [_ Hcalls]].
  destruct (run_handler tool_reg name db validated w) as [[resp w'] tr]. simpl in *.
  repeat split; auto.
  intros shape d a [H|H]; [discriminate|].
  now apply Hcalls in H.
Qed.

(** C5: a name that is not registered is answered with "Unknown tool: <name>"
    and nothing else happens: no validation, no configuration load, no
    connection, no handler call, and the server and the outside are untouched. *)
Theorem unknown_tool_isolated (registry : Registry) (srv : Server Client Db)
  (name : string) (arguments : option (dict value)) (w : World) :
  dict_get registry name = None ->
  call_tool ext registry srv name arguments w
  = (_json_content (VDict [("error", VStr ("Unknown tool: " ++ name))]), srv, w, []).
Proof.
  intros Hnone. unfold call_tool. now rewrite Hnone.
Qed.


End DispatchFacts.

(** C5, witness: the dispatch of "nonexistent_tool" on the two-tool registry. *)
Lemma unknown_tool_isolated_witness :
  call_tool (flaky_db 0) small_registry (server_with no_connection)
            "nonexistent_tool" (Some []) 0%nat
  = (_json_content (VDict [("error", VStr "Unknown tool: nonexistent_tool")]),
     server_with no_connection, 0%nat, []).
Proof.
  apply (@unknown_tool_isolated nat unit nat nat (flaky_db 0) small_registry
           (server_with no_connection) "nonexistent_tool" (Some []) 0%nat).
  reflexivity.
Defined.



(** ** Lazy reconnect *)

Section ReconnectFacts.

Variables World Config Client Db : Type.
Variable ext : Collaborators World Config Client Db.

(** C3 (as the code has it): with a request context that carries a lifespan
    mapping without a database handle, a dispatch that passes lookup and
    validation makes one reconnect attempt: it loads the configuration once and
    connects at most once.  When that fails the answer is "Database
    unavailable" with the hint and no handler runs.  When it succeeds the
    handle is stored in the lifespan mapping, the handler runs with it, and any
    dispatch that follows finds it there: no further connection, same handle. *)
Theorem lazy_reconnect_once
  (registry : dict (ToolRegistration World Db)) (ls : Lifespan Client Db)
  (name : string) (arguments : option (dict value)) (w : World)
  (tool_reg : ToolRegistration World Db) (validated : dict value) :
  dict_get registry name = Some tool_reg ->
  validate_model (check ext) (reg_model tool_reg) (arguments_or_empty arguments)
    = inl validated ->
  ls_db ls = None ->
  let srv := {| _safe_request_context := Some (Some {| lifespan_context := Some ls |}) |} in
  let result := call_tool ext registry srv name arguments w in
  let resp := fst (fst (fst result)) in
  let srv' := snd (fst (fst result)) in
  let w' := snd (fst result) in
  let tr := snd result in
  (count_connects tr <= 1)%nat
  /\ (forall e, load_config ext w = Raise e ->
        resp = _json_content (unavailable name) /\ srv' = srv
        /\ tr = [EvValidate Db name; EvLoadConfig Db])
  /\ (forall cfg e w1,
        load_config ext w = Return cfg ->
        get_client_and_db ext cfg w = (Raise e, w1) ->
        resp = _json_content (unavailable name) /\ srv' = srv
        /\ tr = [EvValidate Db name; EvLoadConfig Db; EvConnect Db])
  /\ (forall cfg client db w1,
        load_config ext w = Return cfg ->
        get_client_and_db ext cfg w = (Return (client, db), w1) ->
        count_connects tr = 1%nat
        /\ cached_db (request_context srv') = Some db
        /\ (exists tl, tr = EvValidate Db name :: EvLoadConfig Db :: EvConnect Db
                            :: EvCall Kwargs db validated :: tl)
        /\ forall name2 arguments2,
             let second := call_tool ext registry srv' name2 arguments2 w' in
             count_connects (snd second) = 0%nat
             /\ snd (fst (fst second)) = srv'
             /\ forall shape d a, In (EvCall shape d a) (snd second) -> d = db).
Proof.
  intros Hreg Hval Hdb srv result resp srv' w' tr.
  subst resp srv' w' tr result.
  unfold call_tool. rewrite Hreg, Hval.
  replace (cached_db (request_context srv)) with (@None Db) by (simpl; now rewrite Hdb).
  destruct (load_config ext w) as [cfg|e0] eqn:Hcfg.
  2:{ simpl. split; [unfold count_connects; simpl; lia|].
      split; [auto|]. split; intros; discriminate. }
  destruct (get_client_and_db ext cfg w) as [[[client db]|e1] w1] eqn:Hconn.
  2:{ simpl. split; [unfold count_connects; simpl; lia|].
      split; [intros; discriminate|]. split.
      - intros cfg' e w2 Hc Hg. inversion Hc; subst cfg'.
        rewrite Hconn in Hg. inversion Hg; subst. auto.
      - intros cfg' client db w2 Hc Hg. inversion Hc; subst cfg'.
        rewrite Hconn in Hg. discriminate. }
  pose proof (run_handler_calls tool_reg name db validated w1) as [Hcount [[tl Htl] _]].
  destruct (run_handler tool_reg name db validated w1) as [[resp w2] trh] eqn:Hrun.
  simpl in Hcount, Htl. simpl.
  assert (Hone : count_connects
                   (EvValidate Db name :: EvLoadConfig Db :: EvConnect Db :: trh) = 1%nat).
  { unfold count_connects in *. simpl. now rewrite Hcount. }
  split; [rewrite Hone; lia|].
  split; [intros; discriminate|].
  split; [intros cfg' e w3 Hc Hg; inversion Hc; subst cfg'; rewrite Hconn in Hg; discriminate|].
  intros cfg' client' db' w3 Hc Hg. inversion Hc; subst cfg'.
  rewrite Hconn in Hg. inversion Hg; subst client' db' w3.
  split; [exact Hone|]. split; [reflexivity|]. split.
  - exists tl. now rewrite Htl.
  - intros name2 arguments2.
    destruct (call_tool_cached ext registry
                (cache_connection srv client db) (db := db) name2 arguments2 w2)
      as [Hs [Hc2 Hcalls]]; [reflexivity|].
    split; [exact Hc2|]. split; [exact Hs | exact Hcalls].
Qed.

End ReconnectFacts.

(** C3, witness: "ping" on a context without handle, first with a database
    that answers and then a second "ping"; one connection in all. *)
Lemma lazy_reconnect_once_witness :
  let first := call_tool (flaky_db 0) small_registry (server_with no_connection)
                         "ping" None 0%nat in
  let second := call_tool (flaky_db 0) small_registry (snd (fst (fst first)))
                          "ping" None (snd (fst first)) in
  count_connects (snd first) = 1%nat
  /\ cached_db (request_context (snd (fst (fst first)))) = Some 0%nat
  /\ count_connects (snd second) = 0%nat.
Proof.
  cbv zeta.
  destruct (@lazy_reconnect_once nat unit nat nat (flaky_db 0) small_registry
              no_connection "ping" None 0%nat ping_tool [])
    as [_ [_ [_ Hok]]]; try reflexivity.
  destruct (Hok tt 0%nat 0%nat 1%nat eq_refl eq_refl) as [H1 [H2 [_ H3]]].
  split; [exact H1|]. split; [exact H2|].
  exact (proj1 (H3 "ping" None)).
Defined.

(** C3, as stated, fails: when the request context has no lifespan mapping, or
    when no request context was ever stored on the server, a successful
    reconnect is not kept and the next dispatch connects again. *)
Lemma reconnect_not_cached_without_lifespan_mapping :
  let without_mapping : Server nat nat :=
    {| _safe_request_context := Some (Some {| lifespan_context := None |}) |} in
  let never_set : Server nat nat := {| _safe_request_context := None |} in
  let twice (srv : Server nat nat) :=
    let first := call_tool (flaky_db 0) small_registry srv "ping" None 0%nat in
    let second := call_tool (flaky_db 0) small_registry (snd (fst (fst first)))
                            "ping" None (snd (fst first)) in
    (fst (fst (fst first)), count_connects (snd first),
     fst (fst (fst second)), count_connects (snd second)) in
  twice without_mapping
  = (_json_content (VDict [("pong", VBool true)]), 1%nat,
     _json_content (VDict [("pong", VBool true)]), 1%nat)
  /\ twice never_set
     = (_json_content (VDict [("pong", VBool true)]), 1%nat,
        _json_content (VDict [("pong", VBool true)]), 1%nat).
Proof.
  split; reflexivity.
Qed.

(** ** Handler invocation and error recovery *)

Section HandlerFacts.

Variables World Db : Type.

Lemma handle_errors_never_raises (func : HandlerFn World Db) (db : Db)
  (args : value) (w : World) :
  exists v w', wrapper func db args w = (Return v, w').
Proof.
  unfold wrapper.
  destruct args;
    match goal with
    | |- context [func db ?a w] => destruct (func db a w) as [[v|e] w']
    end; eauto.
Qed.

Lemma decorated_fallback_is_mismatch (func : HandlerFn World Db) (db : Db)
  (args : dict value) (w : World) :
  (exists e, fst (call_kwargs (handle_errors func) db args w) = Raise e
             /\ is_TypeError e = true)
  <-> binds_kwargs (handle_errors func) args = false.
Proof.
  unfold call_kwargs.
  destruct (binds_kwargs (handle_errors func) args) eqn:E.
  - split; [|discriminate].
    intros [e [H _]]. simpl in H.
    destruct (handle_errors_never_raises func db (get args "args") w) as [v [w' Hw]].
    rewrite Hw in H. discriminate.
  - split; [reflexivity|]. intros _. eexists. split; reflexivity.
Qed.

(** C9 (as the code has it): the keyword-expanded call is made first; the call
    with the single dictionary follows exactly when the first call raised a
    [TypeError], which every signature mismatch does and which an error of
    that class inside the handler does as well; no other error leads to it.
    The outcome of the call that was made last is handed back unchanged.  For
    a handler decorated with [handle_errors] the fallback happens exactly on a
    signature mismatch. *)
Theorem invoke_handler_fallback (h : Callable World Db) (db : Db)
  (args : dict value) (w : World) :
  let first := call_kwargs h db args w in
  let result := _invoke_handler h db args w in
  let fell_back := snd result = [EvCall Kwargs db args; EvCall Bundle db args] in
  (fell_back \/ snd result = [EvCall Kwargs db args])
  /\ (fell_back <-> exists e, fst first = Raise e /\ is_TypeError e = true)
  /\ (binds_kwargs h args = false -> fell_back)
  /\ (fell_back -> fst result = call_bundle h db args (snd first))
  /\ (~ fell_back -> fst result = first)
  /\ (forall func, h = handle_errors func ->
        (fell_back <-> binds_kwargs h args = false)).
Proof.
  intros first result fell_back.
  assert (Hiff : fell_back <-> exists e, fst first = Raise e /\ is_TypeError e = true).
  { subst fell_back result first. unfold _invoke_handler.
    destruct (call_kwargs h db args w) as [[r|e] w']; simpl.
    - split; [discriminate | intros [e [H _]]; discriminate].
    - destruct (is_TypeError e) eqn:E.
      + destruct (call_bundle h db args w') as [r w'']. simpl.
        split; [eauto | reflexivity].
      + simpl. split; [discriminate|].
        intros [e' [H H']]. inversion H; subst. congruence. }
  split; [|split; [exact Hiff|]].
  { subst fell_back result. destruct (invoke_handler_trace h db args w); auto. }
  split.
  { intros Hb. apply Hiff. subst first. unfold call_kwargs. rewrite Hb.
    eexists. split; reflexivity. }
  split; [|split].
  - subst fell_back result first. unfold _invoke_handler.
    destruct (call_kwargs h db args w) as [[r|e] w']; simpl; [discriminate|].
    destruct (is_TypeError e); simpl; [|discriminate].
    now destruct (call_bundle h db args w').
  - subst fell_back result first. unfold _invoke_handler.
    destruct (call_kwargs h db args w) as [[r|e] w']; simpl; auto.
    destruct (is_TypeError e); simpl; auto.
    destruct (call_bundle h db args w'). simpl. intros H. now contradiction H.
  - intros func ->. rewrite Hiff. apply decorated_fallback_is_mismatch.
Qed.

(** C4 (as the code has it): what the dispatcher answers when the function
    behind a handler decorated with [handle_errors] raises.  The dispatcher
    reaches the function by the keyword call when the arguments bind (there
    are none, or they are all named "args") and by the call with the
    dictionary otherwise; whichever it is, the exception does not come out:
    the response is the dictionary of exactly a message and a kind that the
    decorator makes of it, "Missing required parameter: ..." with kind
    "KeyError" for a [KeyError], "Database operation failed: ..." with kind
    "ArangoError" for an [ArangoError], and "Operation failed: ..." with the
    class name of the exception for anything else; the value of a function
    that returns is passed on as it is; a whole dispatch that finds the handle
    in its context answers with that dictionary and leaves the server as it
    is.  An exception leaving a callable that is not decorated is recovered by
    the dispatcher itself, into its message and the tool name, without a
    kind. *)
Theorem handler_exceptions_recovered (func : HandlerFn World Db)
  (tool_reg : ToolRegistration World Db) (name : string) (db : Db)
  (args : dict value) (w : World) :
  reg_handler tool_reg = handle_errors func ->
  let bound := binds_kwargs (handle_errors func) args in
  let a := if bound then get args "args" else VDict args in
  let called := match a with VNone => func db None w | _ => func db (Some a) w end in
  let tr := if bound then [EvCall Kwargs db args]
            else [EvCall Kwargs db args; EvCall Bundle db args] in
  (forall (e : exn) (w1 : World),
     called = (Raise e, w1) ->
     run_handler tool_reg name db args w = (_json_content (map_exception e), w1, tr)
     /\ (exists msg kind,
           map_exception e = VDict [("error", VStr msg); ("type", VStr kind)])
     /\ (exn_base e = BaseKeyError ->
         map_exception e
         = VDict [("error", VStr ("Missing required parameter: " ++ exn_str e));
                  ("type", VStr "KeyError")])
     /\ (exn_base e = BaseArangoError ->
         map_exception e
         = VDict [("error", VStr ("Database operation failed: " ++ exn_str e));
                  ("type", VStr "ArangoError")])
     /\ (exn_base e <> BaseKeyError -> exn_base e <> BaseArangoError ->
         map_exception e
         = VDict [("error", VStr ("Operation failed: " ++ exn_str e));
                  ("type", VStr (exn_class e))]))
  /\ (forall (v : value) (w1 : World),
        called = (Return v, w1) ->
        run_handler tool_reg name db args w = (_json_content v, w1, tr))
  /\ (forall (Config Client : Type) (ext : Collaborators World Config Client Db)
             (registry : dict (ToolRegistration World Db)) (srv : Server Client Db)
             (arguments : option (dict value)) (e : exn) (w1 : World),
        dict_get registry name = Some tool_reg ->
        validate_model (check ext) (reg_model tool_reg) (arguments_or_empty arguments)
        = inl args ->
        cached_db (request_context srv) = Some db ->
        called = (Raise e, w1) ->
        call_tool ext registry srv name arguments w
        = (_json_content (map_exception e), srv, w1, EvValidate Db name :: tr))
  /\ (forall (other : ToolRegistration World Db) (e : exn) (w1 : World)
             (tr' : list (event Db)),
        _invoke_handler (reg_handler other) db args w = (Raise e, w1, tr') ->
        run_handler other name db args w
        = (_json_content (VDict [("error", VStr (exn_str e)); ("tool", VStr name)]),
           w1, tr')).
Proof.
  intros Hreg bound a called tr.
  assert (Hrun : run_handler tool_reg name db args w
                 = (_json_content (match fst called with
                                   | Return v => v
                                   | Raise e => map_exception e
                                   end), snd called, tr)).
  { unfold run_handler, _invoke_handler, call_kwargs, call_bundle.
    rewrite Hreg. subst called a tr. fold bound.
    destruct bound; simpl.
    - unfold wrapper.
      destruct (get args "args");
        match goal with
        | |- context [func db ?x w] => destruct (func db x w) as [[v|e] w']
        end; reflexivity.
    - unfold wrapper. destruct (func db (Some (VDict args)) w) as [[v|e] w']; reflexivity. }
  split; [|split; [|split]].
  - intros e w1 Hraise. rewrite Hrun, Hraise. split; [reflexivity|].
    unfold map_exception, error_result.
    destruct (exn_base e); repeat split; eauto; try discriminate; try congruence.
  - intros v w1 Hret. now rewrite Hrun, Hret.
  - intros Config Client ext registry srv arguments e w1 Hget Hval Hdb Hraise.
    unfold call_tool. rewrite Hget, Hval, Hdb, Hrun, Hraise. reflexivity.
  - intros other e w1 tr' H. unfold run_handler. now rewrite H.
Qed.

End HandlerFacts.

(** C9, witness: the decorated "ping" called with a keyword it does not have;
    the mismatch leads to the call with the dictionary. *)
Lemma invoke_handler_fallback_witness :
  _invoke_handler ping 7%nat [("collection", VStr "users")] 0%nat
  = (Return (VDict [("pong", VBool true)]), 0%nat,
     [EvCall Kwargs 7%nat [("collection", VStr "users")];
      EvCall Bundle 7%nat [("collection", VStr "users")]]).
Proof.
  pose proof (@invoke_handler_fallback nat nat ping 7%nat
                [("collection", VStr "users")] 0%nat) as [_ [_ [Hmis [Hres _]]]].
  specialize (Hmis eq_refl). specialize (Hres Hmis).
  destruct (_invoke_handler ping 7%nat [("collection", VStr "users")] 0%nat)
    as [[r w'] tr]. simpl in Hmis, Hres. subst tr.
  inversion Hres. reflexivity.
Defined.

(** C9, as stated, fails: a handler that takes any keywords, so that no
    mismatch occurs, but raises [TypeError] in its body is called a second
    time, with the dictionary. *)
Lemma fallback_without_signature_mismatch :
  binds_kwargs raises_type_error [("collection", VStr "users")] = true
  /\ snd (_invoke_handler raises_type_error 7%nat [("collection", VStr "users")] 0%nat)
     = [EvCall Kwargs 7%nat [("collection", VStr "users")];
        EvCall Bundle 7%nat [("collection", VStr "users")]].
Proof.
  split; reflexivity.
Qed.

(** C4, witness: "insert_doc", whose decorated handler reads a missing key,
    dispatched on a context that holds the handle 7. *)
Lemma handler_exceptions_recovered_witness :
  call_tool (flaky_db 0) small_registry (server_with connected) "insert_doc"
            (Some [("collection", VStr "users"); ("document", VDict [])]) 0%nat
  = (_json_content (VDict [("error", VStr "Missing required parameter: 'collection'");
                           ("type", VStr "KeyError")]),
     server_with connected, 0%nat,
     [EvValidate nat "insert_doc";
      EvCall Kwargs 7%nat [("collection", VStr "users"); ("document", VDict [])];
      EvCall Bundle 7%nat [("collection", VStr "users"); ("document", VDict [])]]).
Proof.
  apply (proj1 (proj2 (proj2
           (@handler_exceptions_recovered nat nat
              (fun _ _ w => (Raise (KeyError "collection"), w))
              insert_doc_tool "insert_doc" 7%nat
              [("collection", VStr "users"); ("document", VDict [])] 0%nat eq_refl)))
           unit nat (flaky_db 0) small_registry (server_with connected)
           (Some [("collection", VStr "users"); ("document", VDict [])])
           (KeyError "collection") 0%nat eq_refl eq_refl eq_refl eq_refl).
Defined.

(** C4, as stated, fails: the kind of the failure is the decorator's doing,
    not the dispatcher's.  A registered handler that is not decorated and
    raises a [KeyError] is answered with the message and the tool name; the
    response has no "type" entry and no "Missing required parameter" text. *)
Lemma undecorated_handler_error_has_no_kind :
  call_tool (flaky_db 0) (populate [("read_key", read_key_tool)]) (server_with connected)
            "read_key" None 0%nat
  = (_json_content (VDict [("error", VStr "'collection'"); ("tool", VStr "read_key")]),
     server_with connected, 0%nat,
     [EvValidate nat "read_key"; EvCall Kwargs 7%nat []]).
Proof. reflexivity. Qed.

(** ** Start-up connection *)

Section StartupFacts.

Variables World Config Client Db : Type.
Variable ext : Collaborators World Config Client Db.

Lemma attempts_from_S (k n : nat) :
  attempts_from k (S n) = (1 + Z.of_nat k) :: attempts_from (S k) n.
Proof. reflexivity. Qed.

Lemma connect_loop_failed (cfg : Config) (retries a : Z) (rest : list Z)
  (w w1 : World) (e : exn) :
  get_client_and_db ext cfg w = (Raise e, w1) ->
  connect_loop ext cfg retries (a :: rest) w
  = if a <? retries
    then let '(r, w'', tr) := connect_loop ext cfg retries rest w1 in
         (r, w'', EvConnect Db :: EvSleep Db :: tr)
    else (None, w1, [EvConnect Db]).
Proof. intros H. simpl. now rewrite H. Qed.

Lemma connect_loop_bound (cfg : Config) (retries : Z) (attempts : list Z) :
  forall w : World,
    (count_connects (snd (connect_loop ext cfg retries attempts w)) <= List.length attempts)%nat.
Proof.
  induction attempts as [|a rest IH]; intros w; simpl; [unfold count_connects; simpl; lia|].
  destruct (get_client_and_db ext cfg w) as [[conn|e] w'].
  - unfold count_connects. simpl. lia.
  - destruct (a <? retries).
    + specialize (IH w').
      destruct (connect_loop ext cfg retries rest w') as [[r w''] tr].
      unfold count_connects in *. simpl in *. lia.
    + unfold count_connects. simpl. lia.
Qed.

Lemma connect_loop_all_fail (cfg : Config) (retries : Z) :
  forall (n k : nat) (w : World),
    Z.of_nat (k + n) = Z.max 1 retries ->
    (attempts_fail ext cfg n w
     <-> fst (fst (connect_loop ext cfg retries (attempts_from k n) w)) = None)
    /\ (attempts_fail ext cfg n w ->
        count_connects (snd (connect_loop ext cfg retries (attempts_from k n) w)) = n).
Proof.
  induction n as [|n IH]; intros k w Hlen.
  - split; [split; reflexivity | reflexivity].
  - rewrite attempts_from_S. cbn [attempts_fail].
    destruct (get_client_and_db ext cfg w) as [[conn|e] w1] eqn:Hw.
    + simpl. rewrite Hw. cbn [fst snd]. split.
      * split; [intros [e [w2 [H _]]]; discriminate | discriminate].
      * intros [e [w2 [H _]]]. discriminate.
    + rewrite (@connect_loop_failed cfg retries _ _ _ _ _ Hw).
      destruct (1 + Z.of_nat k <? retries) eqn:E.
      * destruct (IH (S k) w1) as [Hiff Hc]; [lia|].
        destruct (connect_loop ext cfg retries (attempts_from (S k) n) w1) as [[r w''] tr].
        cbn [fst snd] in *. split.
        -- split.
           ++ intros [e' [w2 [H Hrest]]]. inversion H; subst. now apply Hiff.
           ++ intros Hr. exists e, w1. split; [reflexivity | now apply Hiff].
        -- intros [e' [w2 [H Hrest]]]. inversion H; subst.
           unfold count_connects in *. cbn [filter is_connect List.length].
           now rewrite (Hc Hrest).
      * apply Z.ltb_ge in E. assert (n = 0%nat) by lia. subst n.
        cbn [fst snd attempts_fail]. split.
        -- split; [reflexivity|]. intros _. exists e, w1. split; [reflexivity | exact I].
        -- reflexivity.
Qed.

Lemma py_range_attempts (retries : Z) :
  py_range 1 (Z.max 1 retries + 1) = attempts_from 0 (Z.to_nat (Z.max 1 retries)).
Proof.
  unfold py_range, attempts_from.
  replace (Z.max 1 retries + 1 - 1) with (Z.max 1 retries) by lia. reflexivity.
Qed.

(** C6: once the registry check has passed and the configuration is loaded,
    start-up always yields a lifespan context, never an error, after at most
    [max(1, retries)] connection attempts: at most 3 for [retries = 3], exactly
    one for [retries < 1].  The context holds no handle and no client exactly
    when the [max(1, retries)] connections tried one after the other all
    fail, and then all of them have been tried. *)
Theorem startup_retry_bound (registry : dict (ToolRegistration World Db))
  (retries : Z) (w : World) (cfg : Config) :
  registry <> [] ->
  load_config ext w = Return cfg ->
  let result := server_lifespan ext registry retries w in
  let all_fail := attempts_fail ext cfg (Z.to_nat (Z.max 1 retries)) w in
  (exists ls, fst (fst result) = Return ls
     /\ (all_fail <-> ls = {| ls_db := None; ls_client := None |})
     /\ (all_fail -> count_connects (snd result) = Z.to_nat (Z.max 1 retries)))
  /\ (count_connects (snd result) <= Z.to_nat (Z.max 1 retries))%nat
  /\ (retries = 3 -> (count_connects (snd result) <= 3)%nat)
  /\ (retries < 1 -> count_connects (snd result) = 1%nat).
Proof.
  intros Hne Hcfg result all_fail. subst result all_fail.
  unfold server_lifespan, validate_registry.
  destruct registry as [|r0 registry']; [congruence|].
  rewrite Hcfg. unfold connect_with_retry. rewrite py_range_attempts.
  pose proof (connect_loop_bound cfg retries
                (attempts_from 0 (Z.to_nat (Z.max 1 retries))) w) as Hbound.
  unfold attempts_from in Hbound at 2. rewrite length_map, length_seq in Hbound.
  pose proof (connect_loop_all_fail cfg retries (Z.to_nat (Z.max 1 retries)) 0 w) as Hall.
  assert (Hone : retries < 1 ->
                 count_connects
                   (snd (connect_loop ext cfg retries
                           (attempts_from 0 (Z.to_nat (Z.max 1 retries))) w)) = 1%nat).
  { intros Hlt. replace (Z.max 1 retries) with 1 by lia.
    change (attempts_from 0 (Z.to_nat 1)) with [1].
    destruct (get_client_and_db ext cfg w) as [[conn|e] w'] eqn:Hw.
    - simpl. now rewrite Hw.
    - rewrite (@connect_loop_failed cfg retries 1 [] _ _ _ Hw).
      replace (1 <? retries) with false by (symmetry; apply Z.ltb_ge; lia).
      reflexivity. }
  destruct Hall as [Hiff Hc]; [lia|].
  destruct (connect_loop ext cfg retries
              (attempts_from 0 (Z.to_nat (Z.max 1 retries))) w) as [[r w'] tr].
  simpl in *.
  assert (Hcount : forall t, count_connects (EvLoadConfig Db :: t) = count_connects t)
    by reflexivity.
  rewrite Hcount.
  split; [|split; [exact Hbound | split]].
  - eexists. split; [reflexivity|]. split; [|exact Hc].
    rewrite Hiff. split.
    + intros ->. reflexivity.
    + intros H. destruct r as [[client db]|]; [discriminate | reflexivity].
  - intros ->. simpl in Hbound. exact Hbound.
  - exact Hone.
Qed.

End StartupFacts.

(** C6, witness: three retries against a database that refuses the first
    three connections; the fourth would be accepted and is never tried. *)
Lemma startup_retry_bound_witness :
  fst (fst (server_lifespan (flaky_db 3) small_registry 3 0%nat))
  = Return {| ls_db := None; ls_client := None |}
  /\ count_connects (snd (server_lifespan (flaky_db 3) small_registry 3 0%nat)) = 3%nat.
Proof.
  destruct (@startup_retry_bound nat unit nat nat (flaky_db 3) small_registry 3 0%nat tt)
    as [[ls [Hls [Hiff Hcount]]] _]; [discriminate | reflexivity |].
  assert (Hfail : attempts_fail (flaky_db 3) tt (Z.to_nat (Z.max 1 3)) 0%nat).
  { simpl. repeat (eexists; eexists; split; [reflexivity|]). exact I. }
  split.
  - rewrite Hls. f_equal. now apply Hiff.
  - exact (Hcount Hfail).
Defined.

(** ** Bulk insert *)

Lemma slice_list_length (A : Type) (l : list A) (i step : Z) :
  0 <= i < Z.of_nat (List.length l) -> 0 < step ->
  Z.of_nat (List.length (slice_list l i (i + step)))
  = Z.min (i + step) (Z.of_nat (List.length l)) - i.
Proof.
  intros Hi Hstep. unfold slice_list, clamp_index.
  replace (i <? 0) with false by (symmetry; apply Z.ltb_ge; lia).
  replace (i + step <? 0) with false by (symmetry; apply Z.ltb_ge; lia).
  rewrite length_firstn, length_skipn. lia.
Qed.

Lemma success_rate_returns (inserted total : Z) :
  exists rate, success_rate inserted total = Return rate.
Proof.
  unfold success_rate, py_truediv.
  destruct (total =? 0); eauto.
Qed.

Section BulkInsertFacts.

Variables World Db Coll : Type.
Variable drv : Driver World Db Coll.

Lemma py_len_nonneg (v : value) (n : Z) : py_len v = Return n -> 0 <= n.
Proof.
  destruct v; simpl; intros H; inversion H; lia.
Qed.

Lemma bulk_loop_counts (collection : Coll) (documents : list value)
  (batch_size : Z) (on_error : value) :
  0 < batch_size ->
  forall (fuel : nat) (i : Z) (st : BulkCounts) (w : World),
    0 <= i ->
    exists st' w',
      bulk_loop drv collection (VList documents) batch_size on_error
                (range_from i (Z.of_nat (List.length documents)) batch_size fuel) st w
      = (Return st', w')
      /\ (one_result_per_document drv ->
          0 <= inserted_count st -> 0 <= error_count st ->
          inserted_count st + error_count st <= Z.min i (Z.of_nat (List.length documents)) ->
          0 <= inserted_count st' /\ 0 <= error_count st'
          /\ inserted_count st' + error_count st' <= Z.of_nat (List.length documents)).
Proof.
  intros Hstep. set (total := Z.of_nat (List.length documents)).
  induction fuel as [|fuel IH]; intros i st w Hi.
  - simpl. exists st, w. split; [reflexivity|]. intros; lia.
  - simpl. destruct (i <? total) eqn:Hlt.
    2:{ simpl. exists st, w. split; [reflexivity|]. intros; lia. }
    apply Z.ltb_lt in Hlt.
    assert (Hlen : Z.of_nat (List.length (slice_list documents i (i + batch_size)))
                   = Z.min (i + batch_size) total - i)
      by (apply slice_list_length; fold total; lia).
    cbn [bulk_loop py_slice py_len].
    set (batch := slice_list documents i (i + batch_size)) in *.
    destruct (insert_many drv collection (VList batch) w) as [r w1] eqn:Hins.
    assert (Hfail : forall e,
              exists st' w',
                (let st1 := batch_failed st i (Z.of_nat (List.length batch)) e in
                 if value_eqb_str on_error "stop" then (Return st1, w1)
                 else bulk_loop drv collection (VList documents) batch_size on_error
                        (range_from (i + batch_size) total batch_size fuel) st1 w1)
                = (Return st', w')
                /\ (one_result_per_document drv ->
                    0 <= inserted_count st -> 0 <= error_count st ->
                    inserted_count st + error_count st <= Z.min i total ->
                    0 <= inserted_count st' /\ 0 <= error_count st'
                    /\ inserted_count st' + error_count st' <= total)).
    { intros e. cbv zeta.
      destruct (value_eqb_str on_error "stop").
      - eexists. eexists. split; [reflexivity|]. simpl. intros; lia.
      - destruct (IH (i + batch_size)
                     (batch_failed st i (Z.of_nat (List.length batch)) e) w1)
          as [st' [w' [Heq Hb]]]; [lia|].
        exists st', w'. split; [exact Heq|].
        intros Hd H1 H2 H3. apply Hb; simpl; auto; lia. }
    destruct r as [batch_result|e]; [|apply Hfail].
    destruct (py_len batch_result) as [n|e] eqn:Hn; [|apply Hfail].
    destruct (IH (i + batch_size)
                 {| inserted_count := inserted_count st + n;
                    error_count := error_count st;
                    errors := errors st;
                    inserted_ids := (inserted_ids st ++ ids_of batch_result)%list |} w1)
      as [st' [w' [Heq Hb]]]; [lia|].
    exists st', w'. split; [exact Heq|].
    intros Hd H1 H2 H3.
    pose proof (Hd collection batch w w1 batch_result n Hins Hn) as Hle.
    pose proof (py_len_nonneg batch_result Hn) as Hge.
    apply Hb; simpl; auto; lia.
Qed.

(** C10 (as the code has it): the success rate is computed without a division
    by zero.  When the collection is found, the documents are a list (or
    absent) and the batch size is an integer other than 0, the handler returns
    its results: for no documents all counters and the rate are 0, otherwise
    the rate is inserted_count / total_documents; and when the driver answers
    each batch with at most one result per document, inserted_count +
    error_count does not exceed total_documents. *)
Theorem bulk_insert_counts (db : Db) (args : dict value) (w w1 : World)
  (name : value) (collection : Coll) (documents : list value) (batch_size : Z) :
  dict_get args "collection" = Some name ->
  db_collection drv db name w = (Return collection, w1) ->
  py_or (get args "documents") (VList []) = VList documents ->
  py_int (get_or args "batch_size" (VInt 1000)) = Return batch_size ->
  batch_size <> 0 ->
  let total := Z.of_nat (List.length documents) in
  (forall inserted t, exists rate, success_rate inserted t = Return rate)
  /\ exists st rate w2,
       handle_bulk_insert drv db (Some (VDict args)) w
       = (Return (bulk_results total st rate), w2)
       /\ (documents = [] -> total = 0 /\ st = no_counts /\ rate = VInt 0)
       /\ (documents <> [] ->
           rate = VFloat (Qmake (inserted_count st) 1 / Qmake total 1)%Q)
       /\ (one_result_per_document drv ->
           0 <= inserted_count st /\ 0 <= error_count st
           /\ inserted_count st + error_count st <= total).
Proof.
  intros Hname Hcoll Hdocs Hbs Hnz total.
  split; [intros; apply success_rate_returns|].
  unfold handle_bulk_insert. rewrite Hname, Hcoll, Hdocs, Hbs.
  cbn [py_len]. fold total. unfold py_range_step.
  replace (batch_size =? 0) with false by (symmetry; now apply Z.eqb_neq).
  destruct (batch_size <? 0) eqn:Hneg.
  - cbn [bulk_loop].
    destruct (success_rate_returns (inserted_count no_counts) total) as [rate Hrate].
    rewrite Hrate. exists no_counts, rate, w1.
    split; [reflexivity|]. split; [|split].
    + intros ->. subst total. simpl in *. unfold success_rate in Hrate.
      simpl in Hrate. inversion Hrate. auto.
    + intros Hne. unfold success_rate, py_truediv in Hrate.
      assert (total <> 0) by (subst total; destruct documents; [congruence | simpl; lia]).
      replace (total =? 0) with false in Hrate by (symmetry; now apply Z.eqb_neq).
      now inversion Hrate.
    + intros _. simpl. subst total. lia.
  - apply Z.ltb_ge in Hneg.
    destruct (@bulk_loop_counts collection documents batch_size
                (get_or args "on_error" (VStr "stop")) ltac:(lia)
                (Z.to_nat total) 0 no_counts w1 ltac:(lia))
      as [st [w2 [Hloop Hbound]]].
    fold total in Hloop. rewrite Hloop.
    destruct (success_rate_returns (inserted_count st) total) as [rate Hrate].
    rewrite Hrate. exists st, rate, w2.
    split; [reflexivity|]. split; [|split].
    + intros ->. subst total. simpl in *.
      inversion Hloop; subst st. unfold success_rate in Hrate. simpl in Hrate.
      inversion Hrate. auto.
    + intros Hne. unfold success_rate, py_truediv in Hrate.
      assert (total <> 0) by (subst total; destruct documents; [congruence | simpl; lia]).
      replace (total =? 0) with false in Hrate by (symmetry; now apply Z.eqb_neq).
      now inversion Hrate.
    + intros Hd. apply Hbound; simpl; auto; lia.
Qed.

End BulkInsertFacts.

(** C10, witness: three documents in batches of two, stored by a driver that
    answers with one result per document. *)
Lemma bulk_insert_counts_witness :
  exists st rate w2,
    handle_bulk_insert storing_driver 0%nat
      (Some (VDict [("collection", VStr "users");
                    ("documents", VList [VDict []; VDict []; VDict []]);
                    ("batch_size", VInt 2)])) 0%nat
    = (Return (bulk_results 3 st rate), w2)
    /\ rate = VFloat (Qmake (inserted_count st) 1 / Qmake 3 1)%Q
    /\ inserted_count st + error_count st <= 3.
Proof.
  destruct (@bulk_insert_counts nat nat string storing_driver 0%nat
              [("collection", VStr "users");
               ("documents", VList [VDict []; VDict []; VDict []]);
               ("batch_size", VInt 2)] 0%nat 0%nat (VStr "users") "users"
              [VDict []; VDict []; VDict []] 2
              eq_refl eq_refl eq_refl eq_refl ltac:(discriminate))
    as [_ [st [rate [w2 [Hres [_ [Hrate Hbound]]]]]]].
  exists st, rate, w2. split; [exact Hres|]. split.
  - apply Hrate. discriminate.
  - apply Hbound.
    intros c batch w0 w1 res n Hins Hlen. simpl in Hins.
    inversion Hins; subst. simpl in Hlen. inversion Hlen.
    rewrite length_map. lia.
Defined.

(** C10, as stated, fails in two places: with a batch size of 0 the handler
    answers with an error and no counters, even for an empty list of
    documents; and a driver that answers a one-document batch with two results
    makes inserted_count exceed total_documents. *)
Lemma bulk_insert_outside_preconditions :
  wrapper (handle_bulk_insert storing_driver) 0%nat
    (VDict [("collection", VStr "users"); ("documents", VList []);
            ("batch_size", VInt 0)]) 0%nat
  = (Return (VDict [("error", VStr "Operation failed: range() arg 3 must not be zero");
                    ("type", VStr "ValueError")]), 0%nat)
  /\ handle_bulk_insert (mock_driver [VDict [("_id", VStr "users/1")];
                                      VDict [("_id", VStr "users/2")]]) 0%nat
       (Some (VDict [("collection", VStr "users"); ("documents", VList [VDict []]);
                     ("batch_size", VInt 1)])) 0%nat
     = (Return (VDict [("total_documents", VInt 1);
                       ("inserted_count", VInt 2);
                       ("error_count", VInt 0);
                       ("errors", VList []);
                       ("inserted_ids", VList [VStr "users/1"; VStr "users/2"]);
                       ("success_rate", VFloat (Qmake 2 1))]), 1%nat).
Proof.
  split; reflexivity.
Qed.

(** ** The backup tool end to end *)

(** Through the dispatcher the backup routine is given the value sent under
    the alias "outputDir"; the value under "output_dir" is dropped by the
    validation. *)
Lemma backup_receives_alias_value :
  call_tool (flaky_db 0) (populate [("arango_backup", backup_tool)])
            (server_with {| ls_db := Some 0%nat; ls_client := Some 0%nat |})
            "arango_backup"
            (Some [("output_dir", VStr "/tmp/old"); ("outputDir", VStr "/tmp/new")]) 0%nat
  = (_json_content (VDict [("output_dir", VStr "/tmp/new")]),
     server_with {| ls_db := Some 0%nat; ls_client := Some 0%nat |}, 0%nat,
     [EvValidate nat "arango_backup";
      EvCall Kwargs 0%nat [("output_dir", VStr "/tmp/new")];
      EvCall Bundle 0%nat [("output_dir", VStr "/tmp/new")]]).
Proof. reflexivity. Qed.

(** Called directly with both keys, as the unit tests call it, [handle_backup]
    itself reads "output_dir" first. *)
Lemma handle_backup_reads_canonical_key_first :
  handle_backup (mock_driver []) 0%nat
    (Some (VDict [("output_dir", VStr "/tmp/old"); ("outputDir", VStr "/tmp/new")])) 0%nat
  = (Return (VDict [("output_dir", VStr "/tmp/old")]), 0%nat).
Proof. reflexivity. Qed.

(** With no arguments at all the validated dictionary is empty, the
    keyword-expanded call binds, and the decorated handler is called without
    [args]: the backup handler, which requires them, answers with an error. *)
Lemma backup_without_arguments :
  fst (fst (fst (call_tool (flaky_db 0) (populate [("arango_backup", backup_tool)])
                   (server_with {| ls_db := Some 0%nat; ls_client := Some 0%nat |})
                   "arango_backup" None 0%nat)))
  = _json_content
      (VDict [("error",
               VStr "Operation failed: handle_backup() missing 1 required positional argument: 'args'");
              ("type", VStr "TypeError")]).
Proof. reflexivity. Qed.

(** * Further properties *)

(** ** The registry of entry.py *)

Section RegistryLookup.

Variables World Db : Type.
Local Abbreviation Reg := (ToolRegistration World Db).

Lemma last_assigned_pair (regs : list (string * Reg)) (k : string) (r : Reg) :
  last_assigned regs k = Some r -> In (k, r) regs.
Proof.
  induction regs as [|[k' r'] rest IH]; simpl; [discriminate|].
  destruct (last_assigned rest k) as [r0|] eqn:E.
  - intros H. inversion H; subst. right. now apply IH.
  - destruct (String.eqb k' k) eqn:E'; [|discriminate].
    apply String.eqb_eq in E'. intros H. inversion H; subst. now left.
Qed.

Lemma last_assigned_some (regs : list (string * Reg)) (k : string) :
  In k (map fst regs) -> exists r, last_assigned regs k = Some r.
Proof.
  induction regs as [|[k' r'] rest IH]; simpl; [contradiction|].
  intros [->|Hin].
  - destruct (last_assigned rest k); [eauto|]. rewrite String.eqb_refl. eauto.
  - destruct (IH Hin) as [r ->]. eauto.
Qed.

(** X1: whatever values the constants of tools.py have, even equal ones, every
    constant used in a registration of entry.py is found in the registry, and
    the registration found under it carries that name. *)
Theorem registered_tools_resolve (tools_py : string -> string)
  (models_py : string -> Model) (handlers_py : string -> Callable World Db)
  (const descr model handler : string) :
  In (const, descr, model, handler) registrations ->
  exists reg,
    dict_get (TOOL_REGISTRY tools_py models_py handlers_py) (tools_py const) = Some reg
    /\ reg_name reg = tools_py const.
Proof.
  intros Hin. unfold TOOL_REGISTRY. rewrite populate_get.
  set (regs := map (registration tools_py models_py handlers_py) registrations).
  assert (Hkey : In (tools_py const) (map fst regs)).
  { unfold regs. rewrite map_map. apply in_map_iff.
    exists (const, descr, model, handler). split; [reflexivity | exact Hin]. }
  destruct (last_assigned_some regs _ Hkey) as [r Hr].
  exists r. split; [exact Hr|].
  apply last_assigned_pair in Hr. unfold regs in Hr.
  apply in_map_iff in Hr. destruct Hr as [[[[c d] m] h] [Heq _]].
  simpl in Heq. inversion Heq; subst. reflexivity.
Qed.

End RegistryLookup.

(** X1, witness: with every constant given the same value, the lookup of
    ARANGO_BACKUP still succeeds. *)
Lemma registered_tools_resolve_witness :
  exists reg,
    dict_get (TOOL_REGISTRY (fun _ => "arango") (fun _ => ListCollectionsArgs) (fun _ => ping))
             "arango" = Some reg
    /\ reg_name reg = "arango".
Proof.
  apply (@registered_tools_resolve nat nat (fun _ => "arango")
           (fun _ => ListCollectionsArgs) (fun _ => ping)
           "ARANGO_BACKUP" "Backup collections to JSON files." "BackupArgs" "handle_backup").
  simpl. do 6 right. left. reflexivity.
Defined.

(** ** Start-up *)

Section StartupSleeps.

Variables World Config Client Db : Type.
Variable ext : Collaborators World Config Client Db.

Lemma connect_loop_sleeps (cfg : Config) (retries : Z) :
  forall (n k : nat) (w : World),
    Z.of_nat (k + S n) = Z.max 1 retries ->
    let tr := snd (connect_loop ext cfg retries (attempts_from k (S n)) w) in
    (count_sleeps tr + 1 = count_connects tr)%nat
    /\ exists tr0, tr = (tr0 ++ [EvConnect Db])%list.
Proof.
  induction n as [|n IH]; intros k w Hlen tr; subst tr.
  - rewrite attempts_from_S. cbn [attempts_from seq map connect_loop].
    destruct (get_client_and_db ext cfg w) as [[conn|e] w1].
    + split; [reflexivity | now exists []].
    + replace (1 + Z.of_nat k <? retries) with false
        by (symmetry; apply Z.ltb_ge; lia).
      split; [reflexivity | now exists []].
  - rewrite attempts_from_S.
    destruct (get_client_and_db ext cfg w) as [[conn|e] w1] eqn:Hw.
    + cbn [connect_loop]. rewrite Hw. split; [reflexivity | now exists []].
    + rewrite (@connect_loop_failed _ _ _ _ ext cfg retries _ _ _ _ _ Hw).
      destruct (1 + Z.of_nat k <? retries) eqn:E.
      * destruct (IH (S k) w1) as [Hs [tr0 Htr]]; [lia|].
        destruct (connect_loop ext cfg retries (attempts_from (S k) (S n)) w1)
          as [[r w2] tr].
        cbn [fst snd] in *. split.
        -- unfold count_sleeps, count_connects in *.
           cbn [filter is_sleep is_connect List.length]. lia.
        -- exists (EvConnect Db :: EvSleep Db :: tr0). rewrite Htr. reflexivity.
      * split; [reflexivity | now exists []].
Qed.

(** X2: the start-up connection makes at least one attempt, sleeps exactly
    once between two attempts and never after the last one: the trace ends
    with a connection attempt and holds one sleep less than attempts. *)
Theorem startup_sleeps_between_attempts (cfg : Config) (retries : Z) (w : World) :
  let tr := snd (connect_with_retry ext cfg retries w) in
  (1 <= count_connects tr)%nat
  /\ (count_sleeps tr + 1 = count_connects tr)%nat
  /\ exists tr0, tr = (tr0 ++ [EvConnect Db])%list.
Proof.
  intros tr. subst tr. unfold connect_with_retry. rewrite py_range_attempts.
  destruct (Z.to_nat (Z.max 1 retries)) as [|n] eqn:En; [lia|].
  destruct (connect_loop_sleeps cfg retries n 0 w) as [Hs Hlast]; [lia|].
  split; [lia|]. split; assumption.
Qed.

End StartupSleeps.

(** ** Sessions *)

Section SessionFacts.

Variables World Config Client Db : Type.
Variable ext : Collaborators World Config Client Db.

Lemma count_connects_app (tr1 tr2 : list (event Db)) :
  count_connects (tr1 ++ tr2) = (count_connects tr1 + count_connects tr2)%nat.
Proof.
  unfold count_connects. now rewrite filter_app, length_app.
Qed.

(** X3: a session that starts with a cached handle keeps it.  Whatever the
    requests are and whatever their handlers do, every request is answered,
    no connection is attempted, the server is the same at the end, and every
    handler call was given that one handle. *)
Theorem cached_handle_survives_session
  (registry : dict (ToolRegistration World Db)) (db : Db)
  (requests : list (string * option (dict value))) :
  forall (srv : Server Client Db) (w : World),
    cached_db (request_context srv) = Some db ->
    let result := serve ext registry srv requests w in
    List.length (fst (fst (fst result))) = List.length requests
    /\ snd (fst (fst result)) = srv
    /\ count_connects (snd result) = 0%nat
    /\ forall shape d a, In (EvCall shape d a) (snd result) -> d = db.
Proof.
  induction requests as [|[name arguments] rest IH]; intros srv w Hdb result;
    subst result.
  - simpl. repeat split; auto. intros ? ? ? [].
  - simpl.
    destruct (call_tool_cached ext registry srv name arguments w Hdb)
      as [Hsrv [Hconn Hcalls]].
    destruct (call_tool ext registry srv name arguments w) as [[[resp srv1] w1] tr1].
    simpl in Hsrv, Hconn, Hcalls. subst srv1.
    specialize (IH srv w1 Hdb). cbv zeta in IH.
    destruct (serve ext registry srv rest w1) as [[[resps srv2] w2] tr2].
    simpl in *. destruct IH as [Hlen [Hs [Hc Hd]]].
    split; [now rewrite Hlen|]. split; [exact Hs|]. split.
    + rewrite count_connects_app. now rewrite Hconn, Hc.
    + intros shape d a Hin. apply in_app_or in Hin. destruct Hin as [Hin|Hin].
      * now apply Hcalls in Hin.
      * now apply Hd in Hin.
Qed.

(** X4: every dispatch answers with one text content.  Its payload is either
    the value the tool's handler returned, as returned, or a dictionary with
    an "error" entry. *)
Theorem response_is_value_or_error
  (registry : dict (ToolRegistration World Db)) (srv : Server Client Db)
  (name : string) (arguments : option (dict value)) (w : World) :
  exists data,
    fst (fst (fst (call_tool ext registry srv name arguments w)))
    = [{| c_type := "text"; c_text := data |}]
    /\ ((exists d msg, data = VDict d /\ dict_get d "error" = Some (VStr msg))
        \/ (exists tool_reg db validated w0 w1 tr,
              dict_get registry name = Some tool_reg
              /\ validate_model (check ext) (reg_model tool_reg)
                   (arguments_or_empty arguments) = inl validated
              /\ _invoke_handler (reg_handler tool_reg) db validated w0
                 = (Return data, w1, tr))).
Proof.
  unfold call_tool.
  destruct (dict_get registry name) as [tool_reg|] eqn:Hreg.
  2:{ eexists. split; [reflexivity|]. left. eexists. eexists. split; reflexivity. }
  destruct (validate_model (check ext) (reg_model tool_reg) (arguments_or_empty arguments))
    as [validated|errs] eqn:Hval.
  2:{ eexists. split; [reflexivity|]. left. eexists. eexists. split; reflexivity. }
  assert (Herr : forall (d : dict value) (msg : string),
            dict_get d "error" = Some (VStr msg) ->
            exists d0 msg0, VDict d = VDict d0 /\ dict_get d0 "error" = Some (VStr msg0))
    by eauto.
  destruct (cached_db (request_context srv)) as [db|].
  - unfold run_handler.
    destruct (_invoke_handler (reg_handler tool_reg) db validated w)
      as [[[r|e] w1] tr] eqn:Hinv; simpl;
      (eexists; split; [reflexivity|]).
    + right. exists tool_reg, db, validated, w, w1, tr. auto.
    + left. eapply Herr. reflexivity.
  - destruct (load_config ext w) as [cfg|e].
    2:{ eexists. split; [reflexivity|]. left. eapply Herr. reflexivity. }
    destruct (get_client_and_db ext cfg w) as [[[client db]|e] w1].
    2:{ eexists. split; [reflexivity|]. left. eapply Herr. reflexivity. }
    unfold run_handler.
    destruct (_invoke_handler (reg_handler tool_reg) db validated w1)
      as [[[r|e] w2] tr] eqn:Hinv; simpl;
      (eexists; split; [reflexivity|]).
    + right. exists tool_reg, db, validated, w1, w2, tr. auto.
    + left. eapply Herr. reflexivity.
Qed.

End SessionFacts.

(** X3, witness: three requests on a context with the handle 4, one of them
    to a tool whose handler fails. *)
Lemma cached_handle_survives_session_witness :
  let srv := server_with {| ls_db := Some 4%nat; ls_client := Some 4%nat |} in
  let result := serve (flaky_db 9) small_registry srv
                      [("ping", None); ("insert_doc",
                                        Some [("collection", VStr "c"); ("document", VDict [])]);
                       ("ping", None)] 0%nat in
  List.length (fst (fst (fst result))) = 3%nat
  /\ snd (fst (fst result)) = srv
  /\ count_connects (snd result) = 0%nat.
Proof.
  cbv zeta.
  destruct (@cached_handle_survives_session nat unit nat nat (flaky_db 9) small_registry
              4%nat [("ping", None);
                     ("insert_doc", Some [("collection", VStr "c"); ("document", VDict [])]);
                     ("ping", None)]
              (server_with {| ls_db := Some 4%nat; ls_client := Some 4%nat |}) 0%nat eq_refl)
    as [H1 [H2 [H3 _]]].
  split; [exact H1|]. split; [exact H2 | exact H3].
Defined.

(** ** More on bulk insert *)

Section BulkInsertMore.

Variables World Db Coll : Type.
Variable drv : Driver World Db Coll.

Lemma bulk_loop_all_inserted (collection : Coll) (documents : list value)
  (batch_size : Z) (on_error : value) :
  0 < batch_size ->
  (forall c batch w0, exists res w1,
      insert_many drv c (VList batch) w0 = (Return res, w1)
      /\ py_len res = Return (Z.of_nat (List.length batch))) ->
  forall (fuel : nat) (i : Z) (st : BulkCounts) (w : World),
    0 <= i ->
    Z.of_nat (List.length documents) - i <= Z.of_nat fuel ->
    inserted_count st = Z.min i (Z.of_nat (List.length documents)) ->
    error_count st = 0 -> errors st = [] ->
    exists st' w',
      bulk_loop drv collection (VList documents) batch_size on_error
                (range_from i (Z.of_nat (List.length documents)) batch_size fuel) st w
      = (Return st', w')
      /\ inserted_count st' = Z.of_nat (List.length documents)
      /\ error_count st' = 0 /\ errors st' = [].
Proof.
  intros Hstep Hdrv. set (total := Z.of_nat (List.length documents)).
  induction fuel as [|fuel IH]; intros i st w Hi Hfuel Hins Herr Herrs.
  - simpl. exists st, w. repeat split; auto. lia.
  - simpl. destruct (i <? total) eqn:Hlt.
    2:{ apply Z.ltb_ge in Hlt. simpl. exists st, w. repeat split; auto. lia. }
    apply Z.ltb_lt in Hlt.
    assert (Hlen : Z.of_nat (List.length (slice_list documents i (i + batch_size)))
                   = Z.min (i + batch_size) total - i)
      by (apply slice_list_length; fold total; lia).
    cbn [bulk_loop py_slice py_len].
    destruct (Hdrv collection (slice_list documents i (i + batch_size)) w)
      as [res [w1 [Hcall Hres]]].
    rewrite Hcall, Hres.
    apply IH; simpl; auto; lia.
Qed.

(** X5: when the driver answers every batch with one result per document,
    a bulk insert with a positive batch size inserts everything: the inserted
    count is the number of documents, no error is recorded, and for a list
    that is not empty the success rate is 1. *)
Theorem bulk_insert_all_inserted (db : Db) (args : dict value) (w w1 : World)
  (name : value) (collection : Coll) (documents : list value) (batch_size : Z) :
  dict_get args "collection" = Some name ->
  db_collection drv db name w = (Return collection, w1) ->
  py_or (get args "documents") (VList []) = VList documents ->
  py_int (get_or args "batch_size" (VInt 1000)) = Return batch_size ->
  0 < batch_size ->
  (forall c batch w0, exists res w2,
      insert_many drv c (VList batch) w0 = (Return res, w2)
      /\ py_len res = Return (Z.of_nat (List.length batch))) ->
  exists st rate w2,
    handle_bulk_insert drv db (Some (VDict args)) w
    = (Return (bulk_results (Z.of_nat (List.length documents)) st rate), w2)
    /\ inserted_count st = Z.of_nat (List.length documents)
    /\ error_count st = 0
    /\ errors st = []
    /\ (documents <> [] -> exists q, rate = VFloat q /\ (q == 1)%Q).
Proof.
  intros Hname Hcoll Hdocs Hbs Hpos Hdrv.
  set (total := Z.of_nat (List.length documents)).
  unfold handle_bulk_insert. rewrite Hname, Hcoll, Hdocs, Hbs.
  cbn [py_len]. fold total. unfold py_range_step.
  replace (batch_size =? 0) with false by (symmetry; apply Z.eqb_neq; lia).
  replace (batch_size <? 0) with false by (symmetry; apply Z.ltb_ge; lia).
  destruct (@bulk_loop_all_inserted collection documents batch_size
              (get_or args "on_error" (VStr "stop")) Hpos Hdrv
              (Z.to_nat total) 0 no_counts w1)
    as [st [w2 [Hloop [Hins [Herr Herrs]]]]];
    try reflexivity; try (fold total; lia).
  { simpl. fold total. lia. }
  fold total in Hloop, Hins. rewrite Hloop.
  destruct (success_rate_returns (inserted_count st) total) as [rate Hrate].
  rewrite Hrate. exists st, rate, w2.
  split; [reflexivity|]. repeat (split; [assumption|]).
  intros Hne. unfold success_rate, py_truediv in Hrate.
  assert (Htot : total <> 0) by (subst total; destruct documents; [congruence | simpl; lia]).
  replace (total =? 0) with false in Hrate by (symmetry; now apply Z.eqb_neq).
  inversion Hrate. eexists. split; [reflexivity|].
  rewrite Hins. unfold Qdiv. apply Qmult_inv_r.
  unfold Qeq. simpl. lia.
Qed.

Lemma bulk_loop_stops (collection : Coll) (documents : list value) (batch_size : Z) :
  0 < batch_size ->
  forall (fuel : nat) (i : Z) (st : BulkCounts) (w : World),
    0 <= i ->
    error_count st = 0 -> errors st = [] ->
    exists st' w',
      bulk_loop drv collection (VList documents) batch_size (VStr "stop")
                (range_from i (Z.of_nat (List.length documents)) batch_size fuel) st w
      = (Return st', w')
      /\ (List.length (errors st') <= 1)%nat
      /\ 0 <= error_count st' <= batch_size
      /\ (errors st' = [] <-> error_count st' = 0).
Proof.
  intros Hstep. set (total := Z.of_nat (List.length documents)).
  induction fuel as [|fuel IH]; intros i st w Hi Herr Herrs.
  - simpl. exists st, w. rewrite Herr, Herrs. simpl. repeat split; auto; lia.
  - simpl. destruct (i <? total) eqn:Hlt.
    2:{ simpl. exists st, w. rewrite Herr, Herrs. simpl. repeat split; auto; lia. }
    apply Z.ltb_lt in Hlt.
    assert (Hlen : Z.of_nat (List.length (slice_list documents i (i + batch_size)))
                   = Z.min (i + batch_size) total - i)
      by (apply slice_list_length; fold total; lia).
    cbn [bulk_loop py_slice py_len].
    set (batch := slice_list documents i (i + batch_size)) in *.
    assert (Hfail : forall (e : exn) (w1 : World),
              exists (st' : BulkCounts) (w' : World),
                (Return (batch_failed st i (Z.of_nat (List.length batch)) e), w1)
                = (Return st', w')
                /\ (List.length (errors st') <= 1)%nat
                /\ 0 <= error_count st' <= batch_size
                /\ (errors st' = [] <-> error_count st' = 0)).
    { intros e w1. eexists. eexists. split; [reflexivity|].
      unfold batch_failed. cbn [errors error_count]. rewrite Herr, Herrs.
      simpl. split; [lia|]. split; [lia|]. split; [discriminate | lia]. }
    destruct (insert_many drv collection (VList batch) w) as [[res|e] w1].
    + destruct (py_len res) as [n|e].
      * apply IH; simpl; auto; lia.
      * cbn [value_eqb_str]. simpl (String.eqb "stop" "stop"). cbv iota. apply Hfail.
    + cbn [value_eqb_str]. simpl (String.eqb "stop" "stop"). cbv iota. apply Hfail.
Qed.

(** X6: with [on_error] left out or equal to "stop", a bulk insert with a
    positive batch size ends at the first batch that fails: the results hold
    at most one error entry, the error count is at most one batch, and it is
    0 exactly when no error entry was recorded. *)
Theorem bulk_insert_stops_at_first_error (db : Db) (args : dict value) (w w1 : World)
  (name : value) (collection : Coll) (documents : list value) (batch_size : Z) :
  dict_get args "collection" = Some name ->
  db_collection drv db name w = (Return collection, w1) ->
  py_or (get args "documents") (VList []) = VList documents ->
  py_int (get_or args "batch_size" (VInt 1000)) = Return batch_size ->
  0 < batch_size ->
  get_or args "on_error" (VStr "stop") = VStr "stop" ->
  exists st rate w2,
    handle_bulk_insert drv db (Some (VDict args)) w
    = (Return (bulk_results (Z.of_nat (List.length documents)) st rate), w2)
    /\ (List.length (errors st) <= 1)%nat
    /\ 0 <= error_count st <= batch_size
    /\ (errors st = [] <-> error_count st = 0).
Proof.
  intros Hname Hcoll Hdocs Hbs Hpos Hstop.
  set (total := Z.of_nat (List.length documents)).
  unfold handle_bulk_insert. rewrite Hname, Hcoll, Hdocs, Hbs, Hstop.
  cbn [py_len]. fold total. unfold py_range_step.
  replace (batch_size =? 0) with false by (symmetry; apply Z.eqb_neq; lia).
  replace (batch_size <? 0) with false by (symmetry; apply Z.ltb_ge; lia).
  destruct (@bulk_loop_stops collection documents batch_size Hpos
              (Z.to_nat total) 0 no_counts w1)
    as [st [w2 [Hloop Hprops]]]; try reflexivity; try lia.
  fold total in Hloop. rewrite Hloop.
  destruct (success_rate_returns (inserted_count st) total) as [rate Hrate].
  rewrite Hrate. exists st, rate, w2. split; [reflexivity | exact Hprops].
Qed.

End BulkInsertMore.

(** X5, witness: three documents in batches of two on the storing driver. *)
Lemma bulk_insert_all_inserted_witness :
  exists st rate w2,
    handle_bulk_insert storing_driver 0%nat
      (Some (VDict [("collection", VStr "users");
                    ("documents", VList [VDict []; VDict []; VDict []]);
                    ("batch_size", VInt 2)])) 0%nat
    = (Return (bulk_results 3 st rate), w2)
    /\ inserted_count st = 3 /\ error_count st = 0.
Proof.
  destruct (@bulk_insert_all_inserted nat nat string storing_driver 0%nat
              [("collection", VStr "users");
               ("documents", VList [VDict []; VDict []; VDict []]);
               ("batch_size", VInt 2)] 0%nat 0%nat (VStr "users") "users"
              [VDict []; VDict []; VDict []] 2
              eq_refl eq_refl eq_refl eq_refl ltac:(lia))
    as [st [rate [w2 [Hres [Hins [Herr _]]]]]].
  - intros c batch w0. eexists. eexists. split; [reflexivity|].
    simpl. now rewrite length_map.
  - exists st, rate, w2. auto.
Defined.

(** X6, witness: the default [on_error] on a driver whose answer has no
    length. *)
Lemma bulk_insert_stops_at_first_error_witness :
  exists st rate w2,
    handle_bulk_insert
      {| db_collection := fun (_ : nat) (_ : value) (w : nat) => (Return "users", w);
         insert_many := fun (_ : string) (_ : value) (w : nat) => (Return (VBool true), S w);
         backup_collections_to_dir := fun _ _ _ _ w => (Return VNone, w) |}
      0%nat
      (Some (VDict [("collection", VStr "users");
                    ("documents", VList [VDict []; VDict []; VDict []]);
                    ("batch_size", VInt 2)])) 0%nat
    = (Return (bulk_results 3 st rate), w2)
    /\ (List.length (errors st) <= 1)%nat.
Proof.
  destruct (@bulk_insert_stops_at_first_error nat nat string
              {| db_collection := fun (_ : nat) (_ : value) (w : nat) => (Return "users", w);
                 insert_many := fun (_ : string) (_ : value) (w : nat) =>
                                  (Return (VBool true), S w);
                 backup_collections_to_dir := fun _ _ _ _ w => (Return VNone, w) |}
              0%nat
              [("collection", VStr "users");
               ("documents", VList [VDict []; VDict []; VDict []]);
               ("batch_size", VInt 2)] 0%nat 0%nat (VStr "users") "users"
              [VDict []; VDict []; VDict []] 2
              eq_refl eq_refl eq_refl eq_refl ltac:(lia) eq_refl)
    as [st [rate [w2 [Hres [Hlen _]]]]].
  exists st, rate, w2. auto.
Defined.

(** ** What a handler is given *)

Section ValidatedShape.

Variable check : FieldType -> value -> checked.

Lemma validate_fields_sources (m : Model) (raw : dict value) (fs : list Field) :
  forall k v, In (k, v) (fst (validate_fields check m raw fs)) ->
    exists f, In f fs /\ f_name f = k /\ validate_field check m raw f = inl v.
Proof.
  induction fs as [|f0 fs IH]; simpl; [contradiction|].
  destruct (validate_fields check m raw fs) as [vals errs]. simpl in IH.
  intros k v Hin.
  destruct (validate_field check m raw f0) as [v0|es] eqn:E; simpl in Hin.
  - destruct Hin as [Heq|Hin].
    + inversion Heq; subst. exists f0. auto.
    + destruct (IH k v Hin) as [f [Hf Hrest]]. exists f. auto.
  - destruct (IH k v Hin) as [f [Hf Hrest]]. exists f. auto.
Qed.

(** X7: the validated arguments a handler is given hold only names of fields
    of the tool's model, never a value [None], and each name at most once when
    the model's field names are distinct; every value is the validated value
    or the default of its field. *)
Theorem validated_arguments_shape (m : Model) (raw d : dict value) :
  validate_model check m raw = inl d ->
  (forall k v, In (k, v) d ->
     v <> VNone
     /\ exists f, In f (fields m) /\ f_name f = k
                  /\ validate_field check m raw f = inl v)
  /\ (NoDup (map f_name (fields m)) -> NoDup (dict_keys d)).
Proof.
  unfold validate_model. intros H.
  pose proof (validate_fields_sources m raw (fields m)) as Hsrc.
  pose proof (validate_fields_keys check m raw (fields m)) as [_ Hkeys].
  destruct (validate_fields check m raw (fields m)) as [vals [|e es]];
    [|discriminate].
  inversion H; subst d. simpl in *. split.
  - intros k v Hin. unfold exclude_none in Hin. apply filter_In in Hin.
    destruct Hin as [Hin Hnone]. simpl in Hnone. split.
    + intros ->. discriminate.
    + now apply Hsrc.
  - intros Hnd. specialize (Hkeys Hnd).
    unfold dict_keys, exclude_none in *.
    clear - Hkeys. induction vals as [|[k v] vals IH]; simpl in *; [constructor|].
    inversion Hkeys as [|? ? Hnotin Hrest]; subst.
    destruct v; simpl; auto; constructor; auto;
      intros Hin; apply Hnotin;
      apply in_map_iff in Hin; destruct Hin as [[k' v'] [Hk Hin]];
      apply filter_In in Hin; destruct Hin as [Hin _];
      apply in_map_iff; exists (k', v'); auto.
Qed.

End ValidatedShape.

(** X7, witness: the backup tool called with the alias "docLimit"; the
    validated arguments hold the field name only. *)
Lemma validated_arguments_shape_witness :
  validate_model json_check BackupArgs [("docLimit", VInt 5)] = inl [("doc_limit", VInt 5)]
  /\ NoDup (dict_keys [("doc_limit", VInt 5)]).
Proof.
  split; [reflexivity|].
  apply (@validated_arguments_shape json_check BackupArgs [("docLimit", VInt 5)]
           [("doc_limit", VInt 5)] eq_refl).
  simpl. repeat constructor; simpl; intuition discriminate.
Defined.

Section DecoratedCall.

Variables World Db : Type.

(** X8: how the dispatcher reaches a decorated handler.  With no validated
    argument the keyword call binds and the function is called without
    [args]; with at least one argument, none of them named "args", the keyword
    call is a mismatch and the function is called once, with the arguments as
    one dictionary.  In both cases the outcome is the function's value or the
    dictionary made of its exception. *)
Theorem decorated_handler_call_shape (func : HandlerFn World Db) (db : Db)
  (args : dict value) (w : World) :
  let recovered (r : outcome value * World) :=
    (match fst r with Return v => Return v | Raise e => Return (map_exception e) end,
     snd r) in
  (args = [] ->
   _invoke_handler (handle_errors func) db args w
   = (recovered (func db None w), [EvCall Kwargs db args]))
  /\ (args <> [] ->
      (forall k, In k (dict_keys args) -> k <> "args") ->
      _invoke_handler (handle_errors func) db args w
      = (recovered (func db (Some (VDict args)) w),
         [EvCall Kwargs db args; EvCall Bundle db args])).
Proof.
  intros recovered. subst recovered. split.
  - intros ->. unfold _invoke_handler, call_kwargs. simpl. unfold wrapper.
    destruct (func db None w) as [[v|e] w']; reflexivity.
  - intros Hne Hkeys. unfold _invoke_handler, call_kwargs.
    assert (Hb : binds_kwargs (handle_errors func) args = false).
    { destruct args as [|[k v] rest]; [congruence|].
      assert (E : String.eqb "args" k = false).
      { apply String.eqb_neq. intros <-. apply (Hkeys "args"); [now left | reflexivity]. }
      cbn [handle_errors binds_kwargs dict_keys map fst forallb]. now rewrite E. }
    rewrite Hb. cbn [is_TypeError TypeError exn_base]. unfold call_bundle.
    simpl. unfold wrapper.
    destruct (func db (Some (VDict args)) w) as [[v|e] w']; reflexivity.
Qed.

End DecoratedCall.

(** X8, witness: the backup handler reached with one validated argument. *)
Lemma decorated_handler_call_shape_witness :
  _invoke_handler (handle_errors (handle_backup (mock_driver []))) 0%nat
                  [("output_dir", VStr "/tmp/b")] 0%nat
  = (Return (VDict [("output_dir", VStr "/tmp/b")]), 0%nat,
     [EvCall Kwargs 0%nat [("output_dir", VStr "/tmp/b")];
      EvCall Bundle 0%nat [("output_dir", VStr "/tmp/b")]]).
Proof.
  destruct (@decorated_handler_call_shape nat nat (handle_backup (mock_driver [])) 0%nat
              [("output_dir", VStr "/tmp/b")] 0%nat) as [_ H].
  rewrite H.
  - reflexivity.
  - discriminate.
  - intros k [<-|[]]. discriminate.
Defined.

(** ** Python helpers *)

Lemma prefix_app (p s : string) : String.prefix p (p ++ s) = true.
Proof.
  induction p as [|c p IH]; simpl.
  - now destruct s.
  - destruct (ascii_dec c c); [exact IH | congruence].
Qed.

Lemma contains_unfold (hay needle : string) :
  contains hay needle
  = if String.prefix needle hay then true
    else match hay with
         | EmptyString => false
         | String _ hay' => contains hay' needle
         end.
Proof. destruct hay; reflexivity. Qed.

Lemma contains_here (p s : string) : contains (p ++ s) p = true.
Proof. rewrite contains_unfold. now rewrite prefix_app. Qed.

Lemma contains_later (pre hay needle : string) :
  contains hay needle = true -> contains (pre ++ hay) needle = true.
Proof.
  intros H. induction pre as [|c pre IH]; [exact H|].
  change (String c pre ++ hay) with (String c (pre ++ hay)).
  rewrite contains_unfold.
  destruct (String.prefix needle (String c (pre ++ hay))); auto.
Qed.

Lemma dict_get_app (A : Type) (d e : dict A) (k : string) :
  dict_get (d ++ e)%list k
  = match dict_get d k with Some v => Some v | None => dict_get e k end.
Proof.
  induction d as [|[k' v'] d IH]; simpl; auto.
  destruct (String.eqb k' k); auto.
Qed.

Lemma dict_get_in (A : Type) (d : dict A) (k : string) (v : A) :
  NoDup (dict_keys d) -> (dict_get d k = Some v <-> In (k, v) d).
Proof.
  induction d as [|[k' v'] d IH]; simpl; intros Hnd.
  - split; [discriminate | contradiction].
  - inversion Hnd as [|? ? Hnotin Hnd']; subst.
    destruct (String.eqb k' k) eqn:E.
    + apply String.eqb_eq in E. subst k'. split.
      * intros H. inversion H. now left.
      * intros [H|H]; [now inversion H|].
        exfalso. apply Hnotin. unfold dict_keys. apply in_map_iff. now exists (k, v).
    + rewrite (IH Hnd'). split; [now right|].
      intros [H|H]; [|exact H].
      inversion H; subst. now rewrite String.eqb_refl in E.
Qed.

Lemma dict_get_rev (A : Type) (d : dict A) (k : string) :
  NoDup (dict_keys d) -> dict_get (rev d) k = dict_get d k.
Proof.
  intros Hnd.
  assert (Hnd' : NoDup (dict_keys (rev d))).
  { unfold dict_keys in *. rewrite map_rev. now apply NoDup_rev. }
  destruct (dict_get d k) as [v|] eqn:E.
  - apply (dict_get_in _ _ _ Hnd') . apply -> in_rev. now apply (dict_get_in _ _ _ Hnd).
  - destruct (dict_get (rev d) k) as [v|] eqn:E'; [|reflexivity].
    apply (dict_get_in _ _ _ Hnd') in E'. apply in_rev in E'.
    apply (dict_get_in _ _ _ Hnd) in E'. congruence.
Qed.

(** What [{**d, **e}] holds under a key: the entry of [e] when it has one,
    that of [d] otherwise. *)
Lemma dict_update_get (A : Type) (e : dict A) :
  forall (d : dict A) (k : string),
    NoDup (dict_keys e) ->
    dict_get (dict_update d e) k
    = match dict_get e k with Some v => Some v | None => dict_get d k end.
Proof.
  intros d k Hnd. rewrite <- (dict_get_rev e k Hnd). clear Hnd.
  revert d. unfold dict_update.
  induction e as [|[k' v'] e IH]; intros d; simpl; auto.
  rewrite IH. rewrite dict_get_app. simpl.
  destruct (dict_get (rev e) k); auto.
  destruct (String.eqb k' k) eqn:E.
  - apply String.eqb_eq in E. subst. apply dict_get_set_same.
  - apply dict_get_set_other. intros ->. now rewrite String.eqb_refl in E.
Qed.

(** ** Handlers on collections *)

Section CollectionHandlers.

Variables World Db Coll : Type.
Variable py_repr : value -> string.
Variable api : Database World Db Coll.

Lemma non_system_names_listed (cols names : list value) :
  non_system_names cols = Return names -> names = listed_names cols.
Proof.
  revert names. induction cols as [|c cols IH]; simpl; intros names H.
  - now inversion H.
  - destruct c; try discriminate.
    destruct (truthy (get d "isSystem")); [now apply IH|].
    unfold get, get_or. destruct (dict_get d "name") as [n|]; [|discriminate].
    destruct (non_system_names cols) as [ns|e]; [|discriminate].
    inversion H. simpl. f_equal. now apply IH.
Qed.

Lemma non_system_names_returns (cols : list value) :
  Forall (fun c => exists d, c = VDict d
                             /\ (truthy (get d "isSystem") = false ->
                                 dict_get d "name" <> None)) cols ->
  exists names, non_system_names cols = Return names.
Proof.
  induction 1 as [|c cols [d [-> Hname]] _ [names IH]]; simpl; [eauto|].
  destruct (truthy (get d "isSystem")); [eauto|].
  destruct (dict_get d "name"); [|now contradiction Hname].
  rewrite IH. eauto.
Qed.

(** X9: the collection listing shows the names of the entries the driver does
    not flag as system collections, in the driver's order, and nothing else;
    it answers whenever every entry is a dict and the unflagged ones have a
    name. *)
Theorem list_collections_hides_system_collections (db : Db) (args : option value)
  (w w1 : World) (cols : list value) :
  api_collections api db w = (Return (VList cols), w1) ->
  (forall v w2, handle_list_collections api db args w = (Return v, w2) ->
                v = VList (listed_names cols) /\ w2 = w1)
  /\ (Forall (fun c => exists d, c = VDict d
                                 /\ (truthy (get d "isSystem") = false ->
                                     dict_get d "name" <> None)) cols ->
      handle_list_collections api db args w = (Return (VList (listed_names cols)), w1)).
Proof.
  intros Hcols. unfold handle_list_collections, and_then, done. rewrite Hcols.
  cbn [py_iter]. split.
  - intros v w2 H.
    destruct (non_system_names cols) as [names|e] eqn:E; [|discriminate].
    inversion H; subst. split; [|reflexivity].
    f_equal. now apply non_system_names_listed.
  - intros Hwf. destruct (non_system_names_returns Hwf) as [names E].
    rewrite E. f_equal. f_equal. f_equal. now apply non_system_names_listed.
Qed.

(** X10: insert, update and remove on a collection the database does not have
    answer with the "CollectionNotFound" error after the existence test alone:
    no handle on the collection is taken and nothing is written. *)
Theorem writes_need_existing_collection (db : Db) (args : dict value)
  (name known : value) (w w1 : World) :
  dict_get args "collection" = Some name ->
  api_has_collection api db name w = (Return known, w1) ->
  truthy known = false ->
  (dict_get args "document" <> None ->
   handle_insert py_repr api db (Some (VDict args)) w
   = (Return (collection_not_found py_repr name), w1))
  /\ (dict_get args "key" <> None -> dict_get args "update" <> None ->
      handle_update py_repr api db (Some (VDict args)) w
      = (Return (collection_not_found py_repr name), w1))
  /\ (dict_get args "key" <> None ->
      handle_remove py_repr api db (Some (VDict args)) w
      = (Return (collection_not_found py_repr name), w1)).
Proof.
  intros Hname Hhas Hknown.
  unfold handle_insert, handle_update, handle_remove, and_then, done, py_item.
  rewrite Hname. repeat split.
  - intros Hdoc. destruct (dict_get args "document"); [|congruence].
    now rewrite Hhas, Hknown.
  - intros Hkey Hupd.
    destruct (dict_get args "key"); [|congruence].
    destruct (dict_get args "update"); [|congruence].
    now rewrite Hhas, Hknown.
  - intros Hkey. destruct (dict_get args "key"); [|congruence].
    now rewrite Hhas, Hknown.
Qed.

(** X11: the document [handle_update] sends to the driver is the update data
    with "_key" put in front: every field of the update data is sent as it
    is, and the key is the argument [key] unless the update data has a "_key"
    of its own, which then replaces it. *)
Theorem update_payload_key (db : Db) (args update : dict value)
  (name key known : value) (col : Coll) (w w1 w2 : World) :
  dict_get args "collection" = Some name ->
  dict_get args "key" = Some key ->
  dict_get args "update" = Some (VDict update) ->
  NoDup (dict_keys update) ->
  api_has_collection api db name w = (Return known, w1) ->
  truthy known = true ->
  api_collection api db name w1 = (Return col, w2) ->
  exists payload,
    handle_update py_repr api db (Some (VDict args)) w
    = (result <- api_update api col (VDict payload) ;; done (document_meta result)) w2
    /\ dict_get payload "_key"
       = Some (match dict_get update "_key" with Some k => k | None => key end)
    /\ forall k, k <> "_key" -> dict_get payload k = dict_get update k.
Proof.
  intros Hname Hkey Hupd Hnd Hhas Hknown Hcol.
  exists (dict_update [("_key", key)] update). split; [|split].
  - unfold handle_update, and_then, done, py_item, py_merge.
    rewrite Hname, Hkey, Hupd, Hhas, Hknown. cbn [negb]. now rewrite Hcol.
  - rewrite dict_update_get by assumption. cbn [dict_get].
    rewrite String.eqb_refl. now destruct (dict_get update "_key").
  - intros k Hk. rewrite dict_update_get by assumption. cbn [dict_get].
    destruct (dict_get update k); auto.
    destruct (String.eqb "_key" k) eqn:E; auto.
    apply String.eqb_eq in E. congruence.
Qed.

(** X12: the edge [handle_add_edge] inserts holds the attributes after "_from"
    and "_to": the end points are the arguments [from_id] and [to_id] unless
    the attributes have an entry of that name, which then replaces them. *)
Theorem add_edge_payload (db : Db) (args attributes : dict value)
  (name from_id to_id : value) (col : Coll) (w w1 : World) :
  dict_get args "collection" = Some name ->
  dict_get args "from_id" = Some from_id ->
  dict_get args "to_id" = Some to_id ->
  py_or (get args "attributes") (VDict []) = VDict attributes ->
  NoDup (dict_keys attributes) ->
  api_collection api db name w = (Return col, w1) ->
  exists payload,
    handle_add_edge api db (Some (VDict args)) w
    = (result <- api_insert api col (VDict payload) ;; done (document_meta result)) w1
    /\ dict_get payload "_from"
       = Some (match dict_get attributes "_from" with Some v => v | None => from_id end)
    /\ dict_get payload "_to"
       = Some (match dict_get attributes "_to" with Some v => v | None => to_id end)
    /\ forall k, k <> "_from" -> k <> "_to" ->
                 dict_get payload k = dict_get attributes k.
Proof.
  intros Hname Hfrom Hto Hattr Hnd Hcol.
  exists (dict_update [("_from", from_id); ("_to", to_id)] attributes).
  split; [|split; [|split]].
  - unfold handle_add_edge, and_then, done, py_item, py_get, py_get_or.
    rewrite Hname, Hcol, Hfrom, Hto.
    fold (get args "attributes"). rewrite Hattr. reflexivity.
  - rewrite dict_update_get by assumption. cbn [dict_get].
    rewrite String.eqb_refl. now destruct (dict_get attributes "_from").
  - rewrite dict_update_get by assumption. cbn [dict_get].
    change (String.eqb "_from" "_to") with false. cbv iota.
    rewrite String.eqb_refl. now destruct (dict_get attributes "_to").
  - intros k Hf Ht. rewrite dict_update_get by assumption. cbn [dict_get].
    destruct (dict_get attributes k); auto.
    destruct (String.eqb "_from" k) eqn:E1;
      [apply String.eqb_eq in E1; congruence|].
    destruct (String.eqb "_to" k) eqn:E2;
      [apply String.eqb_eq in E2; congruence|]. reflexivity.
Qed.

(** X13: [handle_create_collection] creates nothing when the database has the
    collection: it takes the handle, reads the properties and reports them,
    with the type "edge" exactly for the driver's type 3.  When the database
    does not have it, the collection is created as an edge collection exactly
    when the argument [type] is "edge", and [waitForSync] is passed on only
    when it is given. *)
Theorem create_collection_reuses_existing (db : Db) (args props : dict value)
  (name known : value) (col : Coll) (w w1 w2 w3 : World) :
  dict_get args "name" = Some name ->
  api_has_collection api db name w = (Return known, w1) ->
  api_properties api col w2 = (Return (VDict props), w3) ->
  let report :=
    VDict [("name", get_or props "name" name);
           ("type", VStr (if py_eq (get props "type") (VInt 3) then "edge" else "document"));
           ("waitForSync", get props "waitForSync")] in
  (truthy known = true ->
   api_collection api db name w1 = (Return col, w2) ->
   handle_create_collection api db (Some (VDict args)) w = (Return report, w3))
  /\ (truthy known = false ->
      api_create_collection api db name
        (py_eq (get_or args "type" (VStr "document")) (VStr "edge"))
        (match get args "waitForSync" with VNone => None | s => Some s end) w1
      = (Return col, w2) ->
      handle_create_collection api db (Some (VDict args)) w = (Return report, w3)).
Proof.
  intros Hname Hhas Hprops report. subst report.
  unfold handle_create_collection, and_then, done, py_item, py_get, py_get_or.
  rewrite Hname, Hhas. split; intros Hknown Hcol; rewrite Hknown; cbn [negb].
  - now rewrite Hcol, Hprops.
  - fold (get args "waitForSync").
    destruct (get args "waitForSync"); rewrite Hcol, Hprops; reflexivity.
Qed.

End CollectionHandlers.

(** X9, witness: three collections, one of them a system collection. *)
Lemma list_collections_hides_system_collections_witness :
  handle_list_collections users_db 0%nat None 0%nat
  = (Return (VList [VStr "users"; VStr "orders"]), 0%nat).
Proof.
  destruct (@list_collections_hides_system_collections nat nat string users_db
              0%nat None 0%nat 0%nat _ eq_refl) as [_ H].
  apply H.
  repeat constructor; eexists; (split; [reflexivity | intros _; discriminate]).
Defined.

(** X10, witness: an insert into a collection the database does not have. *)
Lemma writes_need_existing_collection_witness :
  handle_insert plain_repr users_db 0%nat
    (Some (VDict [("collection", VStr "ghosts"); ("document", VDict [])])) 0%nat
  = (Return (VDict [("error", VStr "Collection 'ghosts' does not exist");
                    ("type", VStr "CollectionNotFound")]), 0%nat).
Proof.
  destruct (@writes_need_existing_collection nat nat string plain_repr users_db 0%nat
              [("collection", VStr "ghosts"); ("document", VDict [])]
              (VStr "ghosts") (VBool false) 0%nat 0%nat eq_refl eq_refl eq_refl)
    as [H _].
  apply H. discriminate.
Defined.

(** X11, witness: an update for key "1" whose data names the key "2". *)
Lemma update_payload_key_witness :
  exists payload,
    handle_update plain_repr users_db 0%nat
      (Some (VDict [("collection", VStr "users"); ("key", VStr "1");
                    ("update", VDict [("_key", VStr "2"); ("age", VInt 31)])])) 0%nat
    = (result <- api_update users_db "users" (VDict payload) ;;
       done (document_meta result)) 0%nat
    /\ dict_get payload "_key" = Some (VStr "2").
Proof.
  destruct (@update_payload_key nat nat string plain_repr users_db 0%nat
              [("collection", VStr "users"); ("key", VStr "1");
               ("update", VDict [("_key", VStr "2"); ("age", VInt 31)])]
              [("_key", VStr "2"); ("age", VInt 31)]
              (VStr "users") (VStr "1") (VBool true) "users" 0%nat 0%nat 0%nat
              eq_refl eq_refl eq_refl)
    as [payload [H1 [H2 _]]]; try reflexivity.
  - repeat constructor; simpl; intuition discriminate.
  - exists payload. split; [exact H1 | exact H2].
Defined.

(** X12, witness: an edge whose attributes carry a "_to" of their own. *)
Lemma add_edge_payload_witness :
  exists payload,
    handle_add_edge users_db 0%nat
      (Some (VDict [("collection", VStr "orders"); ("from_id", VStr "users/1");
                    ("to_id", VStr "orders/2");
                    ("attributes", VDict [("_to", VStr "orders/9")])])) 0%nat
    = (result <- api_insert users_db "orders" (VDict payload) ;;
       done (document_meta result)) 0%nat
    /\ dict_get payload "_from" = Some (VStr "users/1")
    /\ dict_get payload "_to" = Some (VStr "orders/9").
Proof.
  destruct (@add_edge_payload nat nat string users_db 0%nat
              [("collection", VStr "orders"); ("from_id", VStr "users/1");
               ("to_id", VStr "orders/2");
               ("attributes", VDict [("_to", VStr "orders/9")])]
              [("_to", VStr "orders/9")]
              (VStr "orders") (VStr "users/1") (VStr "orders/2") "orders" 0%nat 0%nat
              eq_refl eq_refl eq_refl eq_refl)
    as [payload [H1 [H2 [H3 _]]]]; try reflexivity.
  - repeat constructor; simpl; intuition.
  - exists payload. split; [exact H1|]. split; [exact H2 | exact H3].
Defined.

(** X13, witness: "users" exists and is reported as a document collection
    without a write. *)
Lemma create_collection_reuses_existing_witness :
  handle_create_collection users_db 0%nat
    (Some (VDict [("name", VStr "users"); ("type", VStr "edge")])) 0%nat
  = (Return (VDict [("name", VStr "users"); ("type", VStr "document");
                    ("waitForSync", VBool false)]), 0%nat).
Proof.
  destruct (@create_collection_reuses_existing nat nat string users_db 0%nat
              [("name", VStr "users"); ("type", VStr "edge")]
              [("name", VStr "users"); ("type", VInt 2); ("waitForSync", VBool false)]
              (VStr "users") (VBool true) "users" 0%nat 0%nat 0%nat 0%nat
              eq_refl eq_refl eq_refl) as [H _].
  apply H; reflexivity.
Defined.

(** ** Sequencing *)

Lemma and_then_done_inv (World A B : Type) (o : outcome A) (k : A -> action World B)
  (w w' : World) (v : B) :
  (x <- done o ;; k x) w = (Return v, w') ->
  exists a, o = Return a /\ k a w = (Return v, w').
Proof.
  unfold and_then, done. destruct o as [a|e]; [eauto | discriminate].
Qed.

Lemma and_then_inv (World A B : Type) (c : action World A) (k : A -> action World B)
  (w w' : World) (v : B) :
  (x <- c ;; k x) w = (Return v, w') ->
  exists a w1, c w = (Return a, w1) /\ k a w1 = (Return v, w').
Proof.
  unfold and_then. destruct (c w) as [[a|e] w1]; [eauto | discriminate].
Qed.

(** ** Indexes and query analysis *)

Section IndexHandlers.

Variables World Db Coll : Type.
Variable py_repr : value -> string.
Variable api : Database World Db Coll.

(** X14: whenever [handle_delete_index] reports a deletion, the id it reports
    is the id it gave to the driver, and an id that is a string contains a
    "/": an id without one is prefixed with the collection name first. *)
Theorem delete_index_id_has_slash (db : Db) (args : dict value) (w w' : World)
  (v : value) :
  handle_delete_index py_repr api db (Some (VDict args)) w = (Return v, w') ->
  exists id result w0,
    v = VDict [("deleted", VBool true); ("id", id); ("result", result)]
    /\ api_delete_index api db id w0 = (Return result, w')
    /\ forall s, id = VStr s -> contains s "/" = true.
Proof.
  unfold handle_delete_index. intros H.
  apply and_then_done_inv in H. destruct H as [collection [_ H]].
  apply and_then_done_inv in H. destruct H as [id_or_name [_ H]].
  apply and_then_done_inv in H. destruct H as [has_slash [_ H]].
  apply and_then_inv in H. destruct H as [index_id [w1 [_ H]]].
  apply and_then_done_inv in H. destruct H as [has_slash2 [Hin H]].
  cbv zeta in H.
  apply and_then_inv in H. destruct H as [result [w2 [Hdel H]]].
  unfold done in H. inversion H; subst v w'. clear H.
  eexists. eexists. exists w1. split; [reflexivity|]. split; [exact Hdel|].
  intros s Hs. destruct has_slash2; cbn [negb] in Hs.
  - subst index_id. simpl in Hin. congruence.
  - inversion Hs. apply contains_later.
    apply (contains_here "/" (py_str py_repr index_id)).
Qed.

Lemma find_index_id_none (ixs : list value) (wanted : value) :
  Forall (fun ix => exists d, ix = VDict d /\ py_eq (get d "name") wanted = false) ixs ->
  find_index_id ixs wanted = Return None.
Proof.
  induction 1 as [|ix ixs [d [-> Hne]] _ IH]; simpl; [reflexivity|].
  unfold get, get_or in Hne. unfold get_or. now rewrite Hne.
Qed.

(** X15: asked to delete an index by a name that no index of the collection
    has, [handle_delete_index] raises the "not found" [ValueError] after
    listing the indexes, and deletes nothing. *)
Theorem delete_index_unknown_name (db : Db) (args : dict value) (collection : value)
  (s : string) (col : Coll) (ixs : list value) (w w1 w2 : World) :
  dict_get args "collection" = Some collection ->
  dict_get args "id_or_name" = Some (VStr s) ->
  contains s "/" = false ->
  api_collection api db collection w = (Return col, w1) ->
  api_indexes api col w1 = (Return (VList ixs), w2) ->
  Forall (fun ix => exists d, ix = VDict d /\ py_eq (get d "name") (VStr s) = false) ixs ->
  handle_delete_index py_repr api db (Some (VDict args)) w
  = (Raise (ValueError ("Index with name '" ++ s ++ "' not found in collection '"
                        ++ py_str py_repr collection ++ "'")), w2).
Proof.
  intros Hc Hid Hslash Hcol Hix Hall.
  unfold handle_delete_index, and_then, done, py_item, py_in.
  rewrite Hc, Hid, Hslash. cbn [negb]. rewrite Hcol, Hix. cbn [py_iter].
  rewrite find_index_id_none by exact Hall. reflexivity.
Qed.

End IndexHandlers.

(** X14, witness: the index named "by_email" is found and deleted under the
    id the listing gives. *)
Lemma delete_index_id_has_slash_witness :
  exists id result w0,
    VDict [("deleted", VBool true); ("id", VStr "users/101"); ("result", VBool true)]
    = VDict [("deleted", VBool true); ("id", id); ("result", result)]
    /\ api_delete_index users_db 0%nat id w0 = (Return result, 1%nat)
    /\ forall s, id = VStr s -> contains s "/" = true.
Proof.
  apply (@delete_index_id_has_slash nat nat string plain_repr users_db 0%nat
           [("collection", VStr "users"); ("id_or_name", VStr "by_email")] 0%nat 1%nat).
  reflexivity.
Defined.

(** X15, witness: no index of "users" is named "by_name". *)
Lemma delete_index_unknown_name_witness :
  handle_delete_index plain_repr users_db 0%nat
    (Some (VDict [("collection", VStr "users"); ("id_or_name", VStr "by_name")])) 0%nat
  = (Raise (ValueError "Index with name 'by_name' not found in collection 'users'"), 0%nat).
Proof.
  apply (@delete_index_unknown_name nat nat string plain_repr users_db 0%nat
           [("collection", VStr "users"); ("id_or_name", VStr "by_name")]
           (VStr "users") "by_name" "users"
           [VDict [("id", VStr "users/101"); ("name", VStr "by_email")]] 0%nat 0%nat 0%nat);
    try reflexivity.
  repeat constructor. eexists. split; reflexivity.
Defined.

(** ** Index suggestions *)

Lemma node_suggestions_shape (nodes l : list value) :
  node_suggestions nodes = Return l ->
  Forall (fun s => exists id, s = VDict [("hint", VStr index_hint); ("nodeId", id)]) l.
Proof.
  revert l. induction nodes as [|node nodes IH]; simpl; intros l H.
  - inversion H. constructor.
  - destruct (py_get node "type") as [t|e]; [|discriminate].
    destruct (py_get node "id") as [i|e]; [|discriminate].
    destruct (node_suggestions nodes) as [more|e]; [|discriminate].
    destruct (py_eq t (VStr "Filter") || py_eq t (VStr "EnumerateCollection"))%bool;
      inversion H; subst; [constructor; eauto|]; now apply IH.
Qed.

Lemma plan_suggestions_shape (plans l : list value) :
  plan_suggestions plans = Return l ->
  Forall (fun s => exists id, s = VDict [("hint", VStr index_hint); ("nodeId", id)]) l.
Proof.
  revert l. induction plans as [|plan plans IH]; simpl; intros l H.
  - inversion H. constructor.
  - destruct (py_get_or plan "nodes" (VList [])) as [nodes|e]; [|discriminate].
    destruct (py_iter nodes) as [ns|e]; [|discriminate].
    destruct (node_suggestions ns) as [here|e] eqn:Hhere; [|discriminate].
    destruct (plan_suggestions plans) as [more|e]; [|discriminate].
    inversion H; subst. apply Forall_app. split.
    + now apply node_suggestions_shape in Hhere.
    + now apply IH.
Qed.

Lemma deduplicate_distinct (l : list value) :
  forall (seen out : list value),
    deduplicate l seen = Return out ->
    incl out l
    /\ Forall (fun s => existsb (py_eq (node_id_of s)) seen = false) out
    /\ ForallOrdPairs (fun a b => py_eq (node_id_of b) (node_id_of a) = false) out.
Proof.
  induction l as [|s l IH]; simpl; intros seen out H.
  - inversion H. repeat split; [apply incl_refl | constructor | constructor].
  - destruct (hashable (node_id_of s)); simpl in H; [|discriminate].
    destruct (existsb (py_eq (node_id_of s)) seen) eqn:Hseen.
    + destruct (IH seen out H) as [Hincl [Hnew Hpairs]].
      repeat split; auto. now apply incl_tl.
    + destruct (deduplicate l (node_id_of s :: seen)) as [unique|e] eqn:Hrest;
        [|discriminate].
      inversion H; subst out. clear H.
      destruct (IH _ _ Hrest) as [Hincl [Hnew Hpairs]].
      assert (Hsplit : Forall (fun s' => py_eq (node_id_of s') (node_id_of s) = false
                                         /\ existsb (py_eq (node_id_of s')) seen = false)
                              unique).
      { eapply Forall_impl; [|exact Hnew]. intros s' Hs'. simpl in Hs'.
        now apply orb_false_iff in Hs'. }
      repeat split.
      * intros x [<-|Hx]; [now left | right; now apply Hincl].
      * constructor; [exact Hseen|].
        eapply Forall_impl; [|exact Hsplit]. now intros s' [_ Hs'].
      * constructor; [|exact Hpairs].
        eapply Forall_impl; [|exact Hsplit]. now intros s' [Hs' _].
Qed.

(** X16: the index suggestions are entries of a hint and a node id, and no two
    of them have equal node ids: a suggestion whose node id equals that of an
    earlier one is dropped.  Without plans there are no suggestions. *)
Theorem index_suggestions_are_distinct (query plans : value) :
  (forall v, _analyze_query_for_indexes query plans = Return v ->
     exists out,
       v = VList out
       /\ Forall (fun s => exists id,
                    s = VDict [("hint", VStr index_hint); ("nodeId", id)]) out
       /\ ForallOrdPairs (fun a b => py_eq (node_id_of b) (node_id_of a) = false) out)
  /\ (truthy plans = false ->
      _analyze_query_for_indexes query plans = Return (VList [])).
Proof.
  unfold _analyze_query_for_indexes. split.
  - intros v H.
    destruct (py_iter (py_or plans (VList []))) as [ps|e]; [|discriminate].
    destruct (plan_suggestions ps) as [suggestions|e] eqn:Hs; [|discriminate].
    destruct (deduplicate suggestions []) as [unique|e] eqn:Hd; [|discriminate].
    inversion H; subst v. exists unique. split; [reflexivity|].
    apply plan_suggestions_shape in Hs.
    destruct (deduplicate_distinct _ _ Hd) as [Hincl [_ Hpairs]].
    split; [|exact Hpairs].
    rewrite Forall_forall in *. intros s Hin. apply Hs. now apply Hincl.
  - intros Hfalsy. unfold py_or. rewrite Hfalsy. reflexivity.
Qed.

(** X16, witness: a plan with two nodes of the same id and one other node. *)
Lemma index_suggestions_are_distinct_witness :
  exists out,
    VList [VDict [("hint", VStr index_hint); ("nodeId", VInt 1)];
           VDict [("hint", VStr index_hint); ("nodeId", VInt 3)]] = VList out
    /\ Forall (fun s => exists id,
                 s = VDict [("hint", VStr index_hint); ("nodeId", id)]) out
    /\ ForallOrdPairs (fun a b => py_eq (node_id_of b) (node_id_of a) = false) out.
Proof.
  apply (proj1 (index_suggestions_are_distinct
                  (VStr "FOR d IN users FILTER d.age > 1 RETURN d")
                  (VList [VDict [("nodes",
                     VList [VDict [("type", VStr "EnumerateCollection"); ("id", VInt 1)];
                            VDict [("type", VStr "Filter"); ("id", VFloat (Qmake 1 1))];
                            VDict [("type", VStr "ReturnNode"); ("id", VInt 2)];
                            VDict [("type", VStr "Filter"); ("id", VInt 3)]])]]))).
  reflexivity.
Defined.

(** ** Explain and validated insert *)

Section QueryHandlers.

Variables World Db Coll : Type.
Variable api : Database World Db Coll.

Lemma py_or_not_none (x y : value) : y <> VNone -> py_or x y <> VNone.
Proof.
  unfold py_or. destruct x; simpl; auto; try discriminate.
  - destruct b; auto; discriminate.
  - destruct (z =? 0); auto; discriminate.
  - destruct (Qnum q =? 0); auto; discriminate.
  - destruct (String.eqb s ""); auto; discriminate.
  - destruct l; auto; discriminate.
  - destruct d; auto; discriminate.
Qed.

(** X17: the answer of [handle_explain_query] holds "plans", "warnings" and
    "stats", in that order and none of them [None], followed by
    "index_suggestions" exactly when [suggest_indexes] is left out or true. *)
Theorem explain_query_entries (db : Db) (args : dict value) (w w' : World) (v : value) :
  handle_explain_query api db (Some (VDict args)) w = (Return v, w') ->
  exists d,
    v = VDict d
    /\ dict_keys d
       = (["plans"; "warnings"; "stats"]
          ++ (if truthy (get_or args "suggest_indexes" (VBool true))
              then ["index_suggestions"] else []))%list
    /\ forall k x, In (k, x) d -> x <> VNone.
Proof.
  unfold handle_explain_query. intros H.
  apply and_then_inv in H. destruct H as [result [w1 [Hsum H]]].
  unfold explain_summary in Hsum.
  apply and_then_done_inv in Hsum. destruct Hsum as [query [_ Hsum]].
  apply and_then_done_inv in Hsum. destruct Hsum as [bind_vars [_ Hsum]].
  apply and_then_done_inv in Hsum. destruct Hsum as [max_plans [_ Hsum]].
  apply and_then_done_inv in Hsum. destruct Hsum as [max_plans' [_ Hsum]].
  apply and_then_inv in Hsum. destruct Hsum as [explain [w2 [_ Hsum]]].
  apply and_then_done_inv in Hsum. destruct Hsum as [plans [_ Hsum]].
  apply and_then_done_inv in Hsum. destruct Hsum as [warnings [_ Hsum]].
  apply and_then_done_inv in Hsum. destruct Hsum as [stats [_ Hsum]].
  unfold done in Hsum. inversion Hsum; subst result w1. clear Hsum.
  apply and_then_done_inv in H. destruct H as [suggest [Hsug H]].
  simpl in Hsug. inversion Hsug; subst suggest. clear Hsug.
  assert (Hp : py_or plans (VList []) <> VNone) by (apply py_or_not_none; discriminate).
  assert (Hw : py_or warnings (VList []) <> VNone) by (apply py_or_not_none; discriminate).
  assert (Hs : py_or stats (VDict []) <> VNone) by (apply py_or_not_none; discriminate).
  destruct (truthy (get_or args "suggest_indexes" (VBool true))).
  - apply and_then_done_inv in H. destruct H as [query' [_ H]].
    apply and_then_done_inv in H. destruct H as [suggestions [Hsugg H]].
    unfold done in H. inversion H; subst v w'. clear H.
    eexists. split; [reflexivity|]. split; [reflexivity|].
    intros k x Hin. simpl in Hin.
    destruct Hin as [Hin|[Hin|[Hin|[Hin|[]]]]]; inversion Hin; subst; auto.
    intros ->. unfold _analyze_query_for_indexes in Hsugg.
    destruct (py_iter _) as [ps|e]; [|discriminate].
    destruct (plan_suggestions ps) as [ss|e]; [|discriminate].
    destruct (deduplicate ss []); discriminate.
  - unfold done in H. inversion H; subst v w'. clear H.
    eexists. split; [reflexivity|]. split; [reflexivity|].
    intros k x Hin. simpl in Hin.
    destruct Hin as [Hin|[Hin|[Hin|[]]]]; inversion Hin; subst; auto.
Qed.

(** X18: [handle_insert_with_validation] inserts nothing when the check of the
    reference fields reports invalid references: it answers with them after
    the query alone.  When no reference fields are given it sends no query and
    inserts the document. *)
Theorem validated_insert_checks_first (db : Db) (args : dict value) (doc : value) :
  dict_get args "document" = Some doc ->
  let ref_fields := py_or (get args "reference_fields") (VList []) in
  (forall w w1 cursor invalid more,
     truthy ref_fields = true ->
     api_execute api db validation_query
       (Some (VDict [("doc", doc); ("fields", ref_fields)])) w = (Return cursor, w1) ->
     py_iter cursor = Return (invalid :: more) ->
     truthy invalid = true ->
     handle_insert_with_validation api db (Some (VDict args)) w
     = (Return (VDict [("error", VStr "Invalid references");
                       ("invalid_references", invalid)]), w1))
  /\ (forall w w1 w2 name col result,
        truthy ref_fields = false ->
        dict_get args "collection" = Some name ->
        api_collection api db name w = (Return col, w1) ->
        api_insert api col doc w1 = (Return result, w2) ->
        handle_insert_with_validation api db (Some (VDict args)) w
        = (document_meta result, w2)).
Proof.
  intros Hdoc ref_fields. subst ref_fields.
  unfold handle_insert_with_validation, and_then, done, py_get, py_get_or, py_item.
  fold (get args "reference_fields"). split.
  - intros w w1 cursor invalid more Hrf Hexec Hiter Hinv.
    rewrite Hrf, Hdoc, Hexec, Hiter. cbn [first_item]. now rewrite Hinv.
  - intros w w1 w2 name col result Hrf Hname Hcol Hins.
    rewrite Hrf, Hname, Hcol, Hdoc, Hins.
    now destruct (document_meta result).
Qed.

Lemma normalize_updates_malformed (us : list value) (item : value) :
  In item us -> (forall d, item <> VDict d) ->
  exists e, normalize_updates us = Raise e.
Proof.
  intros Hin Hnot. induction us as [|u us IH]; [contradiction|]. simpl.
  destruct (normalize_update u) as [payload|e] eqn:E; [|eauto].
  destruct Hin as [->|Hin].
  - destruct item; try discriminate. now contradiction (Hnot d).
  - destruct (IH Hin) as [e ->]. eauto.
Qed.

Lemma slice_list_all (A : Type) (l : list A) (n : Z) :
  Z.of_nat (List.length l) <= n -> slice_list l 0 (0 + n) = l.
Proof.
  intros Hn. unfold slice_list, clamp_index. simpl (0 <? 0).
  replace (0 + n <? 0) with false by (symmetry; apply Z.ltb_ge; lia).
  replace (Z.min 0 (Z.of_nat (List.length l))) with 0 by lia.
  replace (Z.min (0 + n) (Z.of_nat (List.length l))) with (Z.of_nat (List.length l))
    by lia.
  simpl. rewrite Z.sub_0_r, Nat2Z.id. apply firstn_all.
Qed.

Lemma range_from_single (n step : Z) :
  0 < n -> n <= step -> range_from 0 n step (Z.to_nat n) = [0].
Proof.
  intros Hn Hstep. destruct (Z.to_nat n) as [|fuel] eqn:E; [lia|].
  simpl. replace (0 <? n) with true by (symmetry; apply Z.ltb_lt; lia).
  destruct fuel; [reflexivity|]. simpl.
  replace (step <? n) with false by (symmetry; apply Z.ltb_ge; lia). reflexivity.
Qed.

(** X19: a bulk update whose items fit in one batch and hold an item that is
    not a dict sends nothing to the driver: the whole batch is counted as
    failed, with one error entry, whatever [on_error] says. *)
Theorem bulk_update_malformed_batch (db : Db) (args : dict value) (name item : value)
  (col : Coll) (updates : list value) (batch_size : Z) (w w1 : World) :
  dict_get args "collection" = Some name ->
  api_collection api db name w = (Return col, w1) ->
  py_or (get args "updates") (VList []) = VList updates ->
  py_int (get_or args "batch_size" (VInt 1000)) = Return batch_size ->
  Z.of_nat (List.length updates) <= batch_size ->
  In item updates ->
  (forall d, item <> VDict d) ->
  exists e,
    normalize_updates updates = Raise e
    /\ handle_bulk_update api db (Some (VDict args)) w
       = (Return (VDict [("total_updates", VInt (Z.of_nat (List.length updates)));
                         ("updated_count", VInt 0);
                         ("error_count", VInt (Z.of_nat (List.length updates)));
                         ("errors",
                          VList [batch_error 0 (Z.of_nat (List.length updates)) e])]),
          w1).
Proof.
  intros Hname Hcol Hups Hbs Hfit Hin Hnot.
  destruct (normalize_updates_malformed updates Hin Hnot) as [e He].
  exists e. split; [exact He|].
  assert (Hpos : 0 < Z.of_nat (List.length updates))
    by (destruct updates; [contradiction | simpl; lia]).
  unfold handle_bulk_update, and_then, done, py_item, py_get, py_get_or.
  rewrite Hname, Hcol. fold (get args "updates"). rewrite Hups, Hbs.
  cbn [py_len]. unfold py_range_step.
  replace (batch_size =? 0) with false by (symmetry; apply Z.eqb_neq; lia).
  replace (batch_size <? 0) with false by (symmetry; apply Z.ltb_ge; lia).
  rewrite range_from_single by lia.
  cbn [bulk_update_loop]. unfold and_then, done. cbn [py_slice].
  rewrite slice_list_all by assumption.
  unfold update_batch, and_then, done. cbn [py_iter py_len]. rewrite He.
  cbn [updated_count update_error_count update_errors app].
  destruct (value_eqb_str (get_or args "on_error" (VStr "stop")) "stop");
    rewrite ?Z.add_0_l; reflexivity.
Qed.

End QueryHandlers.

(** X17, witness: the plans of [filtering_db] with the default
    [suggest_indexes]. *)
Lemma explain_query_entries_witness :
  exists d,
    VDict [("plans", VList [VDict [("nodes",
                VList [VDict [("type", VStr "Filter"); ("id", VInt 4)];
                       VDict [("type", VStr "Filter"); ("id", VInt 4)]])]]);
           ("warnings", VList []);
           ("stats", VDict []);
           ("index_suggestions",
            VList [VDict [("hint", VStr index_hint); ("nodeId", VInt 4)]])]
    = VDict d
    /\ dict_keys d = ["plans"; "warnings"; "stats"; "index_suggestions"]
    /\ forall k x, In (k, x) d -> x <> VNone.
Proof.
  apply (@explain_query_entries nat nat string filtering_db 0%nat
           [("query", VStr "FOR o IN orders FILTER o.total > 10 RETURN o")] 0%nat 0%nat).
  reflexivity.
Defined.

(** X18, witness: a dangling reference stops the insert (no write is counted);
    without reference fields the document is inserted. *)
Lemma validated_insert_checks_first_witness :
  handle_insert_with_validation dangling_db 0%nat
    (Some (VDict [("collection", VStr "orders");
                  ("document", VDict [("owner", VStr "users/9")]);
                  ("reference_fields", VList [VStr "owner"])])) 0%nat
  = (Return (VDict [("error", VStr "Invalid references");
                    ("invalid_references",
                     VList [VDict [("field", VStr "owner"); ("value", VStr "users/9")]])]),
     0%nat)
  /\ handle_insert_with_validation dangling_db 0%nat
       (Some (VDict [("collection", VStr "orders");
                     ("document", VDict [("owner", VStr "users/9")])])) 0%nat
     = (Return (VDict [("_id", VStr "orders/1"); ("_key", VStr "1"); ("_rev", VStr "_r1")]),
        1%nat).
Proof.
  split.
  - apply (proj1 (@validated_insert_checks_first nat nat string dangling_db 0%nat
             [("collection", VStr "orders");
              ("document", VDict [("owner", VStr "users/9")]);
              ("reference_fields", VList [VStr "owner"])]
             (VDict [("owner", VStr "users/9")]) eq_refl)
           0%nat 0%nat
           (VList [VList [VDict [("field", VStr "owner"); ("value", VStr "users/9")]]])
           (VList [VDict [("field", VStr "owner"); ("value", VStr "users/9")]]) []);
      reflexivity.
  - apply (proj2 (@validated_insert_checks_first nat nat string dangling_db 0%nat
             [("collection", VStr "orders");
              ("document", VDict [("owner", VStr "users/9")])]
             (VDict [("owner", VStr "users/9")]) eq_refl)
           0%nat 0%nat 1%nat (VStr "orders") "orders"
           (VDict [("_id", VStr "orders/1"); ("_key", VStr "1"); ("_rev", VStr "_r1")]));
      reflexivity.
Defined.

(** X19, witness: the second of two updates is a string; nothing is written. *)
Lemma bulk_update_malformed_batch_witness :
  exists e,
    normalize_updates [VDict [("key", VStr "1"); ("update", VDict [("age", VInt 3)])];
                       VStr "oops"] = Raise e
    /\ handle_bulk_update users_db 0%nat
         (Some (VDict [("collection", VStr "users");
                       ("updates",
                        VList [VDict [("key", VStr "1");
                                      ("update", VDict [("age", VInt 3)])];
                               VStr "oops"]);
                       ("on_error", VStr "continue")])) 0%nat
       = (Return (VDict [("total_updates", VInt 2);
                         ("updated_count", VInt 0);
                         ("error_count", VInt 2);
                         ("errors", VList [batch_error 0 2 e])]), 0%nat).
Proof.
  apply (@bulk_update_malformed_batch nat nat string users_db 0%nat
           [("collection", VStr "users");
            ("updates",
             VList [VDict [("key", VStr "1"); ("update", VDict [("age", VInt 3)])];
                    VStr "oops"]);
            ("on_error", VStr "continue")]
           (VStr "users") (VStr "oops") "users"
           [VDict [("key", VStr "1"); ("update", VDict [("age", VInt 3)])]; VStr "oops"]
           1000 0%nat 0%nat);
    try reflexivity.
  - simpl. lia.
  - simpl. right. left. reflexivity.
  - intros d. discriminate.
Defined.

(** ** Backup *)

Lemma append_assoc (a b c : string) : ((a ++ b) ++ c = a ++ (b ++ c))%string.
Proof. induction a as [|x a IH]; simpl; [reflexivity | now rewrite IH]. Qed.

Lemma prefix_inv (p s : string) : String.prefix p s = true -> exists t, s = p ++ t.
Proof.
  revert s. induction p as [|c p IH]; intros s H.
  - exists s. reflexivity.
  - destruct s as [|d s]; simpl in H; [discriminate|].
    destruct (ascii_dec c d) as [->|]; [|discriminate].
    destruct (IH s H) as [t ->]. now exists t.
Qed.

Lemma contains_inv (hay needle : string) :
  contains hay needle = true -> exists pre post, hay = pre ++ needle ++ post.
Proof.
  induction hay as [|c hay IH]; rewrite contains_unfold.
  - destruct (String.prefix needle "") eqn:E; [|discriminate].
    intros _. apply prefix_inv in E. destruct E as [t E]. now exists "", t.
  - destruct (String.prefix needle (String c hay)) eqn:E.
    + intros _. apply prefix_inv in E. destruct E as [t E]. now exists "", t.
    + intros H. destruct (IH H) as [pre [post ->]]. now exists (String c pre), post.
Qed.

Lemma contains_trans (s p q : string) :
  contains s p = true -> contains p q = true -> contains s q = true.
Proof.
  intros Hsp Hpq.
  apply contains_inv in Hsp. destruct Hsp as [a [b ->]].
  apply contains_inv in Hpq. destruct Hpq as [c [d ->]].
  apply contains_later. rewrite append_assoc. apply contains_later.
  rewrite append_assoc. apply contains_here.
Qed.

Lemma suspicious_patterns_have_dots (pattern : string) :
  In pattern backup.suspicious_patterns -> contains pattern ".." = true.
Proof.
  intros [<-|[<-|[<-|[<-|[]]]]]; reflexivity.
Qed.

(** X20: a directory whose name holds ".." is never accepted: the request is
    refused with the "Path traversal detected" error.  This is also what a
    name holding one of the suspicious patterns gets, the test for them
    coming second. *)
Theorem path_traversal_rejected (os : backup.Os) (output_dir abs_path pattern : string) :
  backup.abspath os output_dir = Return abs_path ->
  contains output_dir ".." = true
  \/ (In pattern backup.suspicious_patterns /\ contains output_dir pattern = true) ->
  backup.validate_output_directory os output_dir = Raise backup.traversal_detected.
Proof.
  intros Habs H.
  assert (Hdots : contains output_dir ".." = true).
  { destruct H as [H|[Hin H]]; [exact H|].
    eapply contains_trans; [exact H|]. now apply suspicious_patterns_have_dots. }
  unfold backup.validate_output_directory. now rewrite Habs, Hdots.
Qed.

(** X21: a directory that is accepted is returned as its absolute path; its
    name holds no "..", and the absolute path starts with the temporary
    directory, or its path relative to the working directory does not start
    with "..", or, on Windows only, it has "temp" in its lower-cased name. *)
Theorem accepted_directory_is_contained (os : backup.Os) (output_dir p : string) :
  backup.validate_output_directory os output_dir = Return p ->
  backup.abspath os output_dir = Return p
  /\ contains output_dir ".." = false
  /\ exists temp_dir,
       backup.gettempdir os = Return temp_dir
       /\ (String.prefix temp_dir p = true
           \/ (exists cwd rel_path,
                 backup.getcwd os = Return cwd
                 /\ backup.relpath os p cwd = Return rel_path
                 /\ String.prefix ".." rel_path = false)
           \/ (backup.os_name os = "nt"
               /\ contains (backup.lower os p) "temp" = true)).
Proof.
  unfold backup.validate_output_directory. intros H.
  destruct (backup.abspath os output_dir) as [abs_path|e]; [|discriminate].
  destruct (contains output_dir "..") eqn:Hdots; [discriminate|].
  destruct (find (contains output_dir) backup.suspicious_patterns); [discriminate|].
  destruct (backup.gettempdir os) as [temp_dir|e]; [|discriminate].
  assert (Hnt : forall e, backup.outside_cwd os output_dir abs_path temp_dir e = Return p ->
                abs_path = p
                /\ (String.prefix temp_dir p = true
                    \/ (backup.os_name os = "nt"
                        /\ contains (backup.lower os p) "temp" = true))).
  { intros e. unfold backup.outside_cwd.
    destruct (String.eqb (backup.os_name os) "nt") eqn:Hos; [|discriminate].
    apply String.eqb_eq in Hos. simpl.
    destruct (contains (backup.lower os (exn_str e)) "different drives"); [|discriminate].
    destruct (contains (backup.lower os abs_path) "temp") eqn:Htemp; simpl.
    - intros He. inversion He; subst. auto.
    - destruct (String.prefix temp_dir abs_path) eqn:Hpre; [|discriminate].
      intros He. inversion He; subst. auto. }
  destruct (String.prefix temp_dir abs_path) eqn:Hpre.
  - inversion H; subst. repeat split; auto. exists temp_dir. auto.
  - destruct (backup.getcwd os) as [cwd|e]; [|discriminate].
    destruct (backup.relpath os abs_path cwd) as [rel_path|e] eqn:Hrel.
    + destruct (String.prefix ".." rel_path) eqn:Hup.
      * destruct (Hnt _ H) as [-> Hwhere]. repeat split; auto.
        exists temp_dir. split; [reflexivity|]. destruct Hwhere; auto.
      * inversion H; subst. repeat split; auto. exists temp_dir.
        split; [reflexivity|]. right. left. eauto.
    + destruct (backup.is_ValueError e); [|discriminate].
      destruct (Hnt _ H) as [-> Hwhere]. repeat split; auto.
      exists temp_dir. split; [reflexivity|]. destruct Hwhere; auto.
Qed.

Section BackupFacts.

Variables World Db Coll Cursor File : Type.
Variable py_repr : value -> string.
Variable os : backup.Os.
Variable fs : backup.Files World Coll Cursor File.
Variable api : Database World Db Coll.

Local Abbreviation backup_to_dir := (backup.backup_collections_to_dir py_repr os fs api).


Lemma py_ge_int_spec (i n : Z) : backup.py_ge_int i (VInt n) = Return (n <=? i).
Proof.
  unfold backup.py_ge_int. simpl. f_equal.
  unfold Qle_bool, inject_Z. simpl. now rewrite !Z.mul_1_r.
Qed.

Lemma dump_rows_bound (f : File) (doc_limit : value) (rows : list (outcome value)) :
  forall (i : Z) (first_doc : bool) (count : Z) (w w' : World) (c : Z),
    backup.dump_rows fs f doc_limit rows i first_doc count w = (Return c, w') ->
    count <= c
    /\ forall n, doc_limit = VInt n -> i = count -> c <= Z.max count n.
Proof.
  induction rows as [|[doc|e] rows IH]; intros i first_doc count w w' c H.
  - inversion H; subst. split; [lia|]. intros. lia.
  - simpl in H. apply and_then_done_inv in H. destruct H as [stop [Hstop H]].
    destruct stop.
    + inversion H; subst. split; [lia|]. intros. lia.
    + apply and_then_inv in H. destruct H as [u1 [w1 [_ H]]].
      apply and_then_inv in H. destruct H as [u2 [w2 [_ H]]].
      apply and_then_inv in H. destruct H as [u3 [w3 [_ H]]].
      apply IH in H. destruct H as [Hle Hmax]. split; [lia|].
      intros n -> ->. rewrite py_ge_int_spec in Hstop. inversion Hstop as [Hn].
      apply Z.leb_gt in Hn. specialize (Hmax n eq_refl eq_refl). lia.
  - discriminate.
Qed.

Lemma write_collection_bound (path : string) (doc_limit : value) (cursor : Cursor)
  (w w' : World) (c : Z) :
  backup.write_collection fs path doc_limit cursor w = (Return c, w') ->
  0 <= c /\ forall n, doc_limit = VInt n -> c <= Z.max 0 n.
Proof.
  unfold backup.write_collection, backup.with_file. intros H.
  destruct (backup.file_open fs path w) as [[f|e] w1]; [|discriminate].
  match type of H with
  | context [match ?b with _ => _ end] => destruct b as [[a|e] w2] eqn:Hbody
  end.
  - destruct (backup.file_close fs f w2) as [[u|e] w3]; [|discriminate].
    inversion H; subst a. clear H.
    apply and_then_inv in Hbody. destruct Hbody as [u1 [w4 [_ Hbody]]].
    apply and_then_inv in Hbody. destruct Hbody as [count [w5 [Hdump Hbody]]].
    apply and_then_inv in Hbody. destruct Hbody as [u2 [w6 [_ Hbody]]].
    inversion Hbody; subst. apply dump_rows_bound in Hdump.
    destruct Hdump as [Hle Hmax]. split; [exact Hle|].
    intros n Hn. now apply Hmax.
  - destruct (backup.file_close fs f w2) as [[u|e'] w3]; discriminate.
Qed.

Lemma export_loop_entries (db : Db) (output_dir : string) (all_cols : list value)
  (doc_limit : value) (names : list value) :
  forall (written : list value) (cursor : option Cursor) (w w' : World)
         (out : list value),
    Forall (backup.entry_within all_cols doc_limit) written ->
    backup.export_loop py_repr os fs api db output_dir all_cols doc_limit
      names written cursor w = (Return out, w') ->
    Forall (backup.entry_within all_cols doc_limit) out.
Proof.
  induction names as [|name names IH]; intros written cursor w w' out Hw H.
  - inversion H; subst. exact Hw.
  - simpl in H. destruct (existsb (py_eq name) all_cols) eqn:Hin; cbn [negb] in H.
    + apply and_then_inv in H. destruct H as [col [w1 [_ H]]].
      destruct (backup.col_all fs col w1) as [[c|e] w2].
      * destruct (backup.write_collection fs
                    (backup.path_join os output_dir (py_str py_repr name ++ ".json"))
                    doc_limit c w2) as [r w3] eqn:Hwrite.
        apply IH in H; [exact H|].
        apply Forall_app. split; [exact Hw|]. constructor; [|constructor].
        unfold backup.entry_within. destruct r as [count|e]; simpl.
        -- apply write_collection_bound in Hwrite. destruct Hwrite as [H0 Hmax].
           exists name. eexists. exists count, []. repeat split; auto.
        -- exists name. eexists. exists 0. eexists. repeat split; auto; intros; lia.
      * apply IH in H; [exact H|].
        apply Forall_app. split; [exact Hw|]. constructor; [|constructor].
        unfold backup.entry_within.
        exists name. eexists. exists 0. eexists. simpl. repeat split; auto; intros; lia.
    + now apply IH in H.
Qed.

Lemma total_documents_bound (all_cols : list value) (doc_limit : value)
  (written : list value) :
  Forall (backup.entry_within all_cols doc_limit) written ->
  exists total,
    backup.total_documents written = Return total
    /\ 0 <= total
    /\ forall n, doc_limit = VInt n ->
                 total <= Z.of_nat (List.length written) * Z.max 0 n.
Proof.
  induction 1 as [|entry written [name [path [count [tail [-> [_ [H0 Hmax]]]]]]] _ IH].
  - exists 0. repeat split; simpl; intros; lia.
  - destruct IH as [total [Htotal [Ht0 Htmax]]].
    exists (count + total). cbn [backup.total_documents py_item dict_get].
    change (String.eqb "collection" "count") with false.
    change (String.eqb "path" "count") with false.
    rewrite String.eqb_refl. cbn [py_int]. rewrite Htotal.
    repeat split; [lia|]. intros n Hn.
    specialize (Hmax n Hn). specialize (Htmax n Hn).
    change (List.length (VDict (("collection", name) :: ("path", VStr path)
                                :: ("count", VInt count) :: tail) :: written))
      with (S (List.length written)).
    rewrite Nat2Z.inj_succ. nia.
Qed.

(** X23: the report of a backup.  Every entry of "written" names a
    collection the database lists outside its system collections, so a name
    that is asked for and not listed is skipped; its count is not negative
    and, with an integer [doc_limit], at most [max(0, doc_limit)]: the limit
    when it is not negative, and 0 when it is (a negative limit writes no
    document at all).  "total_collections" is the number of entries, and
    "total_documents" is not negative and at most that number times
    [max(0, doc_limit)]. *)
Theorem backup_report_within_limits (db : Db) (output_dir collections doc_limit : value)
  (w w' : World) (v : value) :
  backup_to_dir db output_dir collections doc_limit w = (Return v, w') ->
  exists dir written total w1 w2 cols listed all_cols,
    v = VDict [("output_dir", VStr dir);
               ("written", VList written);
               ("total_collections", VInt (Z.of_nat (List.length written)));
               ("total_documents", VInt total)]
    /\ api_collections api db w1 = (Return cols, w2)
    /\ py_iter cols = Return listed
    /\ non_system_names listed = Return all_cols
    /\ Forall (backup.entry_within all_cols doc_limit) written
    /\ 0 <= total
    /\ forall n, doc_limit = VInt n ->
                 total <= Z.of_nat (List.length written) * Z.max 0 n.
Proof.
  unfold backup.backup_collections_to_dir. intros H.
  apply and_then_inv in H. destruct H as [dir0 [w0 [_ H]]].
  apply and_then_done_inv in H. destruct H as [dir [_ H]].
  apply and_then_inv in H. destruct H as [u [w1 [_ H]]].
  apply and_then_inv in H. destruct H as [cols [w2 [Hcols H]]].
  apply and_then_done_inv in H. destruct H as [listed [Hlisted H]].
  apply and_then_done_inv in H. destruct H as [all_cols [Hall H]].
  cbv zeta in H.
  apply and_then_done_inv in H. destruct H as [names [_ H]].
  apply and_then_inv in H. destruct H as [written [w3 [Hloop H]]].
  apply and_then_done_inv in H. destruct H as [total [Htotal H]].
  unfold done in H. inversion H; subst v w'. clear H.
  apply export_loop_entries in Hloop; [|constructor].
  destruct (@total_documents_bound _ _ _ Hloop) as [total' [Htotal' [H0 Hmax]]].
  rewrite Htotal in Htotal'. inversion Htotal'; subst total'.
  exists dir, written, total, w1, w2, cols, listed, all_cols.
  repeat split; auto.
Qed.

End BackupFacts.

Lemma blank_dots (pre post : string) : backup.blank (pre ++ ".." ++ post) = false.
Proof.
  unfold backup.blank. induction pre as [|c pre IH]; [reflexivity|].
  change (list_ascii_of_string (String c pre ++ ".." ++ post))
    with (c :: list_ascii_of_string (pre ++ ".." ++ post)).
  cbn [forallb]. rewrite IH. apply andb_false_r.
Qed.

Section BackupTool.

Variables World Db Coll Cursor File : Type.
Variable py_repr : value -> string.
Variable os : backup.Os.
Variable fs : backup.Files World Coll Cursor File.
Variable api : Database World Db Coll.

(** X24: the backup tool, with the backup routine of backup.py behind the
    handler.  Asked for a directory whose name holds "..", under either
    spelling of the argument, the decorated handler answers with an error
    dictionary of the kind "ValueError" and nothing is touched. *)
Theorem backup_tool_refuses_traversal (drv : Driver World Db Coll) (db : Db)
  (args : dict value) (output_dir abs_path : string) (w : World) :
  backup_collections_to_dir drv = backup.backup_collections_to_dir py_repr os fs api ->
  py_or (get args "output_dir") (get args "outputDir") = VStr output_dir ->
  backup.abspath os output_dir = Return abs_path ->
  contains output_dir ".." = true ->
  wrapper (handle_backup drv) db (VDict args) w
  = (Return (error_result
               "Operation failed: Invalid output directory: Path traversal detected: '..' not allowed in path"
               "ValueError"), w).
Proof.
  intros Hdrv Hdir Habs Hdots.
  assert (Hblank : backup.blank output_dir = false).
  { apply contains_inv in Hdots. destruct Hdots as [pre [post ->]].
    apply blank_dots. }
  assert (Hval : backup.validate_output_directory os output_dir
                 = Raise backup.traversal_detected).
  { unfold backup.validate_output_directory. now rewrite Habs, Hdots. }
  unfold wrapper, handle_backup. rewrite Hdir, Hdrv.
  unfold backup.backup_collections_to_dir, and_then, done.
  rewrite Hblank, Hval. reflexivity.
Qed.

End BackupTool.

(** X20, witness: a request that climbs out of the backups directory. *)
Lemma path_traversal_rejected_witness :
  backup.validate_output_directory posix_os "backups/../../etc"
  = Raise backup.traversal_detected.
Proof.
  apply (@path_traversal_rejected posix_os "backups/../../etc"
           "/srv/etc" "/../").
  - reflexivity.
  - right. split; [simpl; auto | reflexivity].
Defined.

(** X21, witness: a directory below the working directory. *)
Lemma accepted_directory_is_contained_witness :
  backup.abspath posix_os "backups/today" = Return "/srv/app/backups/today"
  /\ contains "backups/today" ".." = false
  /\ exists temp_dir,
       backup.gettempdir posix_os = Return temp_dir
       /\ (String.prefix temp_dir "/srv/app/backups/today" = true
           \/ (exists cwd rel_path,
                 backup.getcwd posix_os = Return cwd
                 /\ backup.relpath posix_os "/srv/app/backups/today" cwd = Return rel_path
                 /\ String.prefix ".." rel_path = false)
           \/ (backup.os_name posix_os = "nt"
               /\ contains (backup.lower posix_os "/srv/app/backups/today") "temp" = true)).
Proof.
  apply (@accepted_directory_is_contained posix_os "backups/today").
  reflexivity.
Defined.


(** X23, witness: four collections are asked for with a limit of 2; the two
    that are listed are written, with two of their three rows each. *)
Lemma backup_report_within_limits_witness :
  exists dir written total w1 w2 cols listed all_cols,
    VDict [("output_dir", VStr "/srv/app/backups/today");
           ("written",
            VList [VDict [("collection", VStr "users");
                          ("path", VStr "/srv/app/backups/today/users.json");
                          ("count", VInt 2)];
                   VDict [("collection", VStr "orders");
                          ("path", VStr "/srv/app/backups/today/orders.json");
                          ("count", VInt 2)]]);
           ("total_collections", VInt 2); ("total_documents", VInt 4)]
    = VDict [("output_dir", VStr dir);
             ("written", VList written);
             ("total_collections", VInt (Z.of_nat (List.length written)));
             ("total_documents", VInt total)]
    /\ api_collections users_db 0%nat w1 = (Return cols, w2)
    /\ py_iter cols = Return listed
    /\ non_system_names listed = Return all_cols
    /\ Forall (backup.entry_within all_cols (VInt 2)) written
    /\ 0 <= total
    /\ forall n, VInt 2 = VInt n ->
                 total <= Z.of_nat (List.length written) * Z.max 0 n.
Proof.
  apply (@backup_report_within_limits nat nat string (list (outcome value)) string
           plain_repr posix_os (memory_files three_rows) users_db 0%nat
           (VStr "backups/today")
           (VList [VStr "users"; VStr "nope"; VStr "_graphs"; VStr "orders"])
           (VInt 2) 0%nat 17%nat).
  reflexivity.
Defined.

(** X24, witness: the alias spelling of the directory. *)
Lemma backup_tool_refuses_traversal_witness :
  wrapper (handle_backup backup_driver) 0%nat (VDict [("outputDir", VStr "../etc")]) 0%nat
  = (Return (error_result
               "Operation failed: Invalid output directory: Path traversal detected: '..' not allowed in path"
               "ValueError"), 0%nat).
Proof.
  apply (@backup_tool_refuses_traversal nat nat string (list (outcome value)) string
           plain_repr posix_os (memory_files three_rows) users_db backup_driver 0%nat
           [("outputDir", VStr "../etc")] "../etc" "/srv/etc" 0%nat);
    reflexivity.
Defined.

(** ** Index creation and reference checks *)

Section IndexCreationFacts.

Variables World Db Coll : Type.
Variable py_repr : value -> string.
Variable api : Database World Db Coll.
Variable ix : IndexApi World Coll.

(** X25: what [handle_create_index] refuses, each time with a [ValueError]
    and without making an index: a type that is none of the six index types,
    a TTL index on a list of fields that does not hold exactly one, and a TTL
    index for which [ttl or expireAfter] is [None], as it is when [ttl] is 0
    and [expireAfter] is not given. *)
Theorem create_index_refusals (db : Db) (args : dict value) (collection fields : value)
  (col : Coll) (w w1 : World) :
  dict_get args "collection" = Some collection ->
  api_collection api db collection w = (Return col, w1) ->
  dict_get args "fields" = Some fields ->
  let ix_type := get_or args "type" (VStr "persistent") in
  let refused msg :=
    handle_create_index py_repr api ix db (Some (VDict args)) w
    = (Raise (ValueError msg), w1) in
  (Forall (fun t => py_eq ix_type (VStr t) = false) IndexType ->
   refused ("Unknown index type: " ++ py_str py_repr ix_type))
  /\ (ix_type = VStr "ttl" ->
      forall l, fields = VList l -> List.length l <> 1%nat ->
      refused "TTL index requires exactly one field in 'fields'")
  /\ (ix_type = VStr "ttl" ->
      forall f, fields = VList [f] ->
      py_or (get args "ttl") (get args "expireAfter") = VNone ->
      refused "TTL index requires 'ttl' (expireAfter seconds)").
Proof.
  intros Hc Hcol Hf ix_type refused. subst refused. cbv beta.
  unfold handle_create_index, and_then, done, py_item, py_get, py_get_or.
  rewrite Hc, Hcol, Hf. fold ix_type. repeat split.
  - intros Hall. unfold IndexType in Hall.
    repeat match goal with
           | H : Forall _ (_ :: _) |- _ => inversion H; clear H; subst
           end.
    repeat match goal with
           | H : py_eq ix_type _ = false |- _ => rewrite H; clear H
           end.
    reflexivity.
  - intros -> l -> Hlen. cbn [py_eq String.eqb Ascii.eqb Bool.eqb].
    unfold not_one_field. destruct l as [|x l]; [reflexivity|].
    cbn [truthy negb py_len].
    replace (Z.of_nat (List.length (x :: l)) =? 1) with false
      by (symmetry; apply Z.eqb_neq; lia).
    reflexivity.
  - intros -> f -> Hexp. cbn [py_eq String.eqb Ascii.eqb Bool.eqb].
    unfold not_one_field. cbn [truthy negb py_len].
    change (Z.of_nat (List.length [f]) =? 1) with true. cbn [negb].
    fold (get args "ttl"). fold (get args "expireAfter"). now rewrite Hexp.
Qed.

End IndexCreationFacts.

(** X25, witness: a TTL index with [ttl] 0. *)
Lemma create_index_refusals_witness :
  handle_create_index plain_repr users_db memory_indexes 0%nat
    (Some (VDict [("collection", VStr "users"); ("type", VStr "ttl");
                  ("fields", VList [VStr "createdAt"]); ("ttl", VInt 0)])) 0%nat
  = (Raise (ValueError "TTL index requires 'ttl' (expireAfter seconds)"), 0%nat).
Proof.
  apply (proj2 (proj2 (@create_index_refusals nat nat string plain_repr users_db
                         memory_indexes 0%nat
                         [("collection", VStr "users"); ("type", VStr "ttl");
                          ("fields", VList [VStr "createdAt"]); ("ttl", VInt 0)]
                         (VStr "users") (VList [VStr "createdAt"]) "users" 0%nat 0%nat
                         eq_refl eq_refl eq_refl))
           eq_refl (VStr "createdAt") eq_refl eq_refl).
Defined.

Lemma slice_list_head (A : Type) (l : list A) (n : Z) :
  0 <= n -> slice_list l 0 n = firstn (Z.to_nat n) l.
Proof.
  intros Hn. unfold slice_list, clamp_index.
  change (0 <? 0) with false. cbv iota.
  replace (n <? 0) with false by (symmetry; apply Z.ltb_ge; lia).
  replace (Z.min 0 (Z.of_nat (List.length l))) with 0 by lia.
  rewrite Z.sub_0_r. change (Z.to_nat 0) with 0%nat. cbn [skipn].
  destruct (Z.le_ge_cases n (Z.of_nat (List.length l))) as [Hle|Hge].
  - now rewrite Z.min_l.
  - rewrite Z.min_r by lia. rewrite Nat2Z.id.
    rewrite firstn_all. symmetry. apply firstn_all2. lia.
Qed.

Lemma keys_of_length (docs keys : list value) :
  keys_of docs = Return keys -> List.length keys = List.length docs.
Proof.
  revert keys. induction docs as [|doc docs IH]; simpl; intros keys H.
  - now inversion H.
  - destruct (py_item doc "_key"); [|discriminate].
    destruct (keys_of docs) as [ks|e]; [|discriminate].
    inversion H; subst. simpl. now rewrite (IH ks eq_refl).
Qed.

Section ReferenceFacts.

Variables World Db Coll : Type.
Variable py_repr : value -> string.
Variable api : Database World Db Coll.
Variable cx : CollectionApi World Coll.

(** X26: the report of [handle_validate_references].  "invalid_count" is the
    number of documents the query gives while "invalid_documents" holds the
    first 100 of them, and "validation_passed" is true exactly when there is
    none.  Nothing is removed unless [fix_invalid] is set and there are
    invalid documents; then all of them are given to [delete_many], and
    "removed_count" is their number, or 0 when the removal fails, which is
    not reported as an error. *)
Theorem validate_references_report (db : Db) (args : dict value) (name : value)
  (col : Coll) (fields rows : list value) (cursor total : value) (w w1 w2 w3 : World) :
  dict_get args "collection" = Some name ->
  api_collection api db name w = (Return col, w1) ->
  py_iter (py_or (get args "reference_fields") (VList [])) = Return fields ->
  api_execute api db (references_query py_repr name (quoted_fields py_repr fields)) None w1
  = (Return cursor, w2) ->
  py_iter cursor = Return rows ->
  col_has_count cx col = true ->
  col_count cx col (close_cursor cx cursor w2) = (Return total, w3) ->
  let report :=
    [("total_checked", total);
     ("invalid_count", VInt (Z.of_nat (List.length rows)));
     ("invalid_documents", VList (firstn 100 rows));
     ("validation_passed", VBool (match rows with [] => true | _ => false end))] in
  let answer := handle_validate_references py_repr api cx db (Some (VDict args)) w in
  (truthy (get args "fix_invalid") = false \/ rows = [] ->
   answer = (Return (VDict report), w3))
  /\ (truthy (get args "fix_invalid") = true -> rows <> [] ->
      forall keys, keys_of rows = Return keys ->
        List.length keys = List.length rows
        /\ (forall r w4,
              col_delete_many cx col (VList keys) w3 = (Return r, w4) ->
              answer
              = (Return (VDict (report ++ [("removed_count",
                                            VInt (Z.of_nat (List.length rows)))])%list),
                 w4))
        /\ (forall e w4,
              col_delete_many cx col (VList keys) w3 = (Raise e, w4) ->
              answer
              = (Return (VDict (report ++ [("removed_count", VInt 0)])%list), w4))).
Proof.
  intros Hname Hcol Hfields Hexec Hrows Hhas Hcount report answer.
  assert (Hreport : references_report total rows = report).
  { unfold references_report, report. rewrite slice_list_head by lia.
    change (Z.to_nat 100) with 100%nat. now destruct rows. }
  subst answer.
  unfold handle_validate_references, and_then, done, py_item, py_get, py_get_or,
    list_and_close.
  rewrite Hname, Hcol. fold (get args "reference_fields"). rewrite Hfields, Hexec, Hrows.
  rewrite Hhas, Hcount. fold (get args "fix_invalid"). rewrite Hreport. split.
  - intros [Hfix| ->]; [now rewrite Hfix|].
    now rewrite andb_false_r.
  - intros Hfix Hne keys Hkeys. rewrite Hfix.
    destruct rows as [|row rows']; [now contradiction Hne|]. cbn [truthy andb].
    rewrite Hkeys. pose proof (keys_of_length _ Hkeys) as Hlen.
    split; [exact Hlen|]. split.
    + intros r w4 Hdel. rewrite Hdel, Hlen. reflexivity.
    + intros e w4 Hdel. rewrite Hdel. reflexivity.
Qed.

End ReferenceFacts.

(** X26, witness: two invalid documents and a removal that fails. *)
Lemma validate_references_report_witness :
  handle_validate_references plain_repr referencing_db (memory_collections true) 0%nat
    (Some (VDict [("collection", VStr "orders");
                  ("reference_fields", VList [VStr "owner"]);
                  ("fix_invalid", VBool true)])) 0%nat
  = (Return (VDict [("total_checked", VInt 250);
                    ("invalid_count", VInt 2);
                    ("invalid_documents",
                     VList [VDict [("_id", VStr "orders/1"); ("_key", VStr "1")];
                            VDict [("_id", VStr "orders/2"); ("_key", VStr "2")]]);
                    ("validation_passed", VBool false);
                    ("removed_count", VInt 0)]), 0%nat).
Proof.
  refine (proj2 (proj2 (proj2 (@validate_references_report nat nat string plain_repr
            referencing_db (memory_collections true) 0%nat
            [("collection", VStr "orders");
             ("reference_fields", VList [VStr "owner"]);
             ("fix_invalid", VBool true)]
            (VStr "orders") "orders" [VStr "owner"]
            [VDict [("_id", VStr "orders/1"); ("_key", VStr "1")];
             VDict [("_id", VStr "orders/2"); ("_key", VStr "2")]]
            (VList [VDict [("_id", VStr "orders/1"); ("_key", VStr "1")];
                    VDict [("_id", VStr "orders/2"); ("_key", VStr "2")]])
            (VInt 250) 0%nat 0%nat 0%nat 0%nat
            eq_refl eq_refl eq_refl eq_refl eq_refl eq_refl eq_refl)
          eq_refl _ [VStr "1"; VStr "2"] eq_refl))
        (Exn "DocumentDeleteError" BaseArangoError "write conflict") 0%nat eq_refl).
  discriminate.
Defined.
